(** * OpsIntel360: the analytics pipeline, embedded and verified

  A shallow embedding of the decision logic of OpsIntel360:
    - [src/config.py]             thresholds and anomaly configuration,
    - [src/models/insights.py]    the insight engine,
    - [src/models/anomalies.py]   the anomaly detector,
    - [src/models/forecasting.py] the forecast accuracy computation,
    - [src/etl/utils.py], [src/etl/etl_pipeline.py]  cleaning and loading,
    - [src/api/endpoints.py]      the refresh endpoint.

  Numbers.  The program computes on float64.  Finite float64 values are
  idealised as real numbers ([R]): rounding error and signed zeros are
  not modelled.  The special values the code can produce from finite
  inputs (a division by zero, the sample deviation of fewer than two
  points) are modelled explicitly by [Float.t].  What is proved of a
  test of the code ([std == 0], [score > threshold]) is proved of the
  value the test is made on, not of what exact arithmetic would make
  that value.  A number that leaves pandas keeps the type of its
  column ([Number.t]).

  Text.  The f-strings of the program interpolate formatted numbers
  ([{x:.1f}]).  A message is modelled by its template (one constructor
  per f-string) applied to the numbers it interpolates. *)

From Stdlib Require Import Reals Lra Lia ZArith List String Bool.
From Stdlib Require OrderedTypeEx.
From Stdlib Require Import Sorting.Sorted Sorting.Permutation.
From stdpp Require Import base option list strings gmap.

Local Open Scope string_scope.
Local Open Scope list_scope.

(** ** Comparisons of finite floats, as booleans *)

Definition Rltb (x y : R) : bool := if Rlt_dec x y then true else false.
Definition Rgtb (x y : R) : bool := Rltb y x.
Definition Reqb (x y : R) : bool := if Req_dec_T x y then true else false.

(** Decide every comparison of two concrete reals in the goal. *)
Ltac Rdecide :=
repeat match goal with
| |- context [Rlt_dec ?a ?b] => destruct (Rlt_dec a b); try lra
| |- context [Req_dec_T ?a ?b] => destruct (Req_dec_T a b); try lra
end.

(** ** float64, rounding idealised away *)

Module Float.

Local Open Scope R_scope.

(** A float64 is a finite value, an infinity or a NaN. *)
Inductive t : Type :=
| Fin (r : R)
| PInf
| NInf
| NaN.

(** [x / y] on float64 (numpy: a division by zero is no exception). *)
Definition div (x y : t) : t :=
  match x, y with
  | NaN, _ | _, NaN => NaN
  | Fin a, Fin b =>
      if Reqb b 0 then
        if Reqb a 0 then NaN else if Rltb 0 a then PInf else NInf
      else Fin (a / b)
  | Fin _, (PInf | NInf) => Fin 0
  | PInf, Fin b => if Rltb b 0 then NInf else PInf
  | NInf, Fin b => if Rltb b 0 then PInf else NInf
  | (PInf | NInf), (PInf | NInf) => NaN
  end.

(** [x * y] on float64. *)
Definition mul (x y : t) : t :=
  match x, y with
  | NaN, _ | _, NaN => NaN
  | Fin a, Fin b => Fin (a * b)
  | Fin a, PInf | PInf, Fin a =>
      if Reqb a 0 then NaN else if Rltb 0 a then PInf else NInf
  | Fin a, NInf | NInf, Fin a =>
      if Reqb a 0 then NaN else if Rltb 0 a then NInf else PInf
  | PInf, PInf | NInf, NInf => PInf
  | PInf, NInf | NInf, PInf => NInf
  end.

(** [abs(x)]. *)
Definition abs (x : t) : t :=
  match x with
  | Fin a => Fin (Rabs a)
  | PInf | NInf => PInf
  | NaN => NaN
  end.

(** [x < y]: every comparison with a NaN is false. *)
Definition ltb (x y : t) : bool :=
  match x, y with
  | NaN, _ | _, NaN => false
  | Fin a, Fin b => Rltb a b
  | NInf, (Fin _ | PInf) => true
  | Fin _, PInf => true
  | _, _ => false
  end.

(** [x > y]. *)
Definition gtb (x y : t) : bool := ltb y x.

(** [x == y]. *)
Definition eqb (x y : t) : bool :=
  match x, y with
  | Fin a, Fin b => Reqb a b
  | PInf, PInf | NInf, NInf => true
  | _, _ => false
  end.

(** [x - y] on float64. *)
Definition sub (x y : t) : t :=
  match x, y with
  | NaN, _ | _, NaN => NaN
  | Fin a, Fin b => Fin (a - b)
  | PInf, PInf | NInf, NInf => NaN
  | PInf, _ | _, NInf => PInf
  | NInf, _ | _, PInf => NInf
  end.

End Float.

Coercion Float.Fin : R >-> Float.t.

(** ** The numbers pandas hands over *)

(** A cell of a numeric column comes out of pandas as a [numpy.float64]
    or as a [numpy.int64], by the dtype of its column.  The first is a
    Python [float]; the second is no Python [int]. *)
Module Number.

Inductive t : Type :=
| Float64 (x : Float.t)
| Int64 (n : Z).

(** The value of an int64 computation: two's complement on 64 bits. *)
Definition wrap64 (z : Z) : Z :=
  ((z + 2 ^ 63) mod 2 ^ 64 - 2 ^ 63)%Z.

(** The float64 of a number. *)
Definition to_float (a : t) : Float.t :=
  match a with
  | Float64 x => x
  | Int64 n => Float.Fin (IZR n)
  end.

(** [a - b]: an int64 when both are, a float64 otherwise. *)
Definition sub (a b : t) : t :=
  match a, b with
  | Int64 m, Int64 n => Int64 (wrap64 (m - n))
  | _, _ => Float64 (Float.sub (to_float a) (to_float b))
  end.

(** [a > k] for a Python int [k]. *)
Definition gtb_int (a : t) (k : Z) : bool :=
  match a with
  | Int64 n => (k <? n)%Z
  | Float64 x => Float.gtb x (Float.Fin (IZR k))
  end.

(** Does [json.dump] write the number?  It writes a [float]
    ([numpy.float64] is one, and NaN and the infinities are written
    too) and raises TypeError for a [numpy.int64]. *)
Definition json_serializable (a : t) : bool :=
  match a with
  | Float64 _ => true
  | Int64 _ => false
  end.

End Number.

Coercion Number.Float64 : Float.t >-> Number.t.

(** ** Exceptions *)

(** A call returns a value or raises; the exception carries its message. *)
Inductive result (A : Type) : Type :=
| Ok (a : A)
| Raise (e : string).
Arguments Ok {A} a.
Arguments Raise {A} e.

(** ** [src/api/endpoints.py]: the refresh endpoint *)

Module Endpoints.

(** The module-level dict [refresh_status]. *)
Record RefreshStatus : Type := {
  last_refresh : option string;
  status : string;
  message : string
}.

(** Its initial value. *)
Definition refresh_status0 : RefreshStatus :=
  {| last_refresh := None; status := "idle"; message := "" |}.

(** [class RefreshRequest(BaseModel)]. *)
Record RefreshRequest : Type := {
  regenerate_data : bool;
  run_forecasting : bool;
  run_anomaly_detection : bool;
  run_insights : bool
}.

(** What [refresh_data] hands back: a [JSONResponse] with an explicit
    status code, or a plain dict (which FastAPI sends with code 200). *)
Inductive Response : Type :=
| JSONResponse (status_code : Z) (content : list (string * string))
| Dict (content : list (string * string)).

(** The HTTP status code of a response. *)
Definition status_code_of (r : Response) : Z :=
  match r with
  | JSONResponse c _ => c
  | Dict _ => 200
  end.

(** The state the handler reads and writes: the status dict and the
    tasks queued on [background_tasks] ([refresh_data_task] with its
    request). *)
Record App : Type := {
  refresh_status : RefreshStatus;
  background_tasks : list RefreshRequest
}.

(** [background_tasks.add_task(refresh_data_task, request)]. *)
Definition add_task (request : RefreshRequest) (app : App) : App :=
  {| refresh_status := refresh_status app;
     background_tasks := background_tasks app ++ [request] |}.

(** [async def refresh_data(request, background_tasks)]. *)
Definition refresh_data (request : RefreshRequest) (app : App)
  : Response * App :=
  if String.eqb (status (refresh_status app)) "running" then
    (JSONResponse 409
       [("status", "error"); ("message", "Refresh already in progress")],
     app)
  else
    (Dict [("status", "accepted");
           ("message", "Data refresh started in background");
           ("check_status_at", "/status")],
     add_task request app).

(** *** [refresh_data_task] *)

Definition set_status (s : string) (rs : RefreshStatus) : RefreshStatus :=
  {| last_refresh := last_refresh rs; status := s; message := message rs |}.

Definition set_message (m : string) (rs : RefreshStatus) : RefreshStatus :=
  {| last_refresh := last_refresh rs; status := status rs; message := m |}.

Definition set_last_refresh (t : string) (rs : RefreshStatus)
  : RefreshStatus :=
  {| last_refresh := Some t; status := status rs; message := message rs |}.

Section Task.

(** The four stages, each of which returns or raises ([Some e] is the
    text of the exception), and [datetime.now().isoformat()]. *)
Variable run_full_pipeline : bool -> option string.
Variable forecast_all_key_metrics : option string.
Variable detect_all_anomalies : option string.
Variable generate_all_insights : option string.
Variable now : string.

(** The [except] block. *)
Definition on_exception (e : string) (rs : RefreshStatus)
  : list RefreshStatus :=
  let rs1 := set_status "failed" rs in
  [rs1; set_message ("Error during refresh: " ++ e)%string rs1].

(** A stage behind its flag: the message it sets, then the call. *)
Definition stage (enabled : bool) (msg : string) (call : option string)
    (rest : RefreshStatus -> list RefreshStatus) (rs : RefreshStatus)
  : list RefreshStatus :=
  if enabled then
    let rs1 := set_message msg rs in
    rs1 :: match call with
           | Some e => on_exception e rs1
           | None => rest rs1
           end
  else rest rs.

(** The end of the [try] block. *)
Definition on_success (rs : RefreshStatus) : list RefreshStatus :=
  let rs1 := set_status "completed" rs in
  let rs2 := set_last_refresh now rs1 in
  [rs1; rs2; set_message "Data refresh completed successfully" rs2].

(** [refresh_data_task(request)]: the successive values of
    [refresh_status], one per assignment. *)
Definition refresh_data_task (request : RefreshRequest)
    (rs : RefreshStatus) : list RefreshStatus :=
  let rs1 := set_status "running" rs in
  let rs2 := set_message "Starting data refresh..." rs1 in
  rs1 :: rs2
  :: stage true "Running ETL pipeline..."
       (run_full_pipeline (regenerate_data request))
       (stage (run_forecasting request) "Generating forecasts..."
          forecast_all_key_metrics
          (stage (run_anomaly_detection request) "Detecting anomalies..."
             detect_all_anomalies
             (stage (run_insights request) "Generating insights..."
                generate_all_insights on_success)))
       rs2.

(** The value of [refresh_status] when the task is over. *)
Definition final_status (request : RefreshRequest) (rs : RefreshStatus)
  : RefreshStatus :=
  List.last (refresh_data_task request rs) rs.

(** The first exception of the stages the request enables. *)
Definition first_error (request : RefreshRequest) : option string :=
  match run_full_pipeline (regenerate_data request) with
  | Some e => Some e
  | None =>
      match (if run_forecasting request then forecast_all_key_metrics
             else None) with
      | Some e => Some e
      | None =>
          match (if run_anomaly_detection request then detect_all_anomalies
                 else None) with
          | Some e => Some e
          | None =>
              if run_insights request then generate_all_insights else None
          end
      end
  end.

End Task.

End Endpoints.

(** ** [src/config.py] *)

Module Config.

Local Open Scope R_scope.

(** One entry of [KPI_THRESHOLDS]: a good/warning/critical triple. *)
Record Thresholds : Type := {
  good : R;
  warning : R;
  critical : R
}.

(** The dict [KPI_THRESHOLDS]. *)
Record KpiThresholds : Type := {
  revenue_growth : Thresholds;
  profit_margin : Thresholds;
  employee_turnover : Thresholds;
  ticket_resolution_hours : Thresholds;
  ontime_delivery : Thresholds
}.

Definition KPI_THRESHOLDS : KpiThresholds := {|
  revenue_growth := {| good := 5; warning := 0; critical := -5 |};
  profit_margin := {| good := 20; warning := 10; critical := 5 |};
  employee_turnover := {| good := 10; warning := 15; critical := 20 |};
  ticket_resolution_hours := {| good := 24; warning := 48; critical := 72 |};
  ontime_delivery := {| good := 95; warning := 90; critical := 85 |}
|}.

(** The dict [ANOMALY_CONFIG]. *)
Record AnomalyConfig : Type := {
  contamination : R;
  z_score_threshold : R
}.

Definition ANOMALY_CONFIG : AnomalyConfig :=
  {| contamination := 1 / 10; z_score_threshold := 3 |}.

End Config.

(** ** [src/models/insights.py]: the insight engine *)

Module Insights.

Local Open Scope R_scope.

(** The texts of the insights.  The finance templates are the f-strings
    of [analyze_revenue_trends], applied to the number each one
    formats; [Text] is a finished text of another analyzer. *)
Inductive InsightText : Type :=
| RevenueAccelerated (growth_rate : Float.t)
    (* "Revenue growth accelerated by {growth_rate:.1f}% MoM. ..." *)
| RevenueDeclined (abs_growth_rate : Float.t)
    (* "Revenue declined by {abs(growth_rate):.1f}% MoM. ..." *)
| RevenueSlowed (growth_rate : Float.t)
    (* "Revenue growth slowed to {growth_rate:.1f}% MoM. ..." *)
| RevenueSteady (growth_rate : Float.t)
    (* "Revenue growing steadily at {growth_rate:.1f}% MoM. ..." *)
| MarginCriticallyLow (latest_margin : R)
    (* "Profit margin critically low at {latest_margin:.1f}%. ..." *)
| MarginStrong (latest_margin : R)
    (* "Strong profit margin at {latest_margin:.1f}%. ..." *)
| Text (s : string).

(** An insight dict. *)
Record Insight : Type := {
  date : string;
  category : string;
  insight_text : InsightText;
  severity : string;
  metric_value : Number.t
}.

(** A row of the frame the finance query returns
    ([SELECT date, revenue, profit_margin_pct FROM finance ...]). *)
Record FinanceRow : Type := {
  f_date : string;
  revenue : R;
  profit_margin_pct : R
}.

(** [df.sort_values('date')]: ascending by date, ties in frame order.
    The dates are ISO texts, so the order is the order of strings. *)
Fixpoint insert_by_date (r : FinanceRow) (df : list FinanceRow)
  : list FinanceRow :=
  match df with
  | [] => [r]
  | r' :: df' =>
      if String.ltb (f_date r) (f_date r') then r :: r' :: df'
      else r' :: insert_by_date r df'
  end.

Definition sort_values (df : list FinanceRow) : list FinanceRow :=
  fold_left (fun sorted r => insert_by_date r sorted) df [].

(** Is the insight one of the revenue-growth insights (the dict the
    function appends right after the growth classification)? *)
Definition is_revenue_insight (i : Insight) : bool :=
  match insight_text i with
  | RevenueAccelerated _ | RevenueDeclined _
  | RevenueSlowed _ | RevenueSteady _ => true
  | _ => false
  end.

Section Engine.

(** [self.thresholds = config.KPI_THRESHOLDS]. *)
Variable thresholds : Config.KpiThresholds.

(** The classification of the month-over-month growth rate: the
    [if]/[elif] chain of [analyze_revenue_trends]. *)
Definition classify_growth (growth_rate : Float.t)
  : string * InsightText :=
  if Float.gtb growth_rate
       (Config.good (Config.revenue_growth thresholds)) then
    ("info", RevenueAccelerated growth_rate)
  else if Float.ltb growth_rate
            (Config.critical (Config.revenue_growth thresholds)) then
    ("critical", RevenueDeclined (Float.abs growth_rate))
  else if Float.ltb growth_rate
            (Config.warning (Config.revenue_growth thresholds)) then
    ("warning", RevenueSlowed growth_rate)
  else
    ("info", RevenueSteady growth_rate).

(** [((latest_revenue - prev_revenue) / prev_revenue * 100)]. *)
Definition growth_rate_of (latest_revenue prev_revenue : R) : Float.t :=
  Float.mul
    (Float.div (Float.Fin (latest_revenue - prev_revenue))
               (Float.Fin prev_revenue))
    (Float.Fin 100).

(** The profit-margin part of [analyze_revenue_trends]. *)
Definition margin_insights (date : string) (latest_margin : R)
  : list Insight :=
  if Rltb latest_margin
       (Config.critical (Config.profit_margin thresholds)) then
    [{| date := date; category := "finance";
        insight_text := MarginCriticallyLow latest_margin;
        severity := "critical"; metric_value := latest_margin |}]
  else if Rgtb latest_margin
            (Config.good (Config.profit_margin thresholds)) then
    [{| date := date; category := "finance";
        insight_text := MarginStrong latest_margin;
        severity := "info"; metric_value := latest_margin |}]
  else [].

(** [InsightEngine.analyze_revenue_trends], from the frame [df] that
    [execute_query] returned. *)
Definition analyze_revenue_trends (df : list FinanceRow)
  : list Insight :=
  if (length df <? 2)%nat then []
  else
    let df := sort_values df in
    match rev df with
    | latest :: prev :: _ =>
        let latest_revenue := revenue latest in   (* iloc[-1] *)
        let prev_revenue := revenue prev in       (* iloc[-2] *)
        let growth_rate := growth_rate_of latest_revenue prev_revenue in
        let '(severity, insight_text) := classify_growth growth_rate in
        {| date := f_date latest; category := "finance";
           insight_text := insight_text; severity := severity;
           metric_value := growth_rate |}
        :: margin_insights (f_date latest) (profit_margin_pct latest)
    | _ => []   (* not reached: the frame has two rows or more *)
    end.

(** *** [generate_all_insights] *)

(** The export file [insights.json]. *)
Inductive ExportFile : Type :=
| Absent                          (* no file *)
| Exported (total_insights : nat) (insights : list Insight)
    (* the finished text; generated_at is a clock reading *)
| Unfinished
    (* opened for writing, and left with the start of the text *).

(** What the function reads and writes besides its result: the
    [insights] table, the export file and the attribute
    [self.insights]. *)
Record World : Type := {
  insights_table : list Insight;
  insights_json : ExportFile;
  self_insights : list Insight
}.

(** Does [json.dump] write the insight?  The dates and texts are
    [str]; the metric value is what the analyzer put under
    ['metric_value']. *)
Definition json_serializable (i : Insight) : bool :=
  Number.json_serializable (metric_value i).

(** The five analyzers as [generate_all_insights] sees them: each
    call returns its insights or raises.  They read the fact tables,
    which the function does not write. *)
Variable analyze_revenue_trends_call : unit -> result (list Insight).
Variable analyze_sales_performance : unit -> result (list Insight).
Variable analyze_operations_efficiency : unit -> result (list Insight).
Variable analyze_hr_metrics : unit -> result (list Insight).
Variable analyze_it_performance : unit -> result (list Insight).

(** Does [insert_insight] of the insight raise on this table? *)
Variable insert_insight_error : list Insight -> Insight -> option string.

(** Does [open(output_path, 'w')] raise? *)
Variable open_error : option string.

(** [insert_insight]: one row more in [insights], or an exception
    and the table as it was. *)
Definition insert_insight (i : Insight) (table : list Insight)
  : result (list Insight) :=
  match insert_insight_error table i with
  | Some e => Raise e
  | None => Ok (table ++ [i])
  end.

(** The list [insight_functions]. *)
Definition insight_functions
  : list (string * (unit -> result (list Insight))) :=
  [ ("Finance", analyze_revenue_trends_call);
    ("Sales", analyze_sales_performance);
    ("Operations", analyze_operations_efficiency);
    ("HR", analyze_hr_metrics);
    ("IT", analyze_it_performance) ].

(** The first loop: [try: all_insights.extend(func()) except: print]. *)
Definition collect_insights
    (fs : list (string * (unit -> result (list Insight))))
  : list Insight :=
  fold_left
    (fun all_insights '(_, func) =>
       match func tt with
       | Ok insights => all_insights ++ insights
       | Raise _ => all_insights
       end)
    fs [].

(** The second loop: [try: insert_insight except: print]. *)
Definition save_insights (all_insights table : list Insight)
  : list Insight :=
  fold_left
    (fun table insight =>
       match insert_insight insight table with
       | Ok table' => table'
       | Raise _ => table
       end)
    all_insights table.

(** [InsightEngine._save_insights_to_json]: [json.dump] writes the
    text piece by piece and raises at the first value it cannot
    write. *)
Definition _save_insights_to_json (insights : list Insight)
    (file : ExportFile) : result unit * ExportFile :=
  match open_error with
  | Some e => (Raise e, file)
  | None =>
      if forallb json_serializable insights then
        (Ok tt, Exported (length insights) insights)
      else
        (Raise "Object of type int64 is not JSON serializable", Unfinished)
  end.

(** [InsightEngine.generate_all_insights]: the result, or the
    exception that escaped, and the world it leaves.  The call of
    [_save_insights_to_json] is in no [try]. *)
Definition generate_all_insights (w : World)
  : result (list Insight) * World :=
  let all_insights := collect_insights insight_functions in
  let table := save_insights all_insights (insights_table w) in
  let '(saved, file) :=
    _save_insights_to_json all_insights (insights_json w) in
  let w' := {| insights_table := table;
               insights_json := file;
               self_insights := all_insights |} in
  match saved with
  | Raise e => (Raise e, w')
  | Ok _ => (Ok all_insights, w')
  end.

End Engine.

(** What a call contributes to [all_insights]. *)
Definition contribution (r : result (list Insight)) : list Insight :=
  match r with
  | Ok insights => insights
  | Raise _ => []
  end.

(** The five domains of [insight_functions], in its order. *)
Inductive Domain : Type := Finance | Sales | Operations | HR | IT.

#[global] Instance Domain_eq_dec : EqDecision Domain.
Proof. solve_decision. Defined.

Definition domains : list Domain := [Finance; Sales; Operations; HR; IT].

(** [generate_all_insights] with its analyzers given per domain. *)
Definition generate_all_insights_of
    (func : Domain -> unit -> result (list Insight))
    (insert_insight_error : list Insight -> Insight -> option string)
    (open_error : option string) (w : World)
  : result (list Insight) * World :=
  generate_all_insights (func Finance) (func Sales) (func Operations)
    (func HR) (func IT) insert_insight_error open_error w.


(** The classification as the specification words it: the "good" band
    starts at the threshold itself ([g >= 5]). *)
Definition classify_growth_spec (g : R) : string * InsightText :=
  if Rltb g 5 then
    if Rltb g (-5) then ("critical", RevenueDeclined (Float.Fin (Rabs g)))
    else if Rltb g 0 then ("warning", RevenueSlowed g)
    else ("info", RevenueSteady g)
  else ("info", RevenueAccelerated g).

(** The finance window [revenue: 100, 105], latest row first as the
    query returns it. *)
Definition window_100_105 : list FinanceRow :=
  [ {| f_date := "2024-02-29"; revenue := 105; profit_margin_pct := 12 |};
    {| f_date := "2024-01-31"; revenue := 100; profit_margin_pct := 12 |} ].

(** The finance window [revenue: 100, 106] with margins [m1], [m2]. *)
Definition window_100_106 (m1 m2 : R) : list FinanceRow :=
  [ {| f_date := "2024-02-29"; revenue := 106; profit_margin_pct := m2 |};
    {| f_date := "2024-01-31"; revenue := 100; profit_margin_pct := m1 |} ].

End Insights.

(** ** [src/models/anomalies.py]: the anomaly detector *)

Module Anomalies.

Local Open Scope R_scope.

(** A row of the frame [detect_metric_anomalies] fetches: the date, a
    text or NULL ([None]), and the metric column, which the query keeps
    non-null. *)
Record Obs : Type := {
  o_date : option string;
  o_value : R
}.

(** A row of the frame [detect_zscore_anomalies] returns. *)
Record ZRow : Type := {
  z_date : option string;
  z_value : R;
  z_score : Float.t;
  is_anomaly : bool;
  z_expected_value : R;
  z_detection_method : string
}.

(** A row of an anomaly frame, as [detect_metric_anomalies] returns it
    and [generate_anomaly_insights] reads it.  [expected_value] is
    [None] when the frame has no such column (the isolation-forest
    frames have none); [anomaly_score] is the z-score or the forest's
    score. *)
Record AnomalyRow : Type := {
  date : option string;
  value : R;                     (* row[metric_col] *)
  expected_value : option R;
  anomaly_score : Float.t;
  detection_method : string;
  metric_name : string;
  table_name : string
}.

Definition sum (l : list R) : R := fold_right Rplus 0 l.

(** [Series.mean()] of a series with a value or more. *)
Definition mean (l : list R) : R := sum l / INR (length l).

(** [Series.std()]: the sample deviation (ddof = 1), NaN below two
    values.  pandas computes it in float64, so that the deviation of a
    series of equal values can come out a little above 0. *)
Definition std (l : list R) : Float.t :=
  if (length l <? 2)%nat then Float.NaN
  else
    let m := mean l in
    Float.Fin
      (sqrt (sum (map (fun x => (x - m) * (x - m)) l)
             / (INR (length l) - 1))).

(** [AnomalyDetector.detect_zscore_anomalies]; [threshold = None]
    takes the configured one. *)
Definition detect_zscore_anomalies
    (anomaly_config : Config.AnomalyConfig)
    (df : list Obs) (threshold : option R) : list ZRow :=
  let threshold :=
    match threshold with
    | Some t => t
    | None => Config.z_score_threshold anomaly_config
    end in
  let mean := mean (map o_value df) in
  let std := std (map o_value df) in
  if Float.eqb std (Float.Fin 0) then
    map (fun o =>
           {| z_date := o_date o; z_value := o_value o;
              z_score := Float.Fin 0; is_anomaly := false;
              z_expected_value := mean;
              z_detection_method := "z-score" |}) df
  else
    map (fun o =>
           let z :=
             Float.abs (Float.div (Float.Fin (o_value o - mean)) std) in
           {| z_date := o_date o; z_value := o_value o;
              z_score := z;
              is_anomaly := Float.gtb z (Float.Fin threshold);
              z_expected_value := mean;
              z_detection_method := "z-score" |}) df.

(** The number of rows flagged anomalous. *)
Definition anomaly_count (rows : list ZRow) : nat :=
  length (List.filter is_anomaly rows).

Section Detector.

Variable anomaly_config : Config.AnomalyConfig.

(** The isolation forest of scikit-learn, fitted on the standardised
    series: per row, whether it predicts -1 and the negated
    [score_samples]. *)
Variable isolation_forest : R -> list R -> list (bool * R).

(** [AnomalyDetector.detect_metric_anomalies], from the frame [df]
    that [execute_query] returned (ordered by date). *)
Definition detect_metric_anomalies
    (table_name metric_column : string) (df : list Obs)
    (method : string) : result (list AnomalyRow) :=
  match df with
  | [] => Ok []
  | _ =>
      if String.eqb method "z-score" then
        let result_df := detect_zscore_anomalies anomaly_config df None in
        Ok (map (fun r =>
                   {| date := z_date r; value := z_value r;
                      expected_value := Some (z_expected_value r);
                      anomaly_score := z_score r;
                      detection_method := z_detection_method r;
                      metric_name := metric_column;
                      table_name := table_name |})
                (List.filter is_anomaly result_df))
      else if String.eqb method "isolation_forest" then
        let result_df :=
          combine df
            (isolation_forest (Config.contamination anomaly_config)
               (map o_value df)) in
        Ok (map (fun '(o, (_, score)) =>
                   {| date := o_date o; value := o_value o;
                      expected_value := None;
                      anomaly_score := Float.Fin score;
                      detection_method := "isolation_forest";
                      metric_name := metric_column;
                      table_name := table_name |})
                (List.filter (fun '(_, (flag, _)) => flag) result_df))
      else Raise ("Unknown method: " ++ method)%string
  end.

End Detector.

(** The texts of [generate_anomaly_insights]: its two f-strings,
    applied to what they interpolate. *)
Inductive Narrative : Type :=
| Deviation (metric_name date : string) (abs_deviation : R)
    (direction : string) (value expected : R)
    (* "{metric_name} on {date} was {abs(deviation):.1f}% {direction}
        than expected ({value:.2f} vs {expected:.2f})" *)
| Unusual (metric_name date : string) (value : R)
    (* "{metric_name} showed unusual value on {date}: {value:.2f}" *).

(** [((value - expected) / expected * 100) if expected != 0 else 0]. *)
Definition deviation_pct (value expected : R) : R :=
  if Reqb expected 0 then 0 else (value - expected) / expected * 100.

(** The f-string the loop of [generate_anomaly_insights] fills for a
    row, given the formatted date. *)
Definition narrative_of (metric_name date : string) (row : AnomalyRow)
  : Narrative :=
  let value := value row in
  match expected_value row with
  | Some expected =>          (* 'expected_value' in row *)
      let deviation := deviation_pct value expected in
      let direction := if Rgtb value expected then "higher" else "lower" in
      Deviation metric_name date (Rabs deviation) direction value expected
  | None => Unusual metric_name date value
  end.

Section Narratives.

(** [pd.to_datetime(s).strftime('%Y-%m-%d')] on a text: the formatted
    date, or the exception of the parser. *)
Variable to_datetime_strftime : string -> result string.

(** The message of the exception the same expression raises on a NULL
    date, which has no timestamp to format. *)
Variable null_date_error : string.

(** [pd.to_datetime(row['date']).strftime('%Y-%m-%d')]. *)
Definition strftime_ymd (d : option string) : result string :=
  match d with
  | Some s => to_datetime_strftime s
  | None => Raise null_date_error
  end.

(** The body of the loop of [generate_anomaly_insights]: the date is
    formatted first, in no [try]. *)
Definition row_insight (metric_name : string) (row : AnomalyRow)
  : result Narrative :=
  match strftime_ymd (date row) with
  | Raise e => Raise e
  | Ok date => Ok (narrative_of metric_name date row)
  end.

(** The loop: [insights.append(insight)] row after row, up to the
    first exception. *)
Fixpoint append_insights (metric_name : string) (rows : list AnomalyRow)
    (insights : list Narrative) : result (list Narrative) :=
  match rows with
  | [] => Ok insights
  | row :: rows' =>
      match row_insight metric_name row with
      | Raise e => Raise e
      | Ok insight =>
          append_insights metric_name rows' (insights ++ [insight])
      end
  end.

(** [AnomalyDetector.generate_anomaly_insights]. *)
Definition generate_anomaly_insights
    (anomalies : list AnomalyRow) (metric_name : string)
  : result (list Narrative) :=
  match anomalies with
  | [] => Ok []
  | _ => append_insights metric_name (take 3 anomalies) []   (* head(3) *)
  end.

End Narratives.

(** The date a narrative is about. *)
Definition narrative_date (n : Narrative) : string :=
  match n with
  | Deviation _ d _ _ _ _ => d
  | Unusual _ d _ => d
  end.

(** The order of the dates: ISO texts in the order of strings, a NULL
    before every text (as the query orders them). *)
Definition date_ltb (a b : option string) : bool :=
  match a, b with
  | None, Some _ => true
  | Some x, Some y => String.ltb x y
  | _, None => false
  end.

(** The three anomalies the specification selects: the most recent
    first. *)
Fixpoint insert_recent (r : AnomalyRow) (l : list AnomalyRow)
  : list AnomalyRow :=
  match l with
  | [] => [r]
  | r' :: l' =>
      if date_ltb (date r') (date r) then r :: r' :: l'
      else r' :: insert_recent r l'
  end.

Definition top3_by_recency (anomalies : list AnomalyRow)
  : list AnomalyRow :=
  take 3 (fold_right insert_recent [] anomalies).

(** [pd.to_datetime(s).strftime('%Y-%m-%d')] on the dates of the
    examples below, ISO timestamps as the storage holds them
    ("2024-01-31 00:00:00"): the first ten characters. *)
Definition example_strftime (s : string) : result string :=
  Ok (String.substring 0 10 s).

(** A frame of anomalies of the revenue with the values [values] and
    the expected value [expected], one a month from January 2024, in
    the order of [detect_metric_anomalies] (ascending dates). *)
Definition revenue_anomalies (expected : R) (values : list (string * R))
  : list AnomalyRow :=
  map (fun '(d, v) =>
         {| date := Some d; value := v; expected_value := Some expected;
            anomaly_score := Float.Fin 4; detection_method := "z-score";
            metric_name := "revenue"; table_name := "finance" |})
      values.

(** Four anomalies around an expected revenue of 100. *)
Definition four_anomalies : list AnomalyRow :=
  revenue_anomalies 100
    [ ("2024-01-31 00:00:00", 180); ("2024-02-29 00:00:00", 20);
      ("2024-03-31 00:00:00", 190); ("2024-04-30 00:00:00", 10) ].


(** An anomaly of a row whose date is NULL, which the query returns
    first, followed by the four others. *)
Definition null_date_anomalies : list AnomalyRow :=
  {| date := None; value := 170; expected_value := Some 100;
     anomaly_score := Float.Fin 4; detection_method := "z-score";
     metric_name := "revenue"; table_name := "finance" |}
  :: four_anomalies.

(** A constant series of two points. *)
Definition constant_series : list Obs :=
  [ {| o_date := Some "2024-01-31"; o_value := 1 |};
    {| o_date := Some "2024-02-29"; o_value := 1 |} ].

(** A series of three points: mean 2, deviation 1. *)
Definition rising_series : list Obs :=
  [ {| o_date := Some "2024-01-31"; o_value := 1 |};
    {| o_date := Some "2024-02-29"; o_value := 2 |};
    {| o_date := Some "2024-03-31"; o_value := 3 |} ].

(** A series of eleven points, ten at 0 and the last at 11: mean 1,
    deviation the root of 11, and the last point a little over three
    deviations from the mean. *)
Definition spike_series : list Obs :=
  map (fun '(d, v) => {| o_date := Some d; o_value := v |})
      [ ("2024-01-31", 0); ("2024-02-29", 0); ("2024-03-31", 0);
        ("2024-04-30", 0); ("2024-05-31", 0); ("2024-06-30", 0);
        ("2024-07-31", 0); ("2024-08-31", 0); ("2024-09-30", 0);
        ("2024-10-31", 0); ("2024-11-30", 11) ].

(** [execute_query] on a database in which only the revenue holds
    values, those of [spike_series]. *)
Definition spike_query (table_name metric_column : string)
  : result (list Obs) :=
  if String.eqb table_name "finance" && String.eqb metric_column "revenue"
  then Ok spike_series
  else Ok [].

(** *** [detect_all_anomalies] *)

(** A row of the table [anomalies], as [insert_anomaly] writes it. *)
Record AnomalyRecord : Type := {
  r_date : string;
  r_metric_name : string;
  r_metric_value : R;
  r_expected_value : R;
  r_anomaly_score : Float.t;
  r_detection_method : string
}.

(** The list [metrics_config]: table, column, display name. *)
Definition metrics_config : list (string * string * string) :=
  [ ("finance", "revenue", "Revenue");
    ("finance", "expenses", "Expenses");
    ("finance", "profit", "Profit");
    ("finance", "profit_margin_pct", "Profit Margin");
    ("operations", "avg_processing_time_hours", "Processing Time");
    ("operations", "ontime_delivery_pct", "On-Time Delivery");
    ("hr", "turnover_rate_pct", "Turnover Rate");
    ("hr", "absenteeism_rate_pct", "Absenteeism Rate") ].

Section DetectAll.

Variable anomaly_config : Config.AnomalyConfig.
Variable isolation_forest : R -> list R -> list (bool * R).

(** [execute_query] on the query of [detect_metric_anomalies]: the
    frame of a table and column, or the exception it raises. *)
Variable execute_query : string -> string -> result (list Obs).

(** Does [insert_anomaly] raise on this table? *)
Variable insert_anomaly_error :
  list AnomalyRecord -> AnomalyRecord -> option string.

(** [detect_metric_anomalies(table, column, method)] with its query. *)
Definition detect_metric_anomalies_query
    (table_name metric_column method : string)
  : result (list AnomalyRow) :=
  match execute_query table_name metric_column with
  | Raise e => Raise e
  | Ok df =>
      detect_metric_anomalies anomaly_config isolation_forest
        table_name metric_column df method
  end.

(** [str(row['date'])]. *)
Definition str_date (d : option string) : string :=
  match d with
  | Some s => s
  | None => "None"
  end.

(** The row [_save_anomalies_to_db] passes to [insert_anomaly];
    [row.get('expected_value', 0)] is 0 without the column. *)
Definition record_of (metric_name : string) (row : AnomalyRow)
  : AnomalyRecord :=
  {| r_date := str_date (date row);
     r_metric_name := metric_name;
     r_metric_value := value row;
     r_expected_value := match expected_value row with
                         | Some e => e
                         | None => 0
                         end;
     r_anomaly_score := anomaly_score row;
     r_detection_method := detection_method row |}.

(** [AnomalyDetector._save_anomalies_to_db]: a row that cannot be
    inserted is skipped. *)
Definition _save_anomalies_to_db (anomalies : list AnomalyRow)
    (metric_name : string) (table : list AnomalyRecord)
  : list AnomalyRecord :=
  fold_left
    (fun table row =>
       let record := record_of metric_name row in
       match insert_anomaly_error table record with
       | Some _ => table
       | None => table ++ [record]
       end)
    anomalies table.

(** One turn of the loop of [detect_all_anomalies]. *)
Definition detect_one (metric : string * string * string)
    (st : gmap string (list AnomalyRow) * list AnomalyRecord)
  : gmap string (list AnomalyRow) * list AnomalyRecord :=
  let '(results, table) := st in
  let '(table_name, metric_col, metric_name) := metric in
  match detect_metric_anomalies_query table_name metric_col "z-score" with
  | Ok [] => (results, table)
  | Ok anomalies =>
      (<[metric_name := anomalies]> results,
       _save_anomalies_to_db anomalies metric_name table)
  | Raise _ => (results, table)
  end.

(** [AnomalyDetector.detect_all_anomalies]: the dict it returns and the
    table [anomalies] it leaves. *)
Definition detect_all_anomalies (table : list AnomalyRecord)
  : gmap string (list AnomalyRow) * list AnomalyRecord :=
  fold_left (fun st metric => detect_one metric st) metrics_config (∅, table).

(** The anomalies one metric contributes: its frame, and nothing when
    its detection raises. *)
Definition found (metric : string * string * string) : list AnomalyRow :=
  let '(table_name, metric_col, _) := metric in
  match detect_metric_anomalies_query table_name metric_col "z-score" with
  | Ok anomalies => anomalies
  | Raise _ => []
  end.

(** The records of all metrics, in the order of [metrics_config]. *)
Definition records_found (metrics : list (string * string * string))
  : list AnomalyRecord :=
  concat (map (fun metric => map (record_of (snd metric)) (found metric))
              metrics).

End DetectAll.

End Anomalies.

(** ** [src/models/forecasting.py]: the accuracy of a forecast *)

Module Forecasting.

Local Open Scope R_scope.

(** A row of [actual_df] (columns [ds], [y]). *)
Record ActualRow : Type := {
  a_ds : string;
  y : R
}.

(** A row of [forecast_df[['ds', 'yhat']]]. *)
Record ForecastRow : Type := {
  f_ds : string;
  yhat : R
}.

(** The dict of accuracy metrics. *)
Record Accuracy : Type := {
  rmse : R;
  mae : R;
  mape : R
}.

(** [actual_df.merge(forecast_df[['ds', 'yhat']], on='ds', how='inner')]:
    the pairs [(y, yhat)] of the rows that agree on [ds], in the order
    of the left frame. *)
Definition merge (actual_df : list ActualRow)
    (forecast_df : list ForecastRow) : list (R * R) :=
  flat_map
    (fun a =>
       map (fun f => (y a, yhat f))
           (List.filter (fun f => String.eqb (f_ds f) (a_ds a)) forecast_df))
    actual_df.

(** [np.mean]. *)
Definition np_mean (l : list R) : R :=
  fold_right Rplus 0 l / INR (length l).

(** [np.rint]: to the nearest integer, a tie to the even one. *)
Definition rint (x : R) : Z :=
  let f := Zfloor x in
  if Rltb (x - IZR f) (1 / 2) then f
  else if Rltb (1 / 2) (x - IZR f) then (f + 1)%Z
  else if Z.even f then f else (f + 1)%Z.

(** [round(x, 2)].  numpy rounds the float64 product, which at a tie
    can fall on the other side than the exact product. *)
Definition round2 (x : R) : R := IZR (rint (x * 100)) / 100.

(** [np.where(actual != 0, actual, 1)], at one element. *)
Definition guarded (actual : R) : R :=
  if Reqb actual 0 then 1 else actual.

(** [TimeSeriesForecaster._calculate_accuracy]. *)
Definition _calculate_accuracy (actual_df : list ActualRow)
    (forecast_df : list ForecastRow) : Accuracy :=
  let merged := merge actual_df forecast_df in
  if (length merged =? 0)%nat then {| rmse := 0; mae := 0; mape := 0 |}
  else
    let rmse :=
      sqrt (np_mean (map (fun '(actual, predicted) =>
                            (actual - predicted) ^ 2) merged)) in
    let mae :=
      np_mean (map (fun '(actual, predicted) =>
                      Rabs (actual - predicted)) merged) in
    let mape :=
      np_mean (map (fun '(actual, predicted) =>
                      Rabs ((actual - predicted) / guarded actual))
                   merged) * 100 in
    {| rmse := round2 rmse; mae := round2 mae; mape := round2 mape |}.

(** The formula of the specification for the percentage error: the
    denominator is [max(|actual|, 1)]. *)
Definition mape_spec (merged : list (R * R)) : R :=
  np_mean (map (fun '(actual, predicted) =>
                  Rabs (actual - predicted) / Rmax (Rabs actual) 1)
               merged) * 100.

(** The series of the specification's example: actual 10, 20, 30 and
    predicted 10, 18, 33 on the same three dates, with the forecast
    reaching one month further. *)
Definition example_actual : list ActualRow :=
  [ {| a_ds := "2024-01-31"; y := 10 |};
    {| a_ds := "2024-02-29"; y := 20 |};
    {| a_ds := "2024-03-31"; y := 30 |} ].

Definition example_forecast : list ForecastRow :=
  [ {| f_ds := "2024-01-31"; yhat := 10 |};
    {| f_ds := "2024-02-29"; yhat := 18 |};
    {| f_ds := "2024-03-31"; yhat := 33 |};
    {| f_ds := "2024-04-30"; yhat := 41 |} ].

(** An actual value between 0 and 1. *)
Definition half_actual : list ActualRow :=
  [ {| a_ds := "2024-01-31"; y := 1 / 2 |} ].

Definition half_forecast : list ForecastRow :=
  [ {| f_ds := "2024-01-31"; yhat := 1 |} ].

End Forecasting.

(** ** [src/etl/utils.py], [src/etl/etl_pipeline.py]: cleaning and loading *)

#[global] Instance R_eq_dec : EqDecision R := Req_dec_T.

Module Etl.

Local Open Scope R_scope.

(** The dtypes [pd.read_csv] gives a column, and [datetime64]. *)
Inductive dtype : Type := float64 | int64 | object | datetime64.

(** A cell.  A float64 cell is null when it holds NaN ([None]); an
    int64 cell is never null; an object cell holds a text or is null;
    a datetime64 cell holds a timestamp or NaT ([None]). *)
Inductive cell : Type :=
| CFloat (v : option R)
| CInt (v : Z)
| CObj (v : option string)
| CDate (v : option Z).

#[global] Instance dtype_eq_dec : EqDecision dtype.
Proof. solve_decision. Defined.

#[global] Instance cell_eq_dec : EqDecision cell.
Proof. solve_decision. Defined.

(** A DataFrame: the columns with their dtypes, and the rows. *)
Record DataFrame : Type := {
  columns : list (string * dtype);
  rows : list (list cell)
}.

(** [cell.isnull()]. *)
Definition isnull (c : cell) : bool :=
  match c with
  | CFloat None | CObj None | CDate None => true
  | _ => false
  end.

(** The cells of column [j]. *)
Definition column (j : nat) (rows : list (list cell)) : list cell :=
  omap (fun row => row !! j) rows.

(** [df[col].isnull().any()]. *)
Definition any_null (j : nat) (rows : list (list cell)) : bool :=
  existsb isnull (column j rows).

(** The position of the first column called [name]. *)
Fixpoint column_index (name : string) (columns : list (string * dtype))
  : option nat :=
  match columns with
  | [] => None
  | (n, _) :: columns' =>
      if String.eqb n name then Some 0%nat
      else S <$> column_index name columns'
  end.

(** [df.drop_duplicates()]: of equal rows the first stays; NaN cells
    count as equal. *)
Fixpoint drop_duplicates_from (seen rows : list (list cell))
  : list (list cell) :=
  match rows with
  | [] => []
  | row :: rows' =>
      if decide (row ∈ seen) then drop_duplicates_from seen rows'
      else row :: drop_duplicates_from (row :: seen) rows'
  end.

Definition drop_duplicates (rows : list (list cell)) : list (list cell) :=
  drop_duplicates_from [] rows.

(** Ascending sort of the values of a column. *)
Fixpoint insert_sorted (x : R) (l : list R) : list R :=
  match l with
  | [] => [x]
  | y :: l' => if Rltb y x then y :: insert_sorted x l' else x :: y :: l'
  end.

Definition sort (l : list R) : list R := fold_right insert_sorted [] l.

(** The values of a float64 column that are not null. *)
Definition non_null (cells : list cell) : list R :=
  omap (fun c => match c with CFloat v => v | _ => None end) cells.

(** [Series.median()]: nulls are skipped; NaN ([None]) when no value
    is left. *)
Definition median (cells : list cell) : option R :=
  let s := sort (non_null cells) in
  let n := length s in
  if (n =? 0)%nat then None
  else if Nat.odd n then s !! (n / 2)%nat
  else
    match s !! (n / 2 - 1)%nat, s !! (n / 2)%nat with
    | Some a, Some b => Some ((a + b) / 2)
    | _, _ => None
    end.

(** [df[col] = df[col].fillna(v)] on column [j]. *)
Definition fillna (j : nat) (v : cell) (rows : list (list cell))
  : list (list cell) :=
  map (fun row =>
         match row !! j with
         | Some c => if isnull c then <[j := v]> row else row
         | None => row
         end) rows.

(** The columns with their positions. *)
Definition enumerate {A} (l : list A) : list (nat * A) :=
  zip (seq 0 (length l)) l.

(** The loop over [numeric_cols]. *)
Definition fill_numeric (columns : list (string * dtype))
    (rows : list (list cell)) : list (list cell) :=
  fold_left
    (fun rows '(j, (_, dt)) =>
       match dt with
       | float64 | int64 =>
           if any_null j rows
           then fillna j (CFloat (median (column j rows))) rows
           else rows
       | _ => rows
       end)
    (enumerate columns) rows.

(** The loop over [categorical_cols]. *)
Definition fill_categorical (date_column : string)
    (columns : list (string * dtype)) (rows : list (list cell))
  : list (list cell) :=
  fold_left
    (fun rows '(j, (col, dt)) =>
       match dt with
       | object =>
           if negb (String.eqb col date_column) && any_null j rows
           then fillna j (CObj (Some "Unknown")) rows
           else rows
       | _ => rows
       end)
    (enumerate columns) rows.

(** How [to_sql] treats a table that exists. *)
Inductive IfExists : Type := fail | replace | append.

Section Load.

(** [pd.to_datetime] on a column: the timestamps (NaT for a null),
    or an exception when a value does not parse. *)
Variable to_datetime : list cell -> result (list (option Z)).

(** [df[date_column] = pd.to_datetime(df[date_column])] on column [j]. *)
Definition convert_dates (j : nat) (df : DataFrame) : result DataFrame :=
  match to_datetime (column j (rows df)) with
  | Raise e => Raise e
  | Ok stamps =>
      Ok {| columns :=
              alter (fun '(name, _) => (name, datetime64)) j (columns df);
            rows :=
              zip_with (fun row t => <[j := CDate t]> row)
                       (rows df) stamps |}
  end.

(** [clean_dataframe(df, date_column)]. *)
Definition clean_dataframe (df : DataFrame) (date_column : string)
  : result DataFrame :=
  let converted :=
    match column_index date_column (columns df) with
    | Some j => convert_dates j df
    | None => Ok df
    end in
  match converted with
  | Raise e => Raise e
  | Ok df =>
      let rows := drop_duplicates (rows df) in
      let rows := fill_numeric (columns df) rows in
      let rows := fill_categorical date_column (columns df) rows in
      Ok {| columns := columns df; rows := rows |}
  end.

(** The CSV files: what [pd.read_csv] gives for a path that exists. *)
Variable csv_files : gmap string (result DataFrame).

(** [load_csv_to_db(csv_path, table_name, if_exists)]: the number of
    rows loaded and the database it leaves, or the exception and the
    database as it was. *)
Definition load_csv_to_db (csv_path table_name : string)
    (if_exists : IfExists) (db : gmap string DataFrame)
  : result (nat * gmap string DataFrame) :=
  match csv_files !! csv_path with
  | None => Raise ("CSV file not found: " ++ csv_path)%string
  | Some (Raise e) => Raise e
  | Some (Ok df) =>
      match clean_dataframe df "date" with
      | Raise e => Raise e
      | Ok df =>
          match if_exists, db !! table_name with
          | replace, _ | _, None =>
              Ok (length (rows df), <[table_name := df]> db)
          | fail, Some _ =>
              Raise ("Table '" ++ table_name ++ "' already exists.")%string
          | append, Some old =>
              if decide (columns old = columns df) then
                Ok (length (rows df),
                    <[table_name :=
                        {| columns := columns old;
                           rows := rows old ++ rows df |}]> db)
              else Raise "table has no such column"
          end
      end
  end.

(** [self.data_dir]. *)
Variable data_dir : string.

(** [self.tables]. *)
Definition tables : list string :=
  ["finance"; "sales"; "operations"; "hr"; "it_tickets"].

(** One turn of the loop of [_load_all_data]. *)
Definition load_table (table : string)
    (st : gmap string nat * gmap string DataFrame)
  : gmap string nat * gmap string DataFrame :=
  let '(load_results, db) := st in
  let csv_path := (data_dir ++ "/" ++ table ++ ".csv")%string in
  match load_csv_to_db csv_path table replace db with
  | Ok (rows_loaded, db') => (<[table := rows_loaded]> load_results, db')
  | Raise _ => (<[table := 0%nat]> load_results, db)
  end.

(** [OpsIntelETL._load_all_data]: [self.load_results] and the
    database it leaves. *)
Definition _load_all_data (db : gmap string DataFrame)
  : gmap string nat * gmap string DataFrame :=
  fold_left (fun st table => load_table table st) tables (∅, db).

(** The frame a load of [table] writes: the cleaned content of its
  CSV file, when the file is there, parses and cleans. *)
Definition loaded_frame (table : string) : option DataFrame :=
match csv_files !! (data_dir ++ "/" ++ table ++ ".csv")%string with
| Some (Ok df) =>
    match clean_dataframe df "date" with
    | Ok df' => Some df'
    | Raise _ => None
    end
| _ => None
end.

(** What one turn writes to the database and to [load_results]. *)
Definition write_table (table : string) (db : gmap string DataFrame)
: gmap string DataFrame :=
match loaded_frame table with
| Some df => <[table := df]> db
| None => db
end.

Definition rows_loaded (table : string) : nat :=
match loaded_frame table with
| Some df => length (rows df)
| None => 0
end.

End Load.

(** A frame whose numeric column [budget] holds no value at all, as
    [pd.read_csv] gives it for a column of empty fields. *)
Definition empty_budget : DataFrame :=
  {| columns := [("date", object); ("budget", float64)];
     rows := [ [CObj (Some "2024-01-31"); CFloat None];
               [CObj (Some "2024-02-29"); CFloat None] ] |}.

(** [fillna(v)] at one cell. *)
Definition fill_with (v c : cell) : cell := if isnull c then v else c.

(** What the loop over [numeric_cols] makes of a column of dtype [dt]. *)
Definition imputed_numeric (dt : dtype) (cells : list cell) : list cell :=
  match dt with
  | float64 | int64 =>
      if existsb isnull cells
      then map (fill_with (CFloat (median cells))) cells
      else cells
  | _ => cells
  end.

(** What the loop over [categorical_cols] makes of a column. *)
Definition imputed_categorical (date_column : string)
    (col : string * dtype) (cells : list cell) : list cell :=
  match snd col with
  | object =>
      if negb (String.eqb (fst col) date_column) && existsb isnull cells
      then map (fill_with (CObj (Some "Unknown"))) cells
      else cells
  | _ => cells
  end.

(** A frame with a duplicate row, a missing region and a missing
    revenue. *)
Definition sample_frame : DataFrame :=
  {| columns := [("date", object); ("region", object);
                 ("revenue", float64)];
     rows := [ [CObj (Some "2024-01-31"); CObj (Some "North");
                CFloat (Some 100%R)];
               [CObj (Some "2024-02-29"); CObj None; CFloat None];
               [CObj (Some "2024-01-31"); CObj (Some "North");
                CFloat (Some 100%R)] ] |}.

(** [pd.to_datetime] on the dates of [sample_frame]. *)
Definition sample_to_datetime (cells : list cell)
  : result (list (option Z)) :=
  Ok [Some 19753%Z; Some 19782%Z; Some 19753%Z].

End Etl.

(** ** [src/models/insights.py]: the other analyzers and the filters *)

Module Analyzers.

Local Open Scope R_scope.

(** The f-strings of the sales, operations, HR and IT analyzers, applied
    to what they interpolate. *)
Inductive Message : Type :=
| BestRegion (region : string) (total_units : R)
    (* "{region} region is outperforming with {total_units:.0f} units
        sold. ..." *)
| Underperforming (region : string) (total_units : R)
    (* "{region} region underperforming with only {total_units:.0f}
        units sold. ..." *)
| OnTimeDropped (ontime : R)
    (* "On-time delivery dropped to {ontime:.1f}%. ..." *)
| OnTimeExcellent (ontime : R)
    (* "Excellent on-time delivery at {ontime:.1f}%. ..." *)
| ProcessingImproved (improvement : Float.t)
    (* "Processing time improved by {improvement:.1f}%. ..." *)
| TurnoverCritical (turnover : R)
    (* "Employee turnover at critical level: {turnover:.1f}%. ..." *)
| TurnoverHealthy (turnover : R)
    (* "Healthy turnover rate at {turnover:.1f}%. ..." *)
| TeamGrew (growth : Number.t)
    (* "Team grew by {growth} employees. ..." *)
| ResolutionSlow (resolution_time : R)
    (* "Critical ticket resolution time at {resolution_time:.1f} hours.
        ..." *)
| ResolutionExcellent (resolution_time : R)
    (* "Excellent critical ticket resolution: {resolution_time:.1f}
        hours. ..." *)
| BacklogGrowing (backlog_rate : Float.t)
    (* "Ticket backlog growing ({backlog_rate:.1f}% of opened tickets
        pending). ..." *).

(** An insight dict of these analyzers. *)
Record Finding : Type := {
  date : string;
  category : string;
  insight_text : Message;
  severity : string;
  metric_value : Number.t
}.

(** [df.sort_values('date')] on a frame whose rows have the date
    [key row]: ascending, ties in frame order. *)
Fixpoint insert_by {A} (key : A -> string) (r : A) (df : list A) : list A :=
  match df with
  | [] => [r]
  | r' :: df' =>
      if String.ltb (key r) (key r') then r :: r' :: df'
      else r' :: insert_by key r df'
  end.

Definition sort_by {A} (key : A -> string) (df : list A) : list A :=
  fold_left (fun sorted r => insert_by key r sorted) df [].

(** No row is followed by a row of an earlier date. *)
Definition ascending {A} (key : A -> string) (l : list A) : Prop :=
  StronglySorted (fun a b => String.ltb (key b) (key a) = false) l.

(** [df['date'].max()] of a frame with a row or more. *)
Definition max_date {A} (key : A -> string) (first : A) (rest : list A)
  : string :=
  fold_left (fun m r => if String.ltb m (key r) then key r else m)
            rest (key first).

(** [Series.idxmax()], then [.loc]: the first row of the greatest
    value. *)
Fixpoint idxmax {A} (val : A -> R) (l : list A) : option A :=
  match l with
  | [] => None
  | r :: l' =>
      match idxmax val l' with
      | Some m => if Rltb (val r) (val m) then Some m else Some r
      | None => Some r
      end
  end.

(** [Series.idxmin()], then [.loc]: the first row of the least value. *)
Fixpoint idxmin {A} (val : A -> R) (l : list A) : option A :=
  match l with
  | [] => None
  | r :: l' =>
      match idxmin val l' with
      | Some m => if Rltb (val m) (val r) then Some m else Some r
      | None => Some r
      end
  end.

(** [Series.mean()] of a slice. *)
Definition mean (l : list R) : R := fold_right Rplus 0 l / INR (length l).

(** [df.iloc[-n:]]. *)
Definition tail_rows {A} (n : nat) (l : list A) : list A :=
  drop (length l - n) l.

(** *** Sales *)

(** A row of the sales query (one per date and region). *)
Record SalesRow : Type := {
  s_date : string;
  region : string;
  total_units : R;
  avg_conversion : R
}.

(** [InsightEngine.analyze_sales_performance], from the frame [df] that
    [execute_query] returned. *)
Definition analyze_sales_performance (df : list SalesRow) : list Finding :=
  match df with
  | [] => []
  | first :: rest =>
      let latest_date := max_date s_date first rest in
      let latest_data :=
        List.filter (fun r => String.eqb (s_date r) latest_date) df in
      match idxmax total_units latest_data,
            idxmin total_units latest_data with
      | Some best_region, Some worst_region =>
          {| date := latest_date; category := "sales";
             insight_text :=
               BestRegion (region best_region) (total_units best_region);
             severity := "info";
             metric_value := Float.Fin (total_units best_region) |}
          :: (if Rltb (total_units worst_region)
                      (total_units best_region * (7 / 10))
              then
                [{| date := latest_date; category := "sales";
                    insight_text :=
                      Underperforming (region worst_region)
                                      (total_units worst_region);
                    severity := "warning";
                    metric_value :=
                      Float.Fin (total_units worst_region) |}]
              else [])
      | _, _ => []   (* not reached: the latest date has a row *)
      end
  end.

(** *** Operations *)

(** A row of the operations query. *)
Record OperationsRow : Type := {
  o_date : string;
  ontime_delivery_pct : R;
  avg_processing_time_hours : R;
  defect_rate_pct : R
}.

(** The on-time delivery part of [analyze_operations_efficiency]. *)
Definition ontime_findings (thresholds : Config.KpiThresholds)
    (latest : OperationsRow) : list Finding :=
  let ontime := ontime_delivery_pct latest in
  if Rltb ontime (Config.critical (Config.ontime_delivery thresholds)) then
    [{| date := o_date latest; category := "operations";
        insight_text := OnTimeDropped ontime; severity := "critical";
        metric_value := Float.Fin ontime |}]
  else if Rgtb ontime (Config.good (Config.ontime_delivery thresholds)) then
    [{| date := o_date latest; category := "operations";
        insight_text := OnTimeExcellent ontime; severity := "info";
        metric_value := Float.Fin ontime |}]
  else [].

(** [((older_avg - recent_avg) / older_avg * 100)]. *)
Definition improvement_of (df : list OperationsRow) : Float.t :=
  let recent_avg :=
    mean (map avg_processing_time_hours (tail_rows 3 df)) in
  let older_avg := mean (map avg_processing_time_hours (take 3 df)) in
  Float.mul (Float.div (Float.Fin (older_avg - recent_avg))
                       (Float.Fin older_avg))
            (Float.Fin 100).

(** The processing-time part of [analyze_operations_efficiency]. *)
Definition trend_findings (df : list OperationsRow)
    (latest : OperationsRow) : list Finding :=
  if (3 <=? length df)%nat then
    let improvement := improvement_of df in
    if Float.gtb improvement (Float.Fin 10) then
      [{| date := o_date latest; category := "operations";
          insight_text := ProcessingImproved improvement;
          severity := "info"; metric_value := improvement |}]
    else []
  else [].

(** [InsightEngine.analyze_operations_efficiency], from the frame [df]
    that [execute_query] returned. *)
Definition analyze_operations_efficiency
    (thresholds : Config.KpiThresholds) (df : list OperationsRow)
  : list Finding :=
  match rev (sort_by o_date df) with
  | [] => []                      (* df.empty *)
  | latest :: _ =>                (* df.iloc[-1] *)
      let df := sort_by o_date df in
      ontime_findings thresholds latest ++ trend_findings df latest
  end.

(** *** HR *)

(** A row of the HR query.  The head count is an int64 when the
    column of the table holds integers only, and a float64 otherwise. *)
Record HrRow : Type := {
  h_date : string;
  employee_count : Number.t;
  turnover_rate_pct : R;
  satisfaction_score : R;
  absenteeism_rate_pct : R
}.

(** The turnover part of [analyze_hr_metrics]. *)
Definition turnover_findings (thresholds : Config.KpiThresholds)
    (latest : HrRow) : list Finding :=
  let turnover := turnover_rate_pct latest in
  if Rgtb turnover (Config.critical (Config.employee_turnover thresholds))
  then
    [{| date := h_date latest; category := "hr";
        insight_text := TurnoverCritical turnover; severity := "critical";
        metric_value := Float.Fin turnover |}]
  else if Rltb turnover (Config.good (Config.employee_turnover thresholds))
  then
    [{| date := h_date latest; category := "hr";
        insight_text := TurnoverHealthy turnover; severity := "info";
        metric_value := Float.Fin turnover |}]
  else [].

(** The employee-growth part of [analyze_hr_metrics]. *)
Definition growth_findings (df : list HrRow) (latest : HrRow)
  : list Finding :=
  match df with
  | earliest :: _ =>              (* df['employee_count'].iloc[0] *)
      if (2 <=? length df)%nat then
        let growth :=
          Number.sub (employee_count latest) (employee_count earliest) in
        if Number.gtb_int growth 10 then
          [{| date := h_date latest; category := "hr";
              insight_text := TeamGrew growth; severity := "info";
              metric_value := growth |}]
        else []
      else []
  | [] => []
  end.

(** [InsightEngine.analyze_hr_metrics], from the frame [df] that
    [execute_query] returned. *)
Definition analyze_hr_metrics (thresholds : Config.KpiThresholds)
    (df : list HrRow) : list Finding :=
  match rev (sort_by h_date df) with
  | [] => []
  | latest :: _ =>
      let df := sort_by h_date df in
      turnover_findings thresholds latest ++ growth_findings df latest
  end.

(** *** IT *)

(** A row of the tickets query (one per date and priority). *)
Record TicketsRow : Type := {
  t_date : string;
  priority : string;
  total_opened : R;
  total_closed : R;
  avg_resolution : R
}.

(** The critical-tickets part of [analyze_it_performance]. *)
Definition resolution_findings (thresholds : Config.KpiThresholds)
    (df : list TicketsRow) : list Finding :=
  match List.filter (fun r => String.eqb (priority r) "Critical") df with
  | [] => []
  | latest_critical :: _ =>       (* critical_df.iloc[0] *)
      let resolution_time := avg_resolution latest_critical in
      if Rgtb resolution_time
           (Config.critical (Config.ticket_resolution_hours thresholds))
      then
        [{| date := t_date latest_critical; category := "it";
            insight_text := ResolutionSlow resolution_time;
            severity := "warning";
            metric_value := Float.Fin resolution_time |}]
      else if Rltb resolution_time
                (Config.good (Config.ticket_resolution_hours thresholds))
      then
        [{| date := t_date latest_critical; category := "it";
            insight_text := ResolutionExcellent resolution_time;
            severity := "info";
            metric_value := Float.Fin resolution_time |}]
      else []
  end.

(** [((total_opened - total_closed) / total_opened * 100)]. *)
Definition backlog_rate_of (total_opened total_closed : R) : Float.t :=
  Float.mul (Float.div (Float.Fin (total_opened - total_closed))
                       (Float.Fin total_opened))
            (Float.Fin 100).

(** The backlog part of [analyze_it_performance]. *)
Definition backlog_findings (latest_date : string)
    (total_opened total_closed : R) : list Finding :=
  if Rltb total_closed (total_opened * (9 / 10)) then
    let backlog_rate := backlog_rate_of total_opened total_closed in
    [{| date := latest_date; category := "it";
        insight_text := BacklogGrowing backlog_rate;
        severity := "warning"; metric_value := backlog_rate |}]
  else [].

(** [InsightEngine.analyze_it_performance], from the frame [df] that
    [execute_query] returned. *)
Definition analyze_it_performance (thresholds : Config.KpiThresholds)
    (df : list TicketsRow) : list Finding :=
  match df with
  | [] => []
  | first :: rest =>
      let latest_date := max_date t_date first rest in
      let latest_all :=
        List.filter (fun r => String.eqb (t_date r) latest_date) df in
      let total_opened :=
        fold_right Rplus 0 (map total_opened latest_all) in
      let total_closed :=
        fold_right Rplus 0 (map total_closed latest_all) in
      resolution_findings thresholds df
      ++ backlog_findings latest_date total_opened total_closed
  end.

(** *** The filters *)

(** [InsightEngine.get_insights_by_severity], on [self.insights]. *)
Definition get_insights_by_severity (insights : list Insights.Insight)
    (severity : string) : list Insights.Insight :=
  List.filter (fun i => String.eqb (Insights.severity i) severity) insights.

(** [InsightEngine.get_insights_by_category], on [self.insights]. *)
Definition get_insights_by_category (insights : list Insights.Insight)
    (category : string) : list Insights.Insight :=
  List.filter (fun i => String.eqb (Insights.category i) category) insights.

End Analyzers.

(** * Properties *)

(** ** Comparisons *)

Lemma Rltb_true x y : Rltb x y = true <-> (x < y)%R.
Proof. unfold Rltb. destruct (Rlt_dec x y); split; intros; easy. Qed.

Lemma Rltb_false x y : Rltb x y = false <-> (y <= x)%R.
Proof.
unfold Rltb. destruct (Rlt_dec x y); split; intros; try easy; lra.
Qed.

Lemma Rgtb_true x y : Rgtb x y = true <-> (x > y)%R.
Proof. unfold Rgtb. rewrite Rltb_true. lra. Qed.

Lemma Rgtb_false x y : Rgtb x y = false <-> (x <= y)%R.
Proof. unfold Rgtb. apply Rltb_false. Qed.

Lemma Reqb_true x y : Reqb x y = true <-> x = y.
Proof. unfold Reqb. destruct (Req_dec_T x y); split; intros; easy. Qed.

Lemma Reqb_false x y : Reqb x y = false <-> x <> y.
Proof. unfold Reqb. destruct (Req_dec_T x y); split; intros; easy. Qed.

(** Rewrite a comparison of two reals to the boolean it evaluates to. *)
Ltac Rbool :=
repeat match goal with
| |- context [Rltb ?a ?b] =>
    first [ rewrite (proj2 (Rltb_true a b)) by lra
          | rewrite (proj2 (Rltb_false a b)) by lra ]
| |- context [Rgtb ?a ?b] =>
    first [ rewrite (proj2 (Rgtb_true a b)) by lra
          | rewrite (proj2 (Rgtb_false a b)) by lra ]
| |- context [Reqb ?a ?b] =>
    first [ rewrite (proj2 (Reqb_true a b)) by lra
          | rewrite (proj2 (Reqb_false a b)) by lra ]
end.

(** ** The refresh endpoint *)

Section EndpointsFacts.

Import Endpoints.

(** C9.  A refresh triggered while the status is "running" is answered
    at once with a conflict (code 409); no background task is added,
    and the status record (status, last_refresh, message) is the one
    it was. *)
Theorem refresh_data_conflict_while_running
    (request : RefreshRequest) (app : App) :
  status (refresh_status app) = "running" ->
  fst (refresh_data request app)
    = JSONResponse 409
        [("status", "error"); ("message", "Refresh already in progress")]
  /\ status_code_of (fst (refresh_data request app)) = 409%Z
  /\ background_tasks (snd (refresh_data request app))
     = background_tasks app
  /\ refresh_status (snd (refresh_data request app)) = refresh_status app
  /\ snd (refresh_data request app) = app.
Proof.
  intros Hrun. unfold refresh_data. rewrite Hrun. cbn. repeat split.
Qed.

Lemma refresh_data_conflict_while_running_witness :
  let request := {| regenerate_data := false; run_forecasting := true;
                    run_anomaly_detection := true; run_insights := true |} in
  let app := {| refresh_status :=
                  {| last_refresh := None; status := "running";
                     message := "Running ETL pipeline..." |};
                background_tasks := [] |} in
  status_code_of (fst (refresh_data request app)) = 409%Z
  /\ snd (refresh_data request app) = app.
Proof.
  intros request app.
  destruct (refresh_data_conflict_while_running request app eq_refl)
    as (_ & Hcode & _ & _ & Happ).
  split; [exact Hcode | exact Happ].
Defined.

(** Any other status lets the trigger through: one task is queued. *)
Lemma refresh_data_accepts_otherwise (request : RefreshRequest) (app : App) :
  status (refresh_status app) <> "running" ->
  status_code_of (fst (refresh_data request app)) = 200%Z
  /\ background_tasks (snd (refresh_data request app))
     = background_tasks app ++ [request].
Proof.
  intros Hne. unfold refresh_data.
  destruct (String.eqb_spec (status (refresh_status app)) "running");
    [contradiction | now cbn].
Qed.

End EndpointsFacts.

(** ** The insight engine: revenue trends *)

Section RevenueFacts.

Import Insights.
Local Open Scope R_scope.

Lemma insert_by_date_length r df :
  length (insert_by_date r df) = S (length df).
Proof.
  induction df as [|r' df IH]; cbn; [reflexivity|].
  destruct (String.ltb _ _); cbn; [reflexivity | now rewrite IH].
Qed.

Lemma sort_values_length df : length (sort_values df) = length df.
Proof.
  unfold sort_values.
  enough (H : forall acc,
             length (fold_left (fun sorted r => insert_by_date r sorted)
                               df acc)
             = (length acc + length df)%nat) by apply (H []).
  induction df as [|r df IH]; intros acc; cbn; [lia|].
  rewrite IH, insert_by_date_length. lia.
Qed.

(** The two latest rows of a frame of two rows or more. *)
Lemma latest_two df :
  (2 <= length df)%nat ->
  exists latest prev rest, rev (sort_values df) = latest :: prev :: rest.
Proof.
  intros Hlen.
  assert (H : length (rev (sort_values df)) = length df)
    by now rewrite length_rev, sort_values_length.
  destruct (rev (sort_values df)) as [|latest [|prev rest]];
    cbn in H; try lia.
  now exists latest, prev, rest.
Qed.

(** A finite growth rate: the previous revenue is not zero. *)
Lemma growth_rate_of_finite latest_revenue prev_revenue :
  prev_revenue <> 0 ->
  growth_rate_of latest_revenue prev_revenue
  = Float.Fin ((latest_revenue - prev_revenue) / prev_revenue * 100).
Proof.
  intros Hp. unfold growth_rate_of. cbn.
  now rewrite (proj2 (Reqb_false prev_revenue 0) Hp).
Qed.

(** The classification of a finite growth rate under the configured
    thresholds, band by band. *)
Lemma classify_growth_bands (g : R) :
  (g > 5 ->
     classify_growth Config.KPI_THRESHOLDS g
     = ("info", RevenueAccelerated g))
  /\ (g < -5 ->
     classify_growth Config.KPI_THRESHOLDS g
     = ("critical", RevenueDeclined (Float.Fin (Rabs g))))
  /\ (-5 <= g < 0 ->
     classify_growth Config.KPI_THRESHOLDS g
     = ("warning", RevenueSlowed g))
  /\ (0 <= g <= 5 ->
     classify_growth Config.KPI_THRESHOLDS g
     = ("info", RevenueSteady g)).
Proof.
  unfold classify_growth, Float.gtb, Float.ltb; cbn.
  repeat split; intros H; Rbool; reflexivity.
Qed.

(** The classification yields a revenue text and one of the three
    severities, whatever the growth rate (a NaN or an infinity too). *)
Lemma classify_growth_total thresholds (g : Float.t) :
  (exists t, snd (classify_growth thresholds g) = t
             /\ match t with
                | RevenueAccelerated _ | RevenueDeclined _
                | RevenueSlowed _ | RevenueSteady _ => True
                | _ => False
                end)
  /\ In (fst (classify_growth thresholds g))
        ["info"; "warning"; "critical"].
Proof.
  unfold classify_growth.
  destruct (Float.gtb _ _); [|destruct (Float.ltb _ _);
                               [|destruct (Float.ltb _ _)]];
    cbn; (split; [eexists; split; [reflexivity|exact I] | tauto]).
Qed.

Lemma margin_insights_not_revenue thresholds date m :
  List.filter is_revenue_insight (margin_insights thresholds date m) = [].
Proof.
  unfold margin_insights.
  destruct (Rltb _ _); [reflexivity|]. destruct (Rgtb _ _); reflexivity.
Qed.

Lemma margin_insights_length thresholds date m :
  (length (margin_insights thresholds date m) <= 1)%nat.
Proof.
  unfold margin_insights.
  destruct (Rltb _ _); [cbn; lia|]. destruct (Rgtb _ _); cbn; lia.
Qed.

(** The shape of the result on a frame of two rows or more. *)
Lemma analyze_revenue_trends_shape thresholds df latest prev rest :
  (2 <= length df)%nat ->
  rev (sort_values df) = latest :: prev :: rest ->
  let g := growth_rate_of (revenue latest) (revenue prev) in
  analyze_revenue_trends thresholds df
  = {| date := f_date latest; category := "finance";
       insight_text := snd (classify_growth thresholds g);
       severity := fst (classify_growth thresholds g);
       metric_value := g |}
    :: margin_insights thresholds (f_date latest)
                       (profit_margin_pct latest).
Proof.
  intros Hlen Hrev g. unfold analyze_revenue_trends.
  destruct (Nat.ltb_spec (length df) 2) as [Hlt|_]; [lia|].
  rewrite Hrev. fold g. now destruct (classify_growth thresholds g).
Qed.

End RevenueFacts.

Section RevenueClaims.

Import Insights.
Local Open Scope R_scope.

(** C1, as stated, fails at a growth of exactly 5%: the window
    [100, 105] has g = 5, the claim puts it in the "good" band, and
    the code emits the "steady growth" insight. *)
Lemma analyze_revenue_trends_at_five_percent :
  exists i,
    analyze_revenue_trends Config.KPI_THRESHOLDS window_100_105 = [i]
    /\ metric_value i = Float.Fin 5
    /\ insight_text i = RevenueSteady (Float.Fin 5)
    /\ classify_growth_spec 5 = ("info", RevenueAccelerated (Float.Fin 5))
    /\ (severity i, insight_text i) <> classify_growth_spec 5.
Proof.
  assert (Hg : (105 - 100) / 100 * 100 = 5) by lra.
  assert (Hspec : classify_growth_spec 5
                  = ("info", RevenueAccelerated (Float.Fin 5))).
  { unfold classify_growth_spec. now Rbool. }
  eexists. split.
  { rewrite (analyze_revenue_trends_shape Config.KPI_THRESHOLDS
               window_100_105 _ _ [] ltac:(cbn; lia) eq_refl).
    cbn [revenue profit_margin_pct f_date].
    rewrite growth_rate_of_finite by lra. rewrite Hg.
    rewrite (proj2 (proj2 (proj2 (classify_growth_bands 5)))) by lra.
    unfold margin_insights. cbn [Config.profit_margin Config.KPI_THRESHOLDS
                                 Config.critical Config.good].
    Rbool. reflexivity. }
  cbn [metric_value insight_text severity]. rewrite Hspec.
  repeat split. intros H. discriminate H.
Qed.

(** C1, amended.  On a finance frame of two rows or more the function
    emits exactly one revenue insight, the first of its result, of
    category finance and with the growth rate g as its metric value.
    For a previous revenue other than zero,
    g = (latest - prev) / prev * 100 and the insight is:
    info "accelerated" when g > 5, critical when g < -5, warning when
    -5 <= g < 0, and info "steady growth" otherwise, that is when
    0 <= g <= 5 (a growth of exactly 5% is steady, not good).
    The window [100, 106] gives g = 6 and exactly one insight of
    metric value 6, of info severity and category finance. *)
Theorem analyze_revenue_trends_one_revenue_insight :
  (forall df, (2 <= length df)%nat ->
     exists latest prev rest i,
       rev (sort_values df) = latest :: prev :: rest
       /\ analyze_revenue_trends Config.KPI_THRESHOLDS df
          = i :: margin_insights Config.KPI_THRESHOLDS (f_date latest)
                                 (profit_margin_pct latest)
       /\ List.filter is_revenue_insight
            (analyze_revenue_trends Config.KPI_THRESHOLDS df) = [i]
       /\ category i = "finance"
       /\ In (severity i) ["info"; "warning"; "critical"]
       /\ metric_value i = growth_rate_of (revenue latest) (revenue prev)
       /\ (revenue prev <> 0 ->
           let g := (revenue latest - revenue prev) / revenue prev * 100 in
           metric_value i = Float.Fin g
           /\ (g > 5 -> severity i = "info"
                        /\ insight_text i = RevenueAccelerated g)
           /\ (g < -5 -> severity i = "critical"
                         /\ insight_text i
                            = RevenueDeclined (Float.Fin (Rabs g)))
           /\ (-5 <= g < 0 -> severity i = "warning"
                              /\ insight_text i = RevenueSlowed g)
           /\ (0 <= g <= 5 -> severity i = "info"
                              /\ insight_text i = RevenueSteady g)))
  /\ (forall m1 m2,
        let i6 := {| date := "2024-02-29"; category := "finance";
                     insight_text := RevenueAccelerated (Float.Fin 6);
                     severity := "info";
                     metric_value := Float.Fin 6 |} in
        analyze_revenue_trends Config.KPI_THRESHOLDS (window_100_106 m1 m2)
        = i6 :: margin_insights Config.KPI_THRESHOLDS "2024-02-29" m2
        /\ forall i, In i (margin_insights Config.KPI_THRESHOLDS
                             "2024-02-29" m2) ->
                     metric_value i <> Float.Fin 6).
Proof.
  split.
  - intros df Hlen.
    destruct (latest_two df Hlen) as (latest & prev & rest & Hrev).
    pose proof (analyze_revenue_trends_shape Config.KPI_THRESHOLDS
                  df latest prev rest Hlen Hrev) as Hshape.
    cbv zeta in Hshape.
    set (g := growth_rate_of (revenue latest) (revenue prev)) in *.
    eexists latest, prev, rest, _.
    split; [exact Hrev|]. split; [exact Hshape|].
    split.
    { rewrite Hshape. cbn [List.filter is_revenue_insight insight_text].
      destruct (classify_growth_total Config.KPI_THRESHOLDS g)
        as ((t & Ht & Hrevt) & _).
      rewrite Ht. rewrite margin_insights_not_revenue.
      destruct t; try contradiction; reflexivity. }
    cbn [category severity metric_value insight_text].
    split; [reflexivity|].
    split; [apply classify_growth_total|].
    split; [reflexivity|].
    intros Hp. subst g.
    rewrite growth_rate_of_finite by exact Hp.
    set (gr := (revenue latest - revenue prev) / revenue prev * 100).
    destruct (classify_growth_bands gr) as (Hgood & Hcrit & Hwarn & Hsteady).
    split; [reflexivity|].
    split; [|split; [|split]]; intros Hband;
      [ rewrite (Hgood Hband) | rewrite (Hcrit Hband)
      | rewrite (Hwarn Hband) | rewrite (Hsteady Hband) ];
      split; reflexivity.
  - intros m1 m2 i6.
    assert (Hg : (106 - 100) / 100 * 100 = 6) by lra.
    split.
    + rewrite (analyze_revenue_trends_shape Config.KPI_THRESHOLDS
                 (window_100_106 m1 m2) _ _ [] ltac:(cbn; lia) eq_refl).
      cbn [revenue profit_margin_pct f_date].
      rewrite growth_rate_of_finite by lra. rewrite Hg.
      rewrite (proj1 (classify_growth_bands 6)) by lra.
      reflexivity.
    + intros i. unfold margin_insights.
      cbn [Config.profit_margin Config.KPI_THRESHOLDS
           Config.critical Config.good].
      destruct (Rltb m2 5) eqn:Hlow.
      * apply Rltb_true in Hlow.
        intros [<-|[]]. cbn. intros [= H]. lra.
      * destruct (Rgtb m2 20) eqn:Hhigh; [|intros []].
        apply Rgtb_true in Hhigh.
        intros [<-|[]]. cbn. intros [= H]. lra.
Qed.

End RevenueClaims.

Section RevenueWitness.

Import Insights.

Lemma analyze_revenue_trends_one_revenue_insight_witness :
  exists i,
    List.filter is_revenue_insight
      (analyze_revenue_trends Config.KPI_THRESHOLDS window_100_105) = [i]
    /\ category i = "finance".
Proof.
  destruct (proj1 analyze_revenue_trends_one_revenue_insight
              window_100_105 ltac:(cbn; lia))
    as (latest & prev & rest & i & _ & _ & Hone & Hcat & _).
  exists i. split; [exact Hone | exact Hcat].
Defined.

End RevenueWitness.

(** ** The insight engine: all domains *)

Section EngineFacts.

Import Insights.

Lemma collect_insights_contributions
    (fs : list (string * (unit -> result (list Insight)))) :
  collect_insights fs = concat (map (fun f => contribution (snd f tt)) fs).
Proof.
  unfold collect_insights.
  enough (H : forall acc,
             fold_left
               (fun all_insights '(_, func) =>
                  match func tt with
                  | Ok insights => all_insights ++ insights
                  | Raise _ => all_insights
                  end) fs acc
             = acc ++ concat (map (fun f => contribution (snd f tt)) fs))
    by apply (H []).
  induction fs as [|[name func] fs IH]; intros acc; cbn.
  - now rewrite app_nil_r.
  - rewrite IH. destruct (func tt); cbn.
    + now rewrite <- app_assoc.
    + reflexivity.
Qed.

(** When no insert raises, every insight is appended to the table. *)
Lemma save_insights_all insert_insight_error all_insights table :
  (forall t i, insert_insight_error t i = None) ->
  save_insights insert_insight_error all_insights table
  = table ++ all_insights.
Proof.
  intros Hok. unfold save_insights.
  revert table. induction all_insights as [|i l IH]; intros table; cbn.
  - now rewrite app_nil_r.
  - unfold insert_insight at 2. rewrite Hok, IH. now rewrite <- app_assoc.
Qed.

(** The table only grows: what it held stays, in place. *)
Lemma save_insights_prefix insert_insight_error all_insights table :
  exists added,
    save_insights insert_insight_error all_insights table = table ++ added.
Proof.
  unfold save_insights.
  revert table. induction all_insights as [|i l IH]; intros table; cbn.
  - exists []. now rewrite app_nil_r.
  - unfold insert_insight at 2.
    destruct (insert_insight_error table i).
    + apply IH.
    + destruct (IH (table ++ [i])) as (added & ->).
      exists (i :: added). now rewrite <- app_assoc.
Qed.

(** [json.dump] refuses the list exactly when one of its insights
    carries a [numpy.int64]. *)
Lemma export_refused (l : list Insight) :
  forallb json_serializable l = false
  <-> exists i n, In i l /\ metric_value i = Number.Int64 n.
Proof.
  induction l as [|i l IH]; cbn [forallb].
  - split; [discriminate | intros (i & n & [] & _)].
  - unfold json_serializable at 1.
    destruct (metric_value i) as [x|n] eqn:Hi; cbn [Number.json_serializable andb].
    + rewrite IH. split.
      * intros (j & n & Hj & Hn). exists j, n. split; [now right | exact Hn].
      * intros (j & n & [<-|Hj] & Hn); [congruence|]. now exists j, n.
    + split; [|reflexivity]. intros _. exists i, n. split; [now left | exact Hi].
Qed.

(** C8.  When the analyzer of one domain raises and the four others
    return, [generate_all_insights] collects the insights of the four
    others, in the order of the domains, and none for the failing one,
    and passes each of them to [insert_insight], so that the table
    holds them all when no insert raises.  It returns them when the
    export file opens and every metric value is a float.  When one of
    them carries a [numpy.int64] (the "Team grew" insight of the HR
    analyzer does) the export, which is in no [try], raises TypeError
    after the inserts: the call returns nothing and leaves the export
    file unfinished. *)
Theorem generate_all_insights_isolates_failure
    (func : Domain -> unit -> result (list Insight))
    (insert_insight_error : list Insight -> Insight -> option string)
    (open_error : option string) (w : World)
    (d : Domain) (e : string) (ins : Domain -> list Insight) :
  func d tt = Raise e ->
  (forall d', d' <> d -> func d' tt = Ok (ins d')) ->
  let out :=
    generate_all_insights_of func insert_insight_error open_error w in
  let others :=
    concat (map (fun d' => if decide (d' = d) then [] else ins d') domains) in
  self_insights (snd out) = others
  /\ insights_table (snd out)
     = save_insights insert_insight_error others (insights_table w)
  /\ ((forall t i, insert_insight_error t i = None) ->
      insights_table (snd out) = insights_table w ++ others)
  /\ (open_error = None ->
      (forall i, In i others -> exists x, metric_value i = Number.Float64 x) ->
      fst out = Ok others
      /\ insights_json (snd out) = Exported (length others) others)
  /\ (open_error = None ->
      forall i n, In i others -> metric_value i = Number.Int64 n ->
      fst out = Raise "Object of type int64 is not JSON serializable"
      /\ insights_json (snd out) = Unfinished)
  /\ (forall e', open_error = Some e' ->
      fst out = Raise e' /\ insights_json (snd out) = insights_json w).
Proof.
  intros Hraise Hothers out others.
  assert (Hall : collect_insights
                   (insight_functions (func Finance) (func Sales)
                      (func Operations) (func HR) (func IT)) = others).
  { rewrite collect_insights_contributions. subst others.
    unfold insight_functions, domains. cbn [map snd concat].
    assert (Hc : forall d', contribution (func d' tt)
                            = if decide (d' = d) then [] else ins d').
    { intros d'. destruct (decide (d' = d)) as [->|Hne].
      - now rewrite Hraise.
      - now rewrite (Hothers d' Hne). }
    now rewrite !Hc. }
  subst out.
  unfold generate_all_insights_of, generate_all_insights,
    _save_insights_to_json.
  rewrite Hall.
  destruct open_error as [e'|].
  { cbn [fst snd self_insights insights_table insights_json].
    split; [reflexivity|]. split; [reflexivity|].
    split; [intros Hok; now apply save_insights_all|].
    split; [discriminate|]. split; [discriminate|].
    intros e'' [= <-]. split; reflexivity. }
  destruct (forallb json_serializable others) eqn:Hjson;
    cbn [fst snd self_insights insights_table insights_json];
    (split; [reflexivity|]; split; [reflexivity|];
     split; [intros Hok; now apply save_insights_all|]).
  - split; [intros _ _; split; reflexivity|].
    split; [|discriminate].
    intros _ i n Hi Hn. exfalso.
    assert (Hno : forallb json_serializable others = false)
      by (apply export_refused; now exists i, n).
    congruence.
  - split.
    + intros _ Hfloat. exfalso.
      apply export_refused in Hjson. destruct Hjson as (i & n & Hi & Hn).
      destruct (Hfloat i Hi) as [x Hx]. congruence.
    + split; [|discriminate]. intros _ i n _ _. split; reflexivity.
Qed.

Lemma generate_all_insights_isolates_failure_witness :
  let sales := {| date := "2024-02-29"; category := "sales";
                  insight_text := Text "North region is outperforming";
                  severity := "info"; metric_value := Float.Fin 120 |} in
  let hr := {| date := "2024-02-29"; category := "hr";
               insight_text := Text "Team grew by 15 employees";
               severity := "info"; metric_value := Number.Int64 15 |} in
  let func := fun d (_ : unit) =>
    match d with
    | Finance => Raise "no such table: finance"
    | Sales => Ok [sales]
    | HR => Ok [hr]
    | _ => Ok []
    end in
  let w := {| insights_table := []; insights_json := Absent;
              self_insights := [] |} in
  let out := generate_all_insights_of func (fun _ _ => None) None w in
  fst out = Raise "Object of type int64 is not JSON serializable"
  /\ insights_table (snd out) = [sales; hr]
  /\ insights_json (snd out) = Unfinished.
Proof.
  intros sales hr func w out.
  destruct (generate_all_insights_isolates_failure func (fun _ _ => None)
              None w Finance "no such table: finance"
              (fun d => match d with
                        | Sales => [sales] | HR => [hr] | _ => []
                        end)
              eq_refl
              ltac:(intros d' Hne; destruct d';
                    first [reflexivity | contradiction]))
    as (_ & _ & Htable & _ & Hint & _).
  destruct (Hint eq_refl hr 15%Z) as [Hret Hfile];
    [vm_compute; tauto | reflexivity |].
  split; [exact Hret|]. split; [|exact Hfile].
  exact (Htable (fun _ _ => eq_refl)).
Defined.

End EngineFacts.

(** ** The anomaly detector: z-scores *)

Section ZScoreFacts.

Import Anomalies.
Local Open Scope R_scope.

Lemma sum_squares_nonneg (m : R) (l : list R) :
  0 <= sum (map (fun x => (x - m) * (x - m)) l).
Proof.
  unfold sum. induction l as [|x l IH]; cbn [map fold_right]; [lra|].
  pose proof (Rle_0_sqr (x - m)) as Hsq. unfold Rsqr in Hsq. lra.
Qed.

Lemma two_le_INR (n : nat) : (2 <= n)%nat -> 2 <= INR n.
Proof. intros H. apply le_INR in H. cbn in H. lra. Qed.

(** Below two points the deviation is NaN; from two points on it is the
    non-negative root of the sum of squares over n - 1. *)
Lemma std_cases (l : list R) :
  ((length l < 2)%nat /\ std l = Float.NaN)
  \/ ((2 <= length l)%nat
      /\ exists s, std l = Float.Fin s /\ 0 <= s
         /\ s * s * (INR (length l) - 1)
            = sum (map (fun x => (x - mean l) * (x - mean l)) l)).
Proof.
  unfold std. destruct (Nat.ltb_spec (length l) 2) as [Hlt|Hge].
  - left. now split.
  - right. split; [exact Hge|]. eexists. split; [reflexivity|].
    pose proof (two_le_INR _ Hge) as Hn.
    pose proof (sum_squares_nonneg (mean l) l) as Hq.
    split; [apply sqrt_pos|].
    rewrite sqrt_sqrt.
    + field. lra.
    + apply Rmult_le_pos; [exact Hq|].
      apply Rlt_le, Rinv_0_lt_compat. lra.
Qed.

(** A greater threshold flags no more scores. *)
Lemma gtb_threshold_mono (z : Float.t) (t1 t2 : R) :
  t1 <= t2 ->
  Float.gtb z (Float.Fin t2) = true -> Float.gtb z (Float.Fin t1) = true.
Proof.
  intros Hle. unfold Float.gtb, Float.ltb. destruct z; try easy.
  rewrite !Rltb_true. lra.
Qed.

Lemma count_filter_mono {A B} (p q : B -> bool) (f g : A -> B)
    (l : list A) :
  (forall x, In x l -> p (f x) = true -> q (g x) = true) ->
  (length (List.filter p (map f l)) <= length (List.filter q (map g l)))%nat.
Proof.
  induction l as [|x l IH]; intros H; cbn; [lia|].
  assert (IH' := IH (fun y Hy => H y (or_intror Hy))).
  pose proof (H x (or_introl eq_refl)) as Hx.
  destruct (p (f x)).
  - rewrite (Hx eq_refl). cbn. lia.
  - destruct (q (g x)); cbn; lia.
Qed.

Lemma count_none {A B} (p : B -> bool) (f : A -> B) (l : list A) :
  (forall x, p (f x) = false) -> length (List.filter p (map f l)) = 0%nat.
Proof.
  intros H. induction l as [|x l IH]; cbn; [reflexivity|].
  now rewrite H.
Qed.


End ZScoreFacts.

Section ZScoreClaims.

Import Anomalies.
Local Open Scope R_scope.

Lemma Rabs_div_pos (a s : R) : 0 < s -> Rabs (a / s) = Rabs a / s.
Proof.
  intros Hs. unfold Rdiv. rewrite Rabs_mult.
  rewrite (Rabs_pos_eq (/ s)); [reflexivity|].
  apply Rlt_le, Rinv_0_lt_compat, Hs.
Qed.






(** C3.  For a fixed series, raising the threshold never increases the
    number of rows flagged: with t1 <= t2 the count at t2 is at most
    the count at t1. *)
Theorem anomaly_count_antitone
    (cfg : Config.AnomalyConfig) (df : list Obs) (t1 t2 : R) :
  t1 <= t2 ->
  (anomaly_count (detect_zscore_anomalies cfg df (Some t2))
   <= anomaly_count (detect_zscore_anomalies cfg df (Some t1)))%nat.
Proof.
  intros Hle. unfold anomaly_count, detect_zscore_anomalies.
  destruct (Float.eqb _ _).
  - rewrite !count_none by reflexivity. lia.
  - apply count_filter_mono. intros o _. cbn [is_anomaly].
    now apply gtb_threshold_mono.
Qed.

Lemma anomaly_count_antitone_witness :
  (anomaly_count
     (detect_zscore_anomalies Config.ANOMALY_CONFIG rising_series
        (Some 2%R))
   <= anomaly_count
        (detect_zscore_anomalies Config.ANOMALY_CONFIG rising_series
           (Some (1 / 2)%R)))%nat.
Proof.
  apply (anomaly_count_antitone Config.ANOMALY_CONFIG rising_series
           (1 / 2) 2).
  lra.
Defined.

End ZScoreClaims.

(** ** The anomaly detector: narratives *)

Section NarrativeFacts.

Import Anomalies.
Local Open Scope R_scope.

Section AppendFacts.

Variable to_datetime_strftime : string -> result string.
Variable null_date_error : string.

Local Abbreviation fmt := (strftime_ymd to_datetime_strftime null_date_error).
Local Abbreviation append :=
  (append_insights to_datetime_strftime null_date_error).
Local Abbreviation generate :=
  (generate_anomaly_insights to_datetime_strftime null_date_error).

Lemma generate_anomaly_insights_head anomalies metric_name :
  generate anomalies metric_name
  = append metric_name (take 3 anomalies) [].
Proof. destruct anomalies; reflexivity. Qed.

(** When every date converts, the loop appends one narrative per row. *)
Lemma append_insights_ok metric_name rows acc :
  (forall row, In row rows -> exists d, fmt (date row) = Ok d) ->
  exists l,
    append metric_name rows acc = Ok (acc ++ l)
    /\ length l = length rows
    /\ forall i row, nth_error rows i = Some row ->
         exists d, fmt (date row) = Ok d
                   /\ nth_error l i = Some (narrative_of metric_name d row).
Proof.
  revert acc. induction rows as [|row rows IH]; intros acc Hconv.
  - exists []. cbn. rewrite app_nil_r. split; [reflexivity|].
    split; [reflexivity|]. intros [|i] row' H; discriminate H.
  - destruct (Hconv row (or_introl eq_refl)) as [d Hd].
    destruct (IH (acc ++ [narrative_of metric_name d row])
                 (fun r Hr => Hconv r (or_intror Hr)))
      as (l & Hl & Hlen & Hnth).
    exists (narrative_of metric_name d row :: l).
    cbn [append_insights]. unfold row_insight. rewrite Hd, Hl.
    split; [now rewrite <- app_assoc|].
    split; [cbn; now rewrite Hlen|].
    intros [|i] row' Hrow'; cbn in Hrow'.
    + injection Hrow' as <-. exists d. now split.
    + apply (Hnth i row' Hrow').
Qed.

(** The loop returns only when every date converted. *)
Lemma append_insights_returns metric_name rows acc out :
  append metric_name rows acc = Ok out ->
  forall row, In row rows -> exists d, fmt (date row) = Ok d.
Proof.
  revert acc. induction rows as [|row rows IH]; intros acc Hout r Hr;
    [destruct Hr|].
  cbn [append_insights] in Hout. unfold row_insight in Hout.
  destruct (fmt (date row)) as [d|e] eqn:Hd; [|discriminate Hout].
  destruct Hr as [<-|Hr]; [now exists d|].
  exact (IH _ Hout r Hr).
Qed.

(** The exception of the loop is the one of the first date that does
    not convert. *)
Lemma append_insights_raise metric_name rows acc e :
  append metric_name rows acc = Raise e ->
  exists i row,
    nth_error rows i = Some row /\ fmt (date row) = Raise e
    /\ forall j row', (j < i)%nat -> nth_error rows j = Some row' ->
         exists d, fmt (date row') = Ok d.
Proof.
  revert acc. induction rows as [|row rows IH]; intros acc Hraise;
    [discriminate Hraise|].
  cbn [append_insights] in Hraise. unfold row_insight in Hraise.
  destruct (fmt (date row)) as [d|e'] eqn:Hd.
  - destruct (IH _ Hraise) as (i & row' & Hi & He & Hbefore).
    exists (S i), row'. split; [exact Hi|]. split; [exact He|].
    intros [|j] r Hj Hr; cbn in Hr.
    + injection Hr as <-. now exists d.
    + apply (Hbefore j r); [lia | exact Hr].
  - injection Hraise as <-. exists 0%nat, row.
    split; [reflexivity|]. split; [exact Hd|]. intros j r Hj. lia.
Qed.

(** Every narrative the loop returns was there before or is the
    narrative of one of the rows. *)
Lemma append_insights_elements metric_name rows acc out n :
  append metric_name rows acc = Ok out -> In n out ->
  In n acc
  \/ exists row d, In row rows /\ fmt (date row) = Ok d
                   /\ n = narrative_of metric_name d row.
Proof.
  revert acc. induction rows as [|row rows IH]; intros acc Hout Hn.
  - injection Hout as <-. now left.
  - cbn [append_insights] in Hout. unfold row_insight in Hout.
    destruct (fmt (date row)) as [d|e] eqn:Hd; [|discriminate Hout].
    destruct (IH _ Hout Hn) as [Hacc|(row' & d' & Hrow' & Hd' & ->)].
    + apply in_app_or in Hacc. destruct Hacc as [Hacc|[<-|[]]].
      * now left.
      * right. exists row, d. split; [now left|]. now split.
    + right. exists row', d'. split; [now right|]. now split.
Qed.

Lemma nth_error_take3 {A} (l : list A) (i : nat) (x : A) :
  nth_error (take 3 l) i = Some x <-> (i < 3)%nat /\ nth_error l i = Some x.
Proof.
  rewrite nth_error_firstn. destruct (Nat.ltb_spec i 3); split.
  - intros H'. now split.
  - now intros [_ H'].
  - discriminate.
  - intros [Hlt _]. lia.
Qed.

End AppendFacts.

Lemma filter_dates_sublist (f : Obs -> ZRow) (l : list Obs) :
  (forall o, z_date (f o) = o_date o) ->
  sublist (map z_date (List.filter is_anomaly (map f l))) (map o_date l).
Proof.
  intros Hf. induction l as [|x l IH]; [constructor|].
  cbn [map List.filter]. destruct (is_anomaly (f x)).
  - cbn [map]. rewrite Hf. apply sublist_skip, IH.
  - apply sublist_cons, IH.
Qed.

(** The z-score frames of [detect_metric_anomalies] keep the order of
    the frame fetched (ascending dates): their dates are a subsequence
    of its dates. *)
Lemma detect_metric_anomalies_keeps_order cfg forest table_name metric_column
    df rows :
  detect_metric_anomalies cfg forest table_name metric_column df "z-score"
  = Ok rows ->
  sublist (map date rows) (map o_date df).
Proof.
  unfold detect_metric_anomalies. destruct df as [|o df'].
  { intros [= <-]. constructor. }
  rewrite String.eqb_refl. intros [= <-].
  set (l := o :: df'). clearbody l. clear.
  rewrite map_map. cbn [date].
  unfold detect_zscore_anomalies.
  destruct (Float.eqb _ _); now apply filter_dates_sublist.
Qed.

End NarrativeFacts.

Section NarrativeClaims.

Import Anomalies.
Local Open Scope R_scope.

(** C5, as stated, fails on a frame of four anomalies in the order of
    [detect_metric_anomalies]: the narratives are about the three
    earliest dates, the most recent anomaly gets none, and the three
    most recent anomalies would give other narratives.  It also fails
    on a frame whose first row has a NULL date: the call raises and
    returns no narrative. *)
Lemma generate_anomaly_insights_not_by_recency :
  let generate :=
    generate_anomaly_insights example_strftime "no timestamp to format" in
  (exists insights,
     generate four_anomalies "Revenue" = Ok insights
     /\ map narrative_date insights
        = ["2024-01-31"; "2024-02-29"; "2024-03-31"]
     /\ ~ In "2024-04-30" (map narrative_date insights))
  /\ map date (top3_by_recency four_anomalies)
     = [Some "2024-04-30 00:00:00"; Some "2024-03-31 00:00:00";
        Some "2024-02-29 00:00:00"]
  /\ (exists insights,
        generate (top3_by_recency four_anomalies) "Revenue" = Ok insights
        /\ map narrative_date insights
           = ["2024-04-30"; "2024-03-31"; "2024-02-29"])
  /\ generate null_date_anomalies "Revenue"
     = Raise "no timestamp to format".
Proof.
  intros generate. split; [|split; [|split]].
  - eexists. split; [reflexivity|]. split; [reflexivity|].
    cbn. intros [H|[H|[H|[]]]]; discriminate H.
  - reflexivity.
  - eexists. split; reflexivity.
  - reflexivity.
Qed.

(** C5, amended.  On an empty frame the function returns the empty
    list.  When the dates of the first three rows convert, it returns
    one narrative for each of the first three rows of the frame, in the
    order of the frame (for the frames of [detect_metric_anomalies], in
    ascending dates, these are the three earliest flagged
    observations): at most three, and none for a row after the third.
    With an expected value the narrative states by how many percent the
    value was higher (value > expected) or lower than expected; without
    one it is the "unusual value" text.  The function returns only in
    that case: otherwise it raises the exception of the first of these
    dates that does not convert. *)
Theorem generate_anomaly_insights_first_three
    (to_datetime_strftime : string -> result string)
    (null_date_error : string)
    (anomalies : list AnomalyRow) (metric_name : string) :
  let fmt := strftime_ymd to_datetime_strftime null_date_error in
  let result :=
    generate_anomaly_insights to_datetime_strftime null_date_error
      anomalies metric_name in
  (anomalies = [] -> result = Ok [])
  /\ ((forall row, In row (take 3 anomalies) ->
         exists d, fmt (date row) = Ok d) ->
      exists insights,
        result = Ok insights
        /\ length insights = Nat.min 3 (length anomalies)
        /\ (forall i, (3 <= i)%nat -> nth_error insights i = None)
        /\ forall i row,
             (i < 3)%nat -> nth_error anomalies i = Some row ->
             exists d n,
               fmt (date row) = Ok d
               /\ nth_error insights i = Some n
               /\ narrative_date n = d
               /\ match expected_value row with
                  | Some expected =>
                      exists pct direction,
                        n = Deviation metric_name d (Rabs pct) direction
                              (value row) expected
                        /\ (expected <> 0 ->
                            pct = (value row - expected) / expected * 100)
                        /\ (direction = "higher" <-> value row > expected)
                        /\ (direction = "lower" <-> value row <= expected)
                  | None => n = Unusual metric_name d (value row)
                  end)
  /\ (forall insights, result = Ok insights ->
        (length insights <= 3)%nat
        /\ forall row, In row (take 3 anomalies) ->
             exists d, fmt (date row) = Ok d)
  /\ (forall e, result = Raise e ->
        exists i row,
          (i < 3)%nat /\ nth_error anomalies i = Some row
          /\ fmt (date row) = Raise e
          /\ forall j row', (j < i)%nat -> nth_error anomalies j = Some row' ->
               exists d, fmt (date row') = Ok d).
Proof.
  intros fmt result. subst result.
  rewrite generate_anomaly_insights_head.
  split; [now intros ->|].
  assert (Hok : (forall row, In row (take 3 anomalies) ->
                   exists d, fmt (date row) = Ok d) ->
                exists insights,
                  append_insights to_datetime_strftime null_date_error
                    metric_name (take 3 anomalies) [] = Ok insights
                  /\ length insights = Nat.min 3 (length anomalies)
                  /\ forall i row,
                       nth_error (take 3 anomalies) i = Some row ->
                       exists d, fmt (date row) = Ok d
                         /\ nth_error insights i
                            = Some (narrative_of metric_name d row)).
  { intros Hconv.
    destruct (append_insights_ok to_datetime_strftime null_date_error
                metric_name (take 3 anomalies) [] Hconv)
      as (l & Hl & Hlen & Hnth).
    exists l. split; [exact Hl|]. split; [|exact Hnth].
    rewrite Hlen. apply length_firstn. }
  split; [|split].
  - intros Hconv. destruct (Hok Hconv) as (insights & Hres & Hlen & Hnth).
    exists insights. split; [exact Hres|]. split; [exact Hlen|]. split.
    { intros i Hi. apply nth_error_None. lia. }
    intros i row Hi Hrow.
    destruct (Hnth i row (proj2 (nth_error_take3 anomalies i row)
                                (conj Hi Hrow)))
      as (d & Hd & Hn).
    exists d, (narrative_of metric_name d row).
    split; [exact Hd|]. split; [exact Hn|]. unfold narrative_of.
    destruct (expected_value row) as [expected|]; cbn [narrative_date].
    + split; [reflexivity|].
      exists (deviation_pct (value row) expected),
             (if Rgtb (value row) expected then "higher" else "lower").
      split; [reflexivity|]. split.
      * intros Hne. unfold deviation_pct.
        now rewrite (proj2 (Reqb_false expected 0) Hne).
      * destruct (Rgtb (value row) expected) eqn:Hgt.
        -- apply Rgtb_true in Hgt. repeat split; try easy; intros; lra.
        -- apply Rgtb_false in Hgt. repeat split; try easy; intros; lra.
    + split; reflexivity.
  - intros insights Hres.
    pose proof (append_insights_returns _ _ _ _ _ _ Hres) as Hconv.
    split; [|exact Hconv].
    destruct (Hok Hconv) as (insights' & Hres' & Hlen & _).
    assert (insights' = insights) by congruence. subst insights'. lia.
  - intros e Hres.
    destruct (append_insights_raise _ _ _ _ _ _ Hres)
      as (i & row & Hi & He & Hbefore).
    apply nth_error_take3 in Hi. destruct Hi as [Hi Hrow].
    exists i, row. split; [exact Hi|]. split; [exact Hrow|].
    split; [exact He|]. intros j row' Hj Hrow'.
    apply (Hbefore j row' Hj). apply nth_error_take3. split; [lia|exact Hrow'].
Qed.

Lemma generate_anomaly_insights_first_three_witness :
  exists insights n,
    generate_anomaly_insights example_strftime "no timestamp to format"
      four_anomalies "Revenue" = Ok insights
    /\ length insights = 3%nat
    /\ nth_error insights 1 = Some n
    /\ narrative_date n = "2024-02-29".
Proof.
  destruct (generate_anomaly_insights_first_three example_strftime
              "no timestamp to format" four_anomalies "Revenue")
    as (_ & Hok & _).
  destruct Hok as (insights & Hres & Hlen & _ & Hrow).
  { intros row Hin. unfold four_anomalies, revenue_anomalies in Hin.
    cbn [map take In] in Hin.
    destruct Hin as [<-|[<-|[<-|[]]]]; eexists; reflexivity. }
  destruct (Hrow 1%nat _ ltac:(lia) eq_refl)
    as (d & n & Hd & Hn & Hdate & _).
  exists insights, n. split; [exact Hres|]. split; [exact Hlen|].
  split; [exact Hn|]. rewrite Hdate.
  vm_compute in Hd. now injection Hd as <-.
Defined.




End NarrativeClaims.

(** ** The accuracy of a forecast *)

Section AccuracyFacts.

Import Forecasting.
Local Open Scope R_scope.

(** Rounding to the nearest integer, away from a tie. *)
Lemma rint_nearest (x : R) (n : Z) :
  IZR n - 1 / 2 < x < IZR n + 1 / 2 -> rint x = n.
Proof.
  intros [Hlo Hhi]. unfold rint.
  destruct (Rle_lt_dec (IZR n) x) as [Hge|Hlt].
  - rewrite (Zfloor_eq n x) by lra.
    now rewrite (proj2 (Rltb_true _ _)) by lra.
  - rewrite (Zfloor_eq (n - 1) x) by (rewrite minus_IZR; lra).
    rewrite minus_IZR.
    rewrite (proj2 (Rltb_false _ _)) by lra.
    rewrite (proj2 (Rltb_true _ _)) by lra.
    lia.
Qed.

Lemma round2_nearest (x : R) (n : Z) :
  IZR n - 1 / 2 < x * 100 < IZR n + 1 / 2 -> round2 x = IZR n / 100.
Proof. intros H. unfold round2. now rewrite (rint_nearest _ n H). Qed.

(** A value of two decimals is its own rounding. *)
Lemma round2_exact (n : Z) : round2 (IZR n / 100) = IZR n / 100.
Proof. apply round2_nearest. lra. Qed.

(** The square root, between two bounds. *)
Lemma sqrt_between (lo hi x : R) :
  0 <= lo -> lo * lo < x < hi * hi -> 0 <= hi -> lo < sqrt x < hi.
Proof.
  intros Hlo [H1 H2] Hhi.
  pose proof (sqrt_square lo Hlo) as Elo.
  pose proof (sqrt_square hi Hhi) as Ehi.
  assert (sqrt (lo * lo) < sqrt x) by (apply sqrt_lt_1_alt; nra).
  assert (sqrt x < sqrt (hi * hi)) by (apply sqrt_lt_1_alt; nra).
  lra.
Qed.

(** The error relative to the guarded denominator: |error| over
    |actual|, and over 1 when the actual value is 0. *)
Lemma guarded_error (actual predicted : R) :
  Rabs ((actual - predicted) / guarded actual)
  = Rabs (actual - predicted) / (if Reqb actual 0 then 1 else Rabs actual).
Proof.
  unfold guarded. destruct (Reqb actual 0) eqn:Hz.
  - now rewrite Rabs_div_pos by lra.
  - apply Reqb_false in Hz. unfold Rdiv.
    now rewrite Rabs_mult, Rabs_inv.
Qed.

Lemma example_merge :
  merge example_actual example_forecast = [(10, 10); (20, 18); (30, 33)].
Proof. reflexivity. Qed.

Lemma example_rmse :
  sqrt (np_mean (map (fun '(actual, predicted) => (actual - predicted) ^ 2)
                     [(10, 10); (20, 18); (30, 33)]))
  = sqrt (13 / 3).
Proof.
  f_equal. unfold np_mean. cbn [map fold_right].
  simpl Datatypes.length. simpl INR. lra.
Qed.

Lemma example_mae :
  np_mean (map (fun '(actual, predicted) => Rabs (actual - predicted))
               [(10, 10); (20, 18); (30, 33)])
  = 5 / 3.
Proof.
  unfold np_mean. cbn [map fold_right].
  simpl Datatypes.length. simpl INR.
  replace (10 - 10) with 0 by lra.
  replace (20 - 18) with 2 by lra.
  replace (30 - 33) with (Ropp 3) by lra.
  rewrite Rabs_Ropp, Rabs_R0, !Rabs_pos_eq by lra. lra.
Qed.

Lemma example_mape :
  np_mean (map (fun '(actual, predicted) =>
                  Rabs ((actual - predicted) / guarded actual))
               [(10, 10); (20, 18); (30, 33)]) * 100
  = 20 / 3.
Proof.
  unfold np_mean, guarded. cbn [map fold_right].
  simpl Datatypes.length. simpl INR. Rbool.
  replace ((10 - 10) / 10) with 0 by lra.
  replace ((20 - 18) / 20) with (1 / 10) by lra.
  replace ((30 - 33) / 30) with (- (1 / 10)) by lra.
  rewrite Rabs_Ropp, Rabs_R0, Rabs_pos_eq by lra. lra.
Qed.

End AccuracyFacts.

Section AccuracyClaims.

Import Forecasting.
Local Open Scope R_scope.

(** The merge is the inner join on [ds]. *)
Lemma merge_inner_join actual_df forecast_df (actual predicted : R) :
  In (actual, predicted) (merge actual_df forecast_df) <->
  exists a f, In a actual_df /\ In f forecast_df /\ f_ds f = a_ds a
              /\ y a = actual /\ yhat f = predicted.
Proof.
  unfold merge. rewrite in_flat_map. split.
  - intros (a & Ha & Hin). apply in_map_iff in Hin.
    destruct Hin as (f & [= <- <-] & Hf). apply filter_In in Hf.
    destruct Hf as [Hf Heq]. apply String.eqb_eq in Heq.
    now exists a, f.
  - intros (a & f & Ha & Hf & Heq & <- & <-).
    exists a. split; [exact Ha|]. apply in_map_iff. exists f.
    split; [reflexivity|]. apply filter_In. split; [exact Hf|].
    now apply String.eqb_eq.
Qed.

(** C4, as stated, fails for an actual value between 0 and 1: with
    actual 0.5 and predicted 1 the code divides by 0.5 and returns a
    MAPE of 100, where the formula with max(|actual|, 1) gives 50. *)
Lemma calculate_accuracy_small_actual :
  merge half_actual half_forecast = [(1 / 2, 1)]
  /\ mape (_calculate_accuracy half_actual half_forecast) = 100
  /\ mape_spec (merge half_actual half_forecast) = 50
  /\ mape (_calculate_accuracy half_actual half_forecast)
     <> mape_spec (merge half_actual half_forecast).
Proof.
  assert (Hm : merge half_actual half_forecast = [(1 / 2, 1)])
    by reflexivity.
  assert (Hcode : mape (_calculate_accuracy half_actual half_forecast) = 100).
  { unfold _calculate_accuracy. rewrite Hm. cbn [length Nat.eqb mape map].
    unfold np_mean, guarded. cbn [fold_right].
    simpl Datatypes.length. simpl INR. Rbool.
    replace ((1 / 2 - 1) / (1 / 2)) with (Ropp 1) by lra.
    rewrite Rabs_Ropp, Rabs_R1.
    replace ((1 + 0) / 1 * 100) with (10000 / 100) by lra.
    rewrite (round2_exact 10000). lra. }
  assert (Hspec : mape_spec (merge half_actual half_forecast) = 50).
  { rewrite Hm. unfold mape_spec, np_mean. cbn [map fold_right].
    simpl Datatypes.length. simpl INR.
    replace (1 / 2 - 1) with (Ropp (1 / 2)) by lra.
    rewrite Rabs_Ropp, (Rabs_pos_eq (1 / 2)) by lra.
    rewrite Rmax_right by lra. lra. }
  split; [exact Hm|]. split; [exact Hcode|]. split; [exact Hspec|].
  rewrite Hcode, Hspec. lra.
Qed.

(** C4, amended.  On the inner join of the actual and the forecast
    series on the date, the function returns, each rounded to two
    decimals: RMSE = sqrt(mean of the squared errors), MAE = mean of the
    absolute errors, and MAPE = mean(|error| / d) * 100 where d is
    |actual|, and 1 when the actual value is 0 (an actual value between
    0 and 1 is divided by as it is); an empty join gives 0 for the
    three.  On actual = [10, 20, 30] and predicted = [10, 18, 33] it
    returns RMSE = 2.08, MAE = 1.67 and MAPE = 6.67. *)
Theorem calculate_accuracy_metrics :
  (forall actual_df forecast_df,
     let merged := merge actual_df forecast_df in
     let acc := _calculate_accuracy actual_df forecast_df in
     (merged = [] -> acc = {| rmse := 0; mae := 0; mape := 0 |})
     /\ (merged <> [] ->
         rmse acc
         = round2 (sqrt (np_mean (map (fun p => (fst p - snd p) ^ 2) merged)))
         /\ mae acc
            = round2 (np_mean (map (fun p => Rabs (fst p - snd p)) merged))
         /\ mape acc
            = round2 (np_mean
                        (map (fun p =>
                                Rabs (fst p - snd p)
                                / (if Reqb (fst p) 0 then 1
                                   else Rabs (fst p)))
                             merged) * 100)))
  /\ _calculate_accuracy example_actual example_forecast
     = {| rmse := 208 / 100; mae := 167 / 100; mape := 667 / 100 |}.
Proof.
  split.
  - intros actual_df forecast_df merged acc. subst acc.
    unfold _calculate_accuracy. fold merged. split.
    + now intros ->.
    + intros Hne. destruct merged as [|p merged']; [contradiction|].
      cbn [length Nat.eqb rmse mae mape]. set (l := p :: merged').
      rewrite (map_ext (fun '(actual, predicted) => (actual - predicted) ^ 2)
                       (fun p => (fst p - snd p) ^ 2))
        by (intros []; reflexivity).
      rewrite (map_ext (fun '(actual, predicted) => Rabs (actual - predicted))
                       (fun p => Rabs (fst p - snd p)))
        by (intros []; reflexivity).
      rewrite (map_ext (fun '(actual, predicted) =>
                          Rabs ((actual - predicted) / guarded actual))
                       (fun p => Rabs (fst p - snd p)
                                 / (if Reqb (fst p) 0 then 1
                                    else Rabs (fst p))))
        by (intros []; apply guarded_error).
      repeat split.
  - unfold _calculate_accuracy. rewrite example_merge.
    cbn [length Nat.eqb].
    rewrite example_rmse, example_mae, example_mape.
    f_equal; apply round2_nearest.
    + pose proof (sqrt_between (2075 / 1000) (2085 / 1000) (13 / 3)
                    ltac:(lra) ltac:(lra) ltac:(lra)).
      lra.
    + lra.
    + lra.
Qed.

Lemma calculate_accuracy_metrics_witness :
  mae (_calculate_accuracy example_actual example_forecast)
  = round2 (np_mean (map (fun p => Rabs (fst p - snd p))
                         (merge example_actual example_forecast))).
Proof.
  apply (proj1 calculate_accuracy_metrics example_actual example_forecast).
  rewrite example_merge. discriminate.
Defined.

End AccuracyClaims.

(** ** Loading: the tables are replaced *)

Section LoadFacts.

Import Etl.

Variable to_datetime : list cell -> result (list (option Z)).
Variable csv_files : gmap string (result DataFrame).
Variable data_dir : string.

Local Abbreviation loaded := (loaded_frame to_datetime csv_files data_dir).
Local Abbreviation load_one := (load_table to_datetime csv_files data_dir).
Local Abbreviation write_table :=
  (Etl.write_table to_datetime csv_files data_dir).
Local Abbreviation rows_loaded :=
  (Etl.rows_loaded to_datetime csv_files data_dir).

Lemma load_table_writes table (load_results : gmap string nat)
    (db : gmap string DataFrame) :
  load_one table (load_results, db)
  = (<[table := rows_loaded table]> load_results, write_table table db).
Proof.
  unfold load_table, load_csv_to_db, Etl.write_table, Etl.rows_loaded,
    loaded_frame.
  destruct (csv_files !! _) as [[df|e]|]; try reflexivity.
  destruct (clean_dataframe to_datetime df "date") as [df'|e]; reflexivity.
Qed.

Lemma load_tables_fold (ts : list string) (load_results : gmap string nat)
    (db : gmap string DataFrame) :
  fold_left (fun st table => load_one table st) ts (load_results, db)
  = (fold_left (fun lr table => <[table := rows_loaded table]> lr)
               ts load_results,
     fold_left (fun db table => write_table table db) ts db).
Proof.
  revert load_results db.
  induction ts as [|t ts IH]; intros load_results db; [reflexivity|].
  cbn [fold_left]. rewrite load_table_writes. apply IH.
Qed.

(** A table of the list holds the frame loaded for it, whatever it held
    before; a table whose load fails, and any other table, is as it
    was. *)
Lemma write_tables_lookup (ts : list string) (db : gmap string DataFrame)
    (k : string) :
  fold_left (fun db table => write_table table db) ts db !! k
  = if decide (k ∈ ts)
    then match loaded k with
         | Some df => Some df
         | None => db !! k
         end
    else db !! k.
Proof.
  revert db. induction ts as [|t ts IH]; intros db.
  - cbn. destruct (decide (k ∈ [])) as [Hin|_]; [|reflexivity].
    now apply elem_of_nil in Hin.
  - cbn [fold_left]. rewrite IH.
    assert (Hw : write_table t db !! k
                 = if decide (k = t)
                   then match loaded k with
                        | Some df => Some df
                        | None => db !! k
                        end
                   else db !! k).
    { unfold Etl.write_table. destruct (decide (k = t)) as [->|Hne].
      - destruct (loaded t); [apply lookup_insert_eq | reflexivity].
      - destruct (loaded t); [|reflexivity].
        now apply lookup_insert_ne. }
    destruct (decide (k ∈ ts)) as [Hin|Hnin].
    + rewrite decide_True by (now apply elem_of_cons; right).
      destruct (loaded k); [reflexivity|].
      rewrite Hw. destruct (decide (k = t)); reflexivity.
    + rewrite Hw. destruct (decide (k = t)) as [->|Hne].
      * rewrite decide_True by apply list_elem_of_here. reflexivity.
      * rewrite decide_False; [reflexivity|].
        intros Hin. apply elem_of_cons in Hin. tauto.
Qed.

Lemma load_results_lookup (ts : list string) (lr : gmap string nat)
    (k : string) :
  fold_left (fun lr table => <[table := rows_loaded table]> lr) ts lr !! k
  = if decide (k ∈ ts) then Some (rows_loaded k) else lr !! k.
Proof.
  revert lr. induction ts as [|t ts IH]; intros lr.
  - cbn. destruct (decide (k ∈ [])) as [Hin|_]; [|reflexivity].
    now apply elem_of_nil in Hin.
  - cbn [fold_left]. rewrite IH.
    destruct (decide (k ∈ ts)) as [Hin|Hnin].
    + now rewrite decide_True by (now apply elem_of_cons; right).
    + destruct (decide (k = t)) as [->|Hne].
      * rewrite decide_True by apply list_elem_of_here.
        apply lookup_insert_eq.
      * rewrite decide_False
          by (intros Hin; apply elem_of_cons in Hin; tauto).
        now apply lookup_insert_ne.
Qed.

(** Writing the tables a second time changes nothing. *)
Lemma write_tables_idempotent (ts : list string)
    (db : gmap string DataFrame) :
  let w := fold_left (fun db table => write_table table db) ts in
  w (w db) = w db.
Proof.
  intros w. subst w. apply map_eq. intros k.
  rewrite !write_tables_lookup.
  destruct (decide (k ∈ ts)); [|reflexivity].
  destruct (loaded k); reflexivity.
Qed.

End LoadFacts.

Section LoadClaims.

Import Etl.

(** C7.  A second run of the load over the same source files leaves
    every table, and the row counts reported, as the first run left
    them: each table whose load succeeds holds exactly the cleaned
    content of its file, whatever it held before (it is replaced, not
    appended to), and a table whose load fails is as it was. *)
Theorem load_all_data_idempotent
    (to_datetime : list cell -> result (list (option Z)))
    (csv_files : gmap string (result DataFrame)) (data_dir : string)
    (db : gmap string DataFrame) :
  let run := _load_all_data to_datetime csv_files data_dir in
  run (snd (run db)) = run db
  /\ (forall table, table ∈ tables ->
        match loaded_frame to_datetime csv_files data_dir table with
        | Some df =>
            snd (run db) !! table = Some df
            /\ fst (run db) !! table = Some (length (rows df))
        | None =>
            snd (run db) !! table = db !! table
            /\ fst (run db) !! table = Some 0%nat
        end)
  /\ (forall table, table ∉ tables -> snd (run db) !! table = db !! table).
Proof.
  intros run.
  assert (Hrun : forall db0,
            run db0
            = (fold_left
                 (fun lr table =>
                    <[table := rows_loaded to_datetime csv_files data_dir
                                 table]> lr) tables ∅,
               fold_left
                 (fun db table =>
                    write_table to_datetime csv_files data_dir table db)
                 tables db0)).
  { intros db0. subst run. unfold _load_all_data. apply load_tables_fold. }
  split; [|split].
  - rewrite !Hrun. cbn [snd]. f_equal.
    apply (write_tables_idempotent to_datetime csv_files data_dir tables db).
  - intros table Hin. rewrite Hrun. cbn [fst snd].
    rewrite write_tables_lookup, load_results_lookup.
    rewrite !decide_True by exact Hin.
    unfold rows_loaded.
    destruct (loaded_frame to_datetime csv_files data_dir table);
      split; reflexivity.
  - intros table Hnin. rewrite Hrun. cbn [snd].
    rewrite write_tables_lookup. now rewrite decide_False by exact Hnin.
Qed.

End LoadClaims.

Section LoadWitness.

Import Etl.

Lemma load_all_data_idempotent_witness :
  let to_datetime := fun _ : list cell =>
    Ok [Some 19753%Z; Some 19782%Z] in
  let csv_files : gmap string (result DataFrame) :=
    {[ "data/finance.csv" := Ok empty_budget ]} in
  let run := _load_all_data to_datetime csv_files "data" in
  run (snd (run ∅)) = run ∅.
Proof.
  intros to_datetime csv_files run.
  exact (proj1 (load_all_data_idempotent to_datetime csv_files "data" ∅)).
Defined.

End LoadWitness.

(** ** Cleaning *)

Section CleanClaims.

Import Etl.

(** C6 at a numeric column without any value.  The median of the column
    is NaN, [fillna] with it changes nothing, and the column of the
    cleaned frame is as null as it was. *)
Theorem clean_dataframe_all_null_column
    (to_datetime : list cell -> result (list (option Z))) :
  to_datetime [CObj (Some "2024-01-31"); CObj (Some "2024-02-29")]
  = Ok [Some 19753%Z; Some 19782%Z] ->
  clean_dataframe to_datetime empty_budget "date"
  = Ok {| columns := [("date", datetime64); ("budget", float64)];
          rows := [ [CDate (Some 19753%Z); CFloat None];
                    [CDate (Some 19782%Z); CFloat None] ] |}
  /\ median [CFloat None; CFloat None] = None
  /\ any_null 1
       [ [CDate (Some 19753%Z); CFloat None];
         [CDate (Some 19782%Z); CFloat None] ] = true.
Proof.
  intros Hdates. split; [|split; reflexivity].
  unfold clean_dataframe. cbn [column_index empty_budget columns].
  change (String.eqb "date" "date") with true. cbv iota.
  unfold convert_dates.
  change (column 0 (rows empty_budget))
    with [CObj (Some "2024-01-31"); CObj (Some "2024-02-29")].
  rewrite Hdates. reflexivity.
Qed.

Lemma clean_dataframe_all_null_column_witness :
  exists df,
    clean_dataframe (fun _ => Ok [Some 19753%Z; Some 19782%Z])
      empty_budget "date" = Ok df
    /\ any_null 1 (rows df) = true.
Proof.
  destruct (clean_dataframe_all_null_column
              (fun _ => Ok [Some 19753%Z; Some 19782%Z]) eq_refl)
    as (Hclean & _ & Hnull).
  eexists. split; [exact Hclean | exact Hnull].
Defined.

End CleanClaims.

(** * Further properties of the code *)

(** ** The order of dates *)

Section DateOrder.

Lemma ltb_compare_lt (a b : string) :
  String.ltb a b = true <-> String.compare a b = Lt.
Proof.
  unfold String.ltb. destruct (String.compare a b); split; intros; easy.
Qed.

Lemma ltb_trans (a b c : string) :
  String.ltb a b = true -> String.ltb b c = true -> String.ltb a c = true.
Proof.
  rewrite !ltb_compare_lt.
  change String.compare with OrderedTypeEx.String_as_OT.cmp.
  rewrite !OrderedTypeEx.String_as_OT.cmp_lt.
  apply OrderedTypeEx.String_as_OT.lt_trans.
Qed.

Lemma ltb_irrefl (a : string) : String.ltb a a = false.
Proof.
  unfold String.ltb.
  change String.compare with OrderedTypeEx.String_as_OT.cmp.
  now rewrite (proj2 (OrderedTypeEx.String_as_OT.cmp_eq a a) eq_refl).
Qed.

(** Of two dates, one is before the other or they are the same. *)
Lemma ltb_total (a b : string) :
  String.ltb a b = true \/ a = b \/ String.ltb b a = true.
Proof.
  unfold String.ltb. rewrite (String.compare_antisym b a).
  destruct (String.compare a b) eqn:Hc; cbn; auto.
  right. left. now apply String.compare_eq_iff.
Qed.

End DateOrder.

(** ** Sorting by date *)

Section SortFacts.

Import Analyzers.

Context {A : Type} (key : A -> string).

Lemma insert_by_perm (r : A) (l : list A) :
  Permutation (r :: l) (insert_by key r l).
Proof.
  induction l as [|r' l IH]; cbn; [reflexivity|].
  destruct (String.ltb (key r) (key r')); [reflexivity|].
  rewrite perm_swap. now constructor.
Qed.

Lemma insert_by_ascending (r : A) (l : list A) :
  ascending key l -> ascending key (insert_by key r l).
Proof.
  unfold ascending. induction 1 as [|r' l Hs IH Hall]; cbn.
  - repeat constructor.
  - destruct (String.ltb (key r) (key r')) eqn:Hlt.
    + constructor; [now constructor|].
      constructor.
      * destruct (String.ltb (key r') (key r)) eqn:Hgt; [|reflexivity].
        pose proof (ltb_trans _ _ _ Hlt Hgt) as Hrr.
        now rewrite ltb_irrefl in Hrr.
      * eapply List.Forall_impl; [|exact Hall]. intros x Hx. cbn in Hx.
        destruct (String.ltb (key x) (key r)) eqn:Hxr; [|reflexivity].
        pose proof (ltb_trans _ _ _ Hxr Hlt) as Hxr'. congruence.
    + constructor; [exact IH|].
      eapply Permutation_Forall; [apply insert_by_perm|].
      constructor; [exact Hlt | exact Hall].
Qed.

Lemma sort_by_spec (l : list A) :
  Permutation l (sort_by key l) /\ ascending key (sort_by key l).
Proof.
  unfold sort_by.
  enough (H : forall acc, ascending key acc ->
            Permutation (acc ++ l)
              (fold_left (fun sorted r => insert_by key r sorted) l acc)
            /\ ascending key
                 (fold_left (fun sorted r => insert_by key r sorted) l acc)).
  { apply (H []). constructor. }
  induction l as [|r l IH]; intros acc Hacc; cbn [fold_left].
  - rewrite app_nil_r. now split.
  - destruct (IH (insert_by key r acc) (insert_by_ascending r acc Hacc))
      as [Hp Hs].
    split; [|exact Hs].
    etransitivity; [|exact Hp].
    etransitivity; [symmetry; apply Permutation_middle|].
    apply (Permutation_app_tail l (insert_by_perm r acc)).
Qed.

(** The last row of an ascending frame has the latest date. *)
Lemma ascending_last (l : list A) (latest : A) (rest : list A) :
  ascending key l -> rev l = latest :: rest ->
  forall r, In r l -> String.ltb (key latest) (key r) = false.
Proof.
  intros Hs Hrev r Hr.
  assert (Hl : l = rev rest ++ [latest]).
  { rewrite <- (rev_involutive l), Hrev. reflexivity. }
  subst l. clear Hrev.
  apply in_app_or in Hr. destruct Hr as [Hr|[<-|[]]];
    [|apply ltb_irrefl].
  unfold ascending in Hs. revert r Hr.
  induction (rev rest) as [|x l IH]; intros r Hr; [easy|].
  cbn in Hs. apply StronglySorted_inv in Hs. destruct Hs as [Hs Hall].
  destruct Hr as [<-|Hr]; [|now apply IH].
  rewrite List.Forall_forall in Hall. apply Hall.
  apply in_or_app. right. now left.
Qed.

(** The last row of the sorted frame is a row of the frame, and no row
    of the frame has a later date. *)
Lemma sort_by_latest (df : list A) (latest : A) (rest : list A) :
  rev (sort_by key df) = latest :: rest ->
  In latest df
  /\ forall r, In r df -> String.ltb (key latest) (key r) = false.
Proof.
  intros Hrev. destruct (sort_by_spec df) as [Hp Hs]. split.
  - apply (Permutation_in _ (Permutation_sym Hp)).
    apply in_rev. rewrite Hrev. now left.
  - intros r Hr. apply (ascending_last _ _ _ Hs Hrev).
    now apply (Permutation_in _ Hp).
Qed.

End SortFacts.

(** ** Revenue insights carry the latest date *)

Section RevenueDate.

Import Insights.

Lemma insert_by_date_insert_by r df :
  insert_by_date r df = Analyzers.insert_by f_date r df.
Proof.
  induction df as [|r' df IH]; cbn; [reflexivity|]. now rewrite IH.
Qed.

Lemma sort_values_sort_by df : sort_values df = Analyzers.sort_by f_date df.
Proof.
  unfold sort_values, Analyzers.sort_by. generalize (@nil FinanceRow).
  induction df as [|r df IH]; intros acc; cbn; [reflexivity|].
  now rewrite insert_by_date_insert_by, IH.
Qed.

(** [sort_values] keeps every row, each as often as it occurs, and
    returns them in ascending order of date. *)
Theorem sort_values_sorts (df : list FinanceRow) :
  Permutation df (sort_values df)
  /\ Analyzers.ascending f_date (sort_values df).
Proof. rewrite sort_values_sort_by. apply sort_by_spec. Qed.

(** Whatever the order of the rows in the frame, every insight of
    [analyze_revenue_trends] is of category finance and carries the date
    of a row of the frame that no row of the frame is later than. *)
Theorem analyze_revenue_trends_latest_date
    (thresholds : Config.KpiThresholds) (df : list FinanceRow)
    (i : Insight) :
  In i (analyze_revenue_trends thresholds df) ->
  category i = "finance"
  /\ (exists r, In r df /\ date i = f_date r)
  /\ forall r, In r df -> String.ltb (date i) (f_date r) = false.
Proof.
  intros Hi.
  destruct (Nat.lt_ge_cases (length df) 2) as [Hlt|Hge].
  { unfold analyze_revenue_trends in Hi.
    destruct (Nat.ltb_spec (length df) 2); [destruct Hi | lia]. }
  destruct (latest_two df Hge) as (latest & prev & rest & Hrev).
  rewrite (analyze_revenue_trends_shape thresholds df latest prev rest
             Hge Hrev) in Hi.
  assert (Hfields : category i = "finance" /\ date i = f_date latest).
  { destruct Hi as [<-|Hi]; [now split|].
    unfold margin_insights in Hi.
    destruct (Rltb _ _); [destruct Hi as [<-|[]]; now split|].
    destruct (Rgtb _ _); [destruct Hi as [<-|[]]; now split|destruct Hi]. }
  destruct Hfields as [Hcat Hdate]. rewrite Hdate.
  rewrite sort_values_sort_by in Hrev.
  destruct (sort_by_latest f_date df latest (prev :: rest) Hrev)
    as [Hin Hmax].
  split; [exact Hcat|]. split; [now exists latest | exact Hmax].
Qed.

Lemma window_100_105_insights :
  analyze_revenue_trends Config.KPI_THRESHOLDS window_100_105
  = [ {| date := "2024-02-29"; category := "finance";
         insight_text := RevenueSteady (Float.Fin 5);
         severity := "info"; metric_value := Float.Fin 5 |} ].
Proof.
  assert (Hg : ((105 - 100) / 100 * 100 = 5)%R) by lra.
  rewrite (analyze_revenue_trends_shape Config.KPI_THRESHOLDS
             window_100_105 _ _ [] ltac:(cbn; lia) eq_refl).
  cbn [revenue profit_margin_pct f_date].
  rewrite growth_rate_of_finite by lra. rewrite Hg.
  rewrite (proj2 (proj2 (proj2 (classify_growth_bands 5)))) by lra.
  unfold margin_insights. cbn [Config.profit_margin Config.KPI_THRESHOLDS
                               Config.critical Config.good].
  Rbool. reflexivity.
Qed.

Lemma analyze_revenue_trends_latest_date_witness :
  let i := {| date := "2024-02-29"; category := "finance";
              insight_text := RevenueSteady (Float.Fin 5);
              severity := "info"; metric_value := Float.Fin 5 |} in
  category i = "finance"
  /\ (exists r, In r window_100_105 /\ date i = f_date r)
  /\ forall r, In r window_100_105 -> String.ltb (date i) (f_date r) = false.
Proof.
  intros i.
  apply (analyze_revenue_trends_latest_date Config.KPI_THRESHOLDS
           window_100_105 i).
  rewrite window_100_105_insights. now left.
Defined.

End RevenueDate.

(** ** Revenue growth from a previous revenue of zero *)

Section ZeroRevenue.

Import Insights.
Local Open Scope R_scope.

(** A previous revenue of zero raises nothing: the growth rate is an
    infinity or a NaN, and under any thresholds the insight is
    "accelerated" for a positive latest revenue, "declined" (critical)
    for a negative one and "steady growth" when both are zero. *)
Theorem growth_from_zero_revenue
    (thresholds : Config.KpiThresholds) (latest_revenue : R) :
  (0 < latest_revenue ->
     growth_rate_of latest_revenue 0 = Float.PInf
     /\ classify_growth thresholds (growth_rate_of latest_revenue 0)
        = ("info", RevenueAccelerated Float.PInf))
  /\ (latest_revenue < 0 ->
     growth_rate_of latest_revenue 0 = Float.NInf
     /\ classify_growth thresholds (growth_rate_of latest_revenue 0)
        = ("critical", RevenueDeclined Float.PInf))
  /\ (latest_revenue = 0 ->
     growth_rate_of latest_revenue 0 = Float.NaN
     /\ classify_growth thresholds (growth_rate_of latest_revenue 0)
        = ("info", RevenueSteady Float.NaN)).
Proof.
  unfold growth_rate_of. cbn [Float.div].
  rewrite (proj2 (Reqb_true 0 0) eq_refl).
  split; [|split]; intros H.
  - rewrite (proj2 (Reqb_false (latest_revenue - 0) 0)) by lra.
    rewrite (proj2 (Rltb_true 0 (latest_revenue - 0))) by lra.
    cbn [Float.mul]. rewrite (proj2 (Reqb_false 100 0)) by lra.
    rewrite (proj2 (Rltb_true 0 100)) by lra. now split.
  - rewrite (proj2 (Reqb_false (latest_revenue - 0) 0)) by lra.
    rewrite (proj2 (Rltb_false 0 (latest_revenue - 0))) by lra.
    cbn [Float.mul]. rewrite (proj2 (Reqb_false 100 0)) by lra.
    rewrite (proj2 (Rltb_true 0 100)) by lra. now split.
  - rewrite (proj2 (Reqb_true (latest_revenue - 0) 0)) by lra.
    now split.
Qed.

Lemma growth_from_zero_revenue_witness :
  classify_growth Config.KPI_THRESHOLDS (growth_rate_of 250 0)
  = ("info", RevenueAccelerated Float.PInf).
Proof.
  apply (proj1 (growth_from_zero_revenue Config.KPI_THRESHOLDS 250)).
  lra.
Defined.

End ZeroRevenue.

(** ** The filters of the engine *)

Section FilterFacts.

Import Insights.

Lemma severity_partition (insights : list Insight) :
  Forall (fun i => In (severity i) ["info"; "warning"; "critical"])
         insights ->
  (length (Analyzers.get_insights_by_severity insights "critical")
   + length (Analyzers.get_insights_by_severity insights "warning")
   + length (Analyzers.get_insights_by_severity insights "info")
   = length insights)%nat.
Proof.
  unfold Analyzers.get_insights_by_severity.
  induction 1 as [|i l Hi _ IH]; [reflexivity|].
  cbn [List.filter length].
  destruct Hi as [<-|[<-|[<-|[]]]]; cbn [String.eqb Ascii.eqb Bool.eqb];
    cbn [length]; lia.
Qed.

(** The three severity counts that [main] prints add up to the number of
    insights, and the filter by category "finance" keeps every insight
    of [analyze_revenue_trends]. *)
Theorem revenue_insights_filters
    (thresholds : Config.KpiThresholds) (df : list FinanceRow) :
  let insights := analyze_revenue_trends thresholds df in
  (length (Analyzers.get_insights_by_severity insights "critical")
   + length (Analyzers.get_insights_by_severity insights "warning")
   + length (Analyzers.get_insights_by_severity insights "info")
   = length insights)%nat
  /\ Analyzers.get_insights_by_category insights "finance" = insights
  /\ forall c, c <> "finance" -> Analyzers.get_insights_by_category insights c = [].
Proof.
  intros insights.
  assert (Hall : Forall (fun i => category i = "finance"
                                  /\ In (severity i)
                                        ["info"; "warning"; "critical"])
                        insights).
  { apply List.Forall_forall. intros i Hi. subst insights.
    destruct (Nat.lt_ge_cases (length df) 2) as [Hlt|Hge].
    { unfold analyze_revenue_trends in Hi.
      destruct (Nat.ltb_spec (length df) 2); [destruct Hi | lia]. }
    destruct (latest_two df Hge) as (latest & prev & rest & Hrev).
    rewrite (analyze_revenue_trends_shape thresholds df latest prev rest
               Hge Hrev) in Hi.
    destruct Hi as [<-|Hi];
      [split; [reflexivity | apply classify_growth_total]|].
    unfold margin_insights in Hi.
    destruct (Rltb _ _); [destruct Hi as [<-|[]]; cbn; tauto|].
    destruct (Rgtb _ _); [destruct Hi as [<-|[]]; cbn; tauto|destruct Hi]. }
  split; [|split].
  - apply severity_partition. eapply List.Forall_impl; [|exact Hall].
    now intros i [_ H].
  - unfold Analyzers.get_insights_by_category.
    induction Hall as [|i l [Hc _] _ IH]; [reflexivity|].
    cbn [List.filter]. rewrite Hc, String.eqb_refl. now rewrite IH.
  - intros c Hc. unfold Analyzers.get_insights_by_category.
    induction Hall as [|i l [Hi _] _ IH]; [reflexivity|].
    cbn [List.filter]. rewrite Hi.
    destruct (String.eqb_spec "finance" c); [congruence | exact IH].
Qed.

End FilterFacts.

(** ** The sales analyzer *)

Section SalesFacts.

Import Analyzers.
Local Open Scope R_scope.

Lemma max_date_spec {A} (key : A -> string) (first : A) (rest : list A) :
  In (max_date key first rest) (map key (first :: rest))
  /\ forall r, In r (first :: rest) ->
       String.ltb (max_date key first rest) (key r) = false.
Proof.
  unfold max_date.
  enough (H : forall (m : string) (seen : list A),
            In m (map key seen) ->
            (forall r, In r seen -> String.ltb m (key r) = false) ->
            let m' := fold_left
                        (fun m r => if String.ltb m (key r) then key r else m)
                        rest m in
            In m' (map key (seen ++ rest))
            /\ forall r, In r (seen ++ rest) ->
                 String.ltb m' (key r) = false).
  { apply (H (key first) [first]); [now left|].
    intros r [<-|[]]. apply ltb_irrefl. }
  induction rest as [|x rest IH]; intros m seen Hin Hmax; cbn [fold_left].
  - rewrite app_nil_r. now split.
  - replace (seen ++ x :: rest) with ((seen ++ [x]) ++ rest)
      by now rewrite <- app_assoc.
    apply IH.
    + rewrite map_app. apply in_or_app.
      destruct (String.ltb m (key x)); [right; now left | now left].
    + intros r Hr. apply in_app_or in Hr.
      destruct (String.ltb m (key x)) eqn:Hlt.
      * destruct Hr as [Hr|[<-|[]]]; [|apply ltb_irrefl].
        destruct (String.ltb (key x) (key r)) eqn:Hxr; [|reflexivity].
        pose proof (ltb_trans _ _ _ Hlt Hxr) as Hmr.
        rewrite (Hmax r Hr) in Hmr. discriminate.
      * destruct Hr as [Hr|[<-|[]]]; [now apply Hmax | exact Hlt].
Qed.

Lemma idxmax_spec {A} (val : A -> R) (l : list A) :
  l <> [] ->
  exists m, idxmax val l = Some m /\ In m l
            /\ forall r, In r l -> val r <= val m.
Proof.
  induction l as [|x l IH]; [easy|]. intros _. cbn [idxmax].
  destruct l as [|y l].
  - exists x. cbn. repeat split; [now left|]. intros r [<-|[]]. lra.
  - destruct (IH ltac:(discriminate)) as (m & -> & Hin & Hmax).
    destruct (Rltb (val x) (val m)) eqn:Hlt.
    + apply Rltb_true in Hlt. exists m.
      split; [reflexivity|]. split; [now right|].
      intros r [<-|Hr]; [lra | now apply Hmax].
    + apply Rltb_false in Hlt. exists x.
      split; [reflexivity|]. split; [now left|].
      intros r [<-|Hr]; [lra|]. specialize (Hmax r Hr). lra.
Qed.

Lemma idxmin_spec {A} (val : A -> R) (l : list A) :
  l <> [] ->
  exists m, idxmin val l = Some m /\ In m l
            /\ forall r, In r l -> val m <= val r.
Proof.
  induction l as [|x l IH]; [easy|]. intros _. cbn [idxmin].
  destruct l as [|y l].
  - exists x. cbn. repeat split; [now left|]. intros r [<-|[]]. lra.
  - destruct (IH ltac:(discriminate)) as (m & -> & Hin & Hmin).
    destruct (Rltb (val m) (val x)) eqn:Hlt.
    + apply Rltb_true in Hlt. exists m.
      split; [reflexivity|]. split; [now right|].
      intros r [<-|Hr]; [lra | now apply Hmin].
    + apply Rltb_false in Hlt. exists x.
      split; [reflexivity|]. split; [now left|].
      intros r [<-|Hr]; [lra|]. specialize (Hmin r Hr). lra.
Qed.

(** On a frame with a row or more the sales analyzer always reports a
    best region: a row of the latest date in the frame whose units are
    the most of that date.  It adds the warning exactly when the fewest
    units of that date are below 70% of the most. *)
Theorem analyze_sales_performance_best_worst (df : list SalesRow) :
  df <> [] ->
  exists latest_date best worst,
    (forall r, In r df -> String.ltb latest_date (s_date r) = false)
    /\ In best df /\ s_date best = latest_date
    /\ In worst df /\ s_date worst = latest_date
    /\ (forall r, In r df -> s_date r = latest_date ->
          total_units worst <= total_units r <= total_units best)
    /\ analyze_sales_performance df
       = {| date := latest_date; category := "sales";
            insight_text := BestRegion (region best) (total_units best);
            severity := "info";
            metric_value := Float.Fin (total_units best) |}
         :: (if Rltb (total_units worst) (total_units best * (7 / 10))
             then [{| date := latest_date; category := "sales";
                      insight_text :=
                        Underperforming (region worst) (total_units worst);
                      severity := "warning";
                      metric_value := Float.Fin (total_units worst) |}]
             else []).
Proof.
  destruct df as [|first rest]; [easy|]. intros _.
  set (df := first :: rest).
  destruct (max_date_spec s_date first rest) as [Hin Hmax].
  set (latest_date := max_date s_date first rest) in *.
  set (latest_data :=
         List.filter (fun r => String.eqb (s_date r) latest_date) df).
  assert (Hne : latest_data <> []).
  { apply in_map_iff in Hin. destruct Hin as (r & Hk & Hr).
    assert (Hl : In r latest_data).
    { apply filter_In. split; [exact Hr|]. now apply String.eqb_eq. }
    intros E. now rewrite E in Hl. }
  destruct (idxmax_spec total_units latest_data Hne)
    as (best & Hbest & Hbin & Hbmax).
  destruct (idxmin_spec total_units latest_data Hne)
    as (worst & Hworst & Hwin & Hwmin).
  apply filter_In in Hbin, Hwin.
  destruct Hbin as [Hbin Hbd], Hwin as [Hwin Hwd].
  apply String.eqb_eq in Hbd, Hwd.
  exists latest_date, best, worst.
  split; [exact Hmax|].
  split; [exact Hbin|]. split; [exact Hbd|].
  split; [exact Hwin|]. split; [exact Hwd|].
  split.
  - intros r Hr Hd.
    assert (Hl : In r latest_data).
    { apply filter_In. split; [exact Hr|]. now apply String.eqb_eq. }
    split; [now apply Hwmin | now apply Hbmax].
  - unfold analyze_sales_performance. subst df. cbv beta iota zeta.
    fold latest_date. fold latest_data. now rewrite Hbest, Hworst.
Qed.

End SalesFacts.

Section SalesWitness.

Import Analyzers.
Local Open Scope R_scope.

Lemma analyze_sales_performance_best_worst_witness :
  let df := [ {| s_date := "2024-02-29"; region := "North";
                 total_units := 120; avg_conversion := 3 |};
              {| s_date := "2024-02-29"; region := "South";
                 total_units := 60; avg_conversion := 2 |} ] in
  exists latest_date best worst,
    (forall r, In r df -> String.ltb latest_date (s_date r) = false)
    /\ In best df /\ s_date best = latest_date
    /\ In worst df /\ s_date worst = latest_date
    /\ (forall r, In r df -> s_date r = latest_date ->
          total_units worst <= total_units r <= total_units best)
    /\ analyze_sales_performance df
       = {| date := latest_date; category := "sales";
            insight_text := BestRegion (region best) (total_units best);
            severity := "info";
            metric_value := Float.Fin (total_units best) |}
         :: (if Rltb (total_units worst) (total_units best * (7 / 10))
             then [{| date := latest_date; category := "sales";
                      insight_text :=
                        Underperforming (region worst) (total_units worst);
                      severity := "warning";
                      metric_value := Float.Fin (total_units worst) |}]
             else []).
Proof.
  intros df. apply (analyze_sales_performance_best_worst df). discriminate.
Defined.

End SalesWitness.

(** ** The operations analyzer *)

Section OperationsFacts.

Import Analyzers.
Local Open Scope R_scope.

Lemma sort_by_length {A} (key : A -> string) (df : list A) :
  length (sort_by key df) = length df.
Proof.
  symmetry. apply Permutation_length, sort_by_spec.
Qed.

(** When the two windows are the same rows the improvement is 0, or a
    NaN, and not above 10. *)
Lemma improvement_of_three (df : list OperationsRow) :
  length df = 3%nat ->
  Float.gtb (improvement_of df) (Float.Fin 10) = false.
Proof.
  intros Hlen. unfold improvement_of, tail_rows. rewrite Hlen.
  change (3 - 3)%nat with 0%nat. rewrite drop_0.
  rewrite firstn_all2 by lia.
  set (m := mean (map avg_processing_time_hours df)).
  cbn [Float.div]. destruct (Reqb m 0) eqn:Hm.
  - rewrite (proj2 (Reqb_true (m - m) 0)) by lra. reflexivity.
  - cbn [Float.mul]. unfold Float.gtb, Float.ltb.
    apply Reqb_false in Hm. apply Rltb_false.
    replace ((m - m) / m * 100) with 0 by (field; exact Hm). lra.
Qed.

(** The processing-time windows are the last three and the first three
    rows: on a frame of three rows or fewer they are the same rows, or
    the comparison is skipped, and no improvement is ever reported; it
    takes four rows to report one. *)
Theorem no_processing_trend_up_to_three_rows
    (thresholds : Config.KpiThresholds) (df : list OperationsRow) :
  (length df <= 3)%nat ->
  analyze_operations_efficiency thresholds df
  = match rev (sort_by o_date df) with
    | [] => []
    | latest :: _ => ontime_findings thresholds latest
    end
  /\ forall f, In f (analyze_operations_efficiency thresholds df) ->
       forall improvement, insight_text f <> ProcessingImproved improvement.
Proof.
  intros Hlen.
  assert (Heq : analyze_operations_efficiency thresholds df
                = match rev (sort_by o_date df) with
                  | [] => []
                  | latest :: _ => ontime_findings thresholds latest
                  end).
  { unfold analyze_operations_efficiency.
    destruct (rev (sort_by o_date df)) as [|latest rest]; [reflexivity|].
    cbv zeta. unfold trend_findings. rewrite sort_by_length.
    destruct (Nat.leb_spec 3 (length df)) as [Hge|Hlt];
      [|apply app_nil_r].
    rewrite improvement_of_three by (rewrite sort_by_length; lia).
    apply app_nil_r. }
  split; [exact Heq|].
  intros f Hf improvement. rewrite Heq in Hf.
  destruct (rev (sort_by o_date df)) as [|latest rest]; [destruct Hf|].
  unfold ontime_findings in Hf.
  destruct (Rltb _ _); [destruct Hf as [<-|[]]; discriminate|].
  destruct (Rgtb _ _); [destruct Hf as [<-|[]]; discriminate|destruct Hf].
Qed.

Lemma no_processing_trend_up_to_three_rows_witness :
  let df := [ {| o_date := "2024-01-31"; ontime_delivery_pct := 97;
                 avg_processing_time_hours := 30; defect_rate_pct := 1 |};
              {| o_date := "2024-02-29"; ontime_delivery_pct := 97;
                 avg_processing_time_hours := 20; defect_rate_pct := 1 |};
              {| o_date := "2024-03-31"; ontime_delivery_pct := 97;
                 avg_processing_time_hours := 10; defect_rate_pct := 1 |} ] in
  analyze_operations_efficiency Config.KPI_THRESHOLDS df
  = match rev (sort_by o_date df) with
    | [] => []
    | latest :: _ => ontime_findings Config.KPI_THRESHOLDS latest
    end.
Proof.
  intros df.
  apply (no_processing_trend_up_to_three_rows Config.KPI_THRESHOLDS df).
  cbn. lia.
Defined.

End OperationsFacts.

(** ** The IT analyzer: the backlog *)

Section BacklogFacts.

Import Analyzers.
Local Open Scope R_scope.

(** The backlog warning is raised exactly when the tickets closed are
    below 90% of the tickets opened.  With tickets opened, the rate it
    reports is (opened - closed) / opened * 100, which is then above 10,
    and at most 100 when the tickets closed are not negative. *)
Theorem backlog_findings_rule
    (latest_date : string) (total_opened total_closed : R) :
  (total_opened * (9 / 10) <= total_closed ->
     backlog_findings latest_date total_opened total_closed = [])
  /\ (total_closed < total_opened * (9 / 10) ->
      backlog_findings latest_date total_opened total_closed
      = [{| date := latest_date; category := "it";
            insight_text :=
              BacklogGrowing (backlog_rate_of total_opened total_closed);
            severity := "warning";
            metric_value := backlog_rate_of total_opened total_closed |}]
      /\ (0 < total_opened ->
          exists rate,
            backlog_rate_of total_opened total_closed = Float.Fin rate
            /\ rate = (total_opened - total_closed) / total_opened * 100
            /\ 10 < rate
            /\ (0 <= total_closed -> rate <= 100))).
Proof.
  unfold backlog_findings. split; intros H.
  - now rewrite (proj2 (Rltb_false _ _)) by lra.
  - rewrite (proj2 (Rltb_true _ _)) by lra. split; [reflexivity|].
    intros Hpos. eexists. split.
    + unfold backlog_rate_of. cbn [Float.div].
      rewrite (proj2 (Reqb_false total_opened 0)) by lra. reflexivity.
    + split; [reflexivity|].
      assert (Hinv : 0 < / total_opened) by now apply Rinv_0_lt_compat.
      assert (Hone : total_opened * / total_opened = 1)
        by (apply Rinv_r; lra).
      unfold Rdiv. split; [|intros Hc]; nra.
Qed.

Lemma backlog_findings_rule_witness :
  exists rate,
    backlog_rate_of 100 85 = Float.Fin rate
    /\ rate = (100 - 85) / 100 * 100
    /\ 10 < rate
    /\ (0 <= 85 -> rate <= 100).
Proof.
  apply (proj2 (proj2 (backlog_findings_rule "2024-02-29" 100 85)
                  ltac:(lra))).
  lra.
Defined.

(** The analyzer applies the rule to the tickets of the latest date of
    the frame, summed over the priorities. *)
Lemma analyze_it_performance_backlog
    (thresholds : Config.KpiThresholds) (first : TicketsRow)
    (rest : list TicketsRow) :
  let df := first :: rest in
  let latest_date := max_date t_date first rest in
  let latest_all :=
    List.filter (fun r => String.eqb (t_date r) latest_date) df in
  analyze_it_performance thresholds df
  = resolution_findings thresholds df
    ++ backlog_findings latest_date
         (fold_right Rplus 0 (map total_opened latest_all))
         (fold_right Rplus 0 (map total_closed latest_all)).
Proof. reflexivity. Qed.

End BacklogFacts.

(** ** Categories and severities *)

Section FindingFacts.

Import Analyzers.

Ltac finding_cases H :=
  repeat match type of H with
  | In _ (_ ++ _) => apply in_app_or in H; destruct H as [H|H]
  | In _ (if ?c then _ else _) => destruct c
  | In _ (_ :: _) => destruct H as [<-|H]
  | In _ [] => destruct H
  | In _ (match ?l with [] => _ | _ :: _ => _ end) => destruct l
  end.

Lemma sales_fields df f :
  In f (analyze_sales_performance df) ->
  category f = "sales" /\ In (severity f) ["info"; "warning"; "critical"].
Proof.
  intros Hf. unfold analyze_sales_performance in Hf.
  destruct df; [destruct Hf|].
  destruct (idxmax _ _); [|destruct Hf].
  destruct (idxmin _ _); [|destruct Hf].
  finding_cases Hf; cbn; tauto.
Qed.

Lemma operations_fields thresholds df f :
  In f (analyze_operations_efficiency thresholds df) ->
  category f = "operations"
  /\ In (severity f) ["info"; "warning"; "critical"].
Proof.
  intros Hf.
  unfold analyze_operations_efficiency, ontime_findings, trend_findings
    in Hf.
  destruct (rev _); [destruct Hf|]. finding_cases Hf; cbn; tauto.
Qed.

Lemma hr_fields thresholds df f :
  In f (analyze_hr_metrics thresholds df) ->
  category f = "hr" /\ In (severity f) ["info"; "warning"; "critical"].
Proof.
  intros Hf.
  unfold analyze_hr_metrics, turnover_findings, growth_findings in Hf.
  destruct (rev _); [destruct Hf|].
  destruct (sort_by h_date df); finding_cases Hf; cbn; tauto.
Qed.

Lemma it_fields thresholds df f :
  In f (analyze_it_performance thresholds df) ->
  category f = "it" /\ In (severity f) ["info"; "warning"; "critical"].
Proof.
  intros Hf.
  unfold analyze_it_performance, resolution_findings, backlog_findings
    in Hf.
  destruct df; [destruct Hf|]. cbv zeta in Hf.
  destruct (List.filter (fun r => String.eqb (priority r) "Critical") _);
    finding_cases Hf; cbn; tauto.
Qed.

Lemma sales_length df : length (analyze_sales_performance df) <= 2.
Proof.
  unfold analyze_sales_performance. destruct df; [cbn; lia|].
  destruct (idxmax _ _); [|cbn; lia].
  destruct (idxmin _ _); [|cbn; lia].
  cbv zeta. destruct (Rltb _ _); cbn; lia.
Qed.

Lemma operations_length thresholds df :
  length (analyze_operations_efficiency thresholds df) <= 2.
Proof.
  unfold analyze_operations_efficiency, ontime_findings, trend_findings.
  destruct (rev _); [cbn; lia|]. cbv zeta.
  destruct (Rltb _ _); [|destruct (Rgtb _ _)];
    (destruct (3 <=? _)%nat; [destruct (Float.gtb _ _)|]); cbn; lia.
Qed.

Lemma hr_length thresholds df :
  length (analyze_hr_metrics thresholds df) <= 2.
Proof.
  unfold analyze_hr_metrics, turnover_findings, growth_findings.
  destruct (rev _); [cbn; lia|]. cbv zeta.
  destruct (sort_by h_date df) as [|earliest sorted].
  - destruct (Rgtb _ _); [|destruct (Rltb _ _)]; cbn; lia.
  - destruct (Rgtb (turnover_rate_pct _) _); [|destruct (Rltb _ _)];
      (destruct (2 <=? _)%nat; [destruct (Number.gtb_int _ _)|]); cbn; lia.
Qed.

Lemma it_length thresholds df :
  length (analyze_it_performance thresholds df) <= 2.
Proof.
  unfold analyze_it_performance, resolution_findings, backlog_findings.
  destruct df; [cbn; lia|]. cbv zeta.
  destruct (List.filter (fun r => String.eqb (priority r) "Critical") _);
    [|destruct (Rgtb _ _); [|destruct (Rltb _ _)]];
    destruct (Rltb _ (_ * _)); cbn; lia.
Qed.

(** Every finding of the sales, operations, HR and IT analyzers has the
    category of its analyzer and one of the severities info, warning
    and critical; and each analyzer returns two findings at most. *)
Theorem findings_categories_and_severities
    (thresholds : Config.KpiThresholds) :
  (forall df f, In f (analyze_sales_performance df) ->
     category f = "sales" /\ In (severity f) ["info"; "warning"; "critical"])
  /\ (forall df f, In f (analyze_operations_efficiency thresholds df) ->
     category f = "operations"
     /\ In (severity f) ["info"; "warning"; "critical"])
  /\ (forall df f, In f (analyze_hr_metrics thresholds df) ->
     category f = "hr" /\ In (severity f) ["info"; "warning"; "critical"])
  /\ (forall df f, In f (analyze_it_performance thresholds df) ->
     category f = "it" /\ In (severity f) ["info"; "warning"; "critical"])
  /\ (forall df, length (analyze_sales_performance df) <= 2)
  /\ (forall df,
        length (analyze_operations_efficiency thresholds df) <= 2)
  /\ (forall df, length (analyze_hr_metrics thresholds df) <= 2)
  /\ (forall df, length (analyze_it_performance thresholds df) <= 2).
Proof.
  split; [exact sales_fields|].
  split; [exact (operations_fields thresholds)|].
  split; [exact (hr_fields thresholds)|].
  split; [exact (it_fields thresholds)|].
  split; [exact sales_length|].
  split; [exact (operations_length thresholds)|].
  split; [exact (hr_length thresholds) | exact (it_length thresholds)].
Qed.

End FindingFacts.

Section FindingWitness.

Import Analyzers.

Lemma findings_categories_and_severities_witness :
  let df := [ {| h_date := "2024-01-31";
                 employee_count := Number.Int64 100;
                 turnover_rate_pct := 12; satisfaction_score := 4;
                 absenteeism_rate_pct := 3 |};
              {| h_date := "2024-02-29";
                 employee_count := Number.Int64 115;
                 turnover_rate_pct := 25; satisfaction_score := 4;
                 absenteeism_rate_pct := 3 |} ] in
  let findings := analyze_hr_metrics Config.KPI_THRESHOLDS df in
  findings
  = [ {| date := "2024-02-29"; category := "hr";
         insight_text := TurnoverCritical 25; severity := "critical";
         metric_value := Float.Fin 25 |};
      {| date := "2024-02-29"; category := "hr";
         insight_text := TeamGrew (Number.Int64 15); severity := "info";
         metric_value := Number.Int64 15 |} ]
  /\ Forall (fun f => category f = "hr"
                      /\ In (severity f) ["info"; "warning"; "critical"])
            findings.
Proof.
  intros df findings. split.
  - subst findings. unfold analyze_hr_metrics.
    change (sort_by h_date df) with df.
    cbn [rev app df]. unfold turnover_findings, growth_findings.
    cbn [turnover_rate_pct employee_count h_date length Nat.leb
         Config.KPI_THRESHOLDS Config.employee_turnover Config.critical
         Config.good Number.sub Number.gtb_int].
    rewrite (proj2 (Rgtb_true 25 20)) by lra.
    reflexivity.
  - apply List.Forall_forall. intros f Hf.
    exact (proj1 (proj2 (proj2 (findings_categories_and_severities
                                  Config.KPI_THRESHOLDS))) df f Hf).
Defined.

End FindingWitness.

(** ** The rows of [detect_zscore_anomalies] *)

Section ScoreRows.

Import Anomalies.
Local Open Scope R_scope.

(** The score and the flag of the row of an observation. *)
Lemma zscore_row cfg df t r :
  In r (detect_zscore_anomalies cfg df t) ->
  exists o, In o df /\ z_value r = o_value o /\ z_date r = o_date o
    /\ ((std (map o_value df) = Float.NaN
         /\ z_score r = Float.NaN /\ is_anomaly r = false)
        \/ (std (map o_value df) = Float.Fin 0
            /\ z_score r = Float.Fin 0 /\ is_anomaly r = false)
        \/ (exists sigma,
              std (map o_value df) = Float.Fin sigma /\ 0 < sigma
              /\ z_score r
                 = Float.Fin (Rabs (o_value o - mean (map o_value df))
                              / sigma)
              /\ is_anomaly r
                 = Rltb (match t with
                         | Some t => t
                         | None => Config.z_score_threshold cfg
                         end)
                        (Rabs (o_value o - mean (map o_value df))
                         / sigma))).
Proof.
  unfold detect_zscore_anomalies. intros Hr.
  destruct (std_cases (map o_value df))
    as [[_ Hnan]|[_ (sigma & Hs & Hpos & _)]].
  - rewrite Hnan in Hr |- *. cbn [Float.eqb] in Hr.
    apply in_map_iff in Hr. destruct Hr as (o & <- & Ho).
    exists o. cbn. repeat split; try assumption. left. repeat split.
  - rewrite Hs in Hr |- *. cbn [Float.eqb] in Hr.
    destruct (Reqb sigma 0) eqn:Hz.
    + apply Reqb_true in Hz. subst sigma.
      apply in_map_iff in Hr. destruct Hr as (o & <- & Ho).
      exists o. cbn. repeat split; try assumption.
      right. left. repeat split.
    + apply Reqb_false in Hz.
      apply in_map_iff in Hr. destruct Hr as (o & <- & Ho).
      exists o. cbn [z_value z_date z_score is_anomaly].
      repeat split; try assumption.
      right. right. exists sigma. split; [reflexivity|].
      split; [lra|].
      cbn [Float.div]. rewrite (proj2 (Reqb_false sigma 0) Hz).
      cbn [Float.abs]. rewrite Rabs_div_pos by lra.
      split; reflexivity.
Qed.

End ScoreRows.

(** ** A series with an anomaly *)

Section SpikeFacts.

Import Anomalies.
Local Open Scope R_scope.

Lemma spike_series_mean : mean (map o_value spike_series) = 1.
Proof. unfold mean, sum. cbn. field. Qed.

Lemma spike_series_std :
  std (map o_value spike_series) = Float.Fin (sqrt 11).
Proof.
  unfold std. rewrite spike_series_mean.
  change (length (map o_value spike_series) <? 2)%nat with false.
  cbv iota zeta. do 2 f_equal. unfold sum. cbn. field.
Qed.

Lemma sqrt_11_bounds : 3 < sqrt 11 < 10 / 3.
Proof. apply sqrt_between; lra. Qed.

(** The ten points at 0 are under a third of a deviation from the
    mean, the point at 11 over three deviations. *)
Lemma spike_series_scores :
  Rltb 3 (Rabs ((0 - 1) / sqrt 11)) = false
  /\ Rltb 3 (Rabs ((11 - 1) / sqrt 11)) = true.
Proof.
  pose proof sqrt_11_bounds as [Hlo Hhi].
  set (s := sqrt 11) in *.
  assert (Hi : 0 < / s) by (apply Rinv_0_lt_compat; lra).
  assert (Hsi : s * / s = 1) by (field; lra).
  split.
  - apply Rltb_false.
    replace ((0 - 1) / s) with (- (/ s)) by (field; lra).
    rewrite Rabs_Ropp, Rabs_pos_eq by lra. nra.
  - apply Rltb_true.
    replace ((11 - 1) / s) with (10 * / s) by (field; lra).
    rewrite Rabs_pos_eq by nra. nra.
Qed.

(** The frame of the anomalies of [spike_series]: its last point. *)
Lemma spike_series_frame (forest : R -> list R -> list (bool * R)) :
  detect_metric_anomalies Config.ANOMALY_CONFIG forest "finance" "revenue"
    spike_series "z-score"
  = Ok [ {| date := Some "2024-11-30"; value := 11;
            expected_value := Some 1;
            anomaly_score := Float.Fin (Rabs ((11 - 1) / sqrt 11));
            detection_method := "z-score"; metric_name := "revenue";
            table_name := "finance" |} ].
Proof.
  pose proof sqrt_11_bounds as [Hlo Hhi].
  destruct spike_series_scores as [Hlow Hhigh].
  assert (Hnz : Reqb (sqrt 11) 0 = false) by (apply Reqb_false; lra).
  unfold detect_metric_anomalies.
  change (String.eqb "z-score" "z-score") with true. cbv iota.
  unfold detect_zscore_anomalies.
  rewrite spike_series_mean, spike_series_std.
  cbn [Float.eqb Config.z_score_threshold Config.ANOMALY_CONFIG].
  rewrite Hnz. unfold spike_series.
  cbn [map o_value o_date Float.div Float.abs Float.gtb Float.ltb].
  rewrite Hnz. cbn [Float.abs Float.ltb].
  cbn [List.filter is_anomaly]. rewrite Hlow, Hhigh.
  reflexivity.
Qed.

(** The records [spike_query] leads to: one, of the revenue. *)
Lemma spike_query_records (forest : R -> list R -> list (bool * R)) :
  records_found Config.ANOMALY_CONFIG forest spike_query metrics_config
  = [ {| r_date := "2024-11-30"; r_metric_name := "Revenue";
         r_metric_value := 11; r_expected_value := 1;
         r_anomaly_score := Float.Fin (Rabs ((11 - 1) / sqrt 11));
         r_detection_method := "z-score" |} ].
Proof.
  unfold records_found, metrics_config. cbn [map concat snd].
  assert (Hrev : found Config.ANOMALY_CONFIG forest spike_query
                   ("finance", "revenue", "Revenue")
                 = [ {| date := Some "2024-11-30"; value := 11;
                        expected_value := Some 1;
                        anomaly_score :=
                          Float.Fin (Rabs ((11 - 1) / sqrt 11));
                        detection_method := "z-score";
                        metric_name := "revenue";
                        table_name := "finance" |} ]).
  { unfold found, detect_metric_anomalies_query.
    change (spike_query "finance" "revenue") with (Ok spike_series).
    cbv beta iota. now rewrite spike_series_frame. }
  rewrite Hrev.
  repeat match goal with
  | |- context [found ?c ?f spike_query ?m] =>
      change (found c f spike_query m) with (@nil AnomalyRow)
  end.
  reflexivity.
Qed.

End SpikeFacts.

(** ** The frames of [detect_metric_anomalies] *)

Section MetricFrames.

Import Anomalies.
Local Open Scope R_scope.

(** The query result is tested for emptiness before the method is
    looked at: an empty frame gives an empty frame under any method
    name, and a method other than the two known raises on a frame with
    rows. *)
Theorem detect_metric_anomalies_method
    (cfg : Config.AnomalyConfig) (forest : R -> list R -> list (bool * R))
    (table_name metric_column method : string) (df : list Obs) :
  (df = [] ->
     detect_metric_anomalies cfg forest table_name metric_column df method
     = Ok [])
  /\ (df <> [] -> method <> "z-score" -> method <> "isolation_forest" ->
      detect_metric_anomalies cfg forest table_name metric_column df method
      = Raise ("Unknown method: " ++ method)%string).
Proof.
  split.
  - now intros ->.
  - intros Hne Hz Hf. unfold detect_metric_anomalies.
    destruct df; [contradiction|].
    destruct (String.eqb_spec method "z-score"); [contradiction|].
    destruct (String.eqb_spec method "isolation_forest");
      [contradiction | reflexivity].
Qed.

Lemma detect_metric_anomalies_method_witness :
  detect_metric_anomalies Config.ANOMALY_CONFIG (fun _ _ => [])
    "finance" "revenue" constant_series "iqr"
  = Raise "Unknown method: iqr".
Proof.
  apply (proj2 (detect_metric_anomalies_method Config.ANOMALY_CONFIG
                  (fun _ _ => []) "finance" "revenue" "iqr"
                  constant_series));
    discriminate.
Defined.

Lemma zscore_frame_rows
    (cfg : Config.AnomalyConfig) (forest : R -> list R -> list (bool * R))
    (table_name metric_column : string) (df : list Obs)
    (rows : list AnomalyRow) :
  detect_metric_anomalies cfg forest table_name metric_column df "z-score"
  = Ok rows ->
  (length rows <= length df)%nat
  /\ forall a, In a rows ->
       metric_name a = metric_column /\ Anomalies.table_name a = table_name
       /\ detection_method a = "z-score"
       /\ expected_value a = Some (mean (map o_value df))
       /\ (exists o, In o df /\ date a = o_date o /\ value a = o_value o)
       /\ exists z, anomaly_score a = Float.Fin z
                    /\ Config.z_score_threshold cfg < z.
Proof.
  unfold detect_metric_anomalies. destruct df as [|o0 df'].
  { intros [= <-]. split; [cbn; lia | intros a []]. }
  rewrite String.eqb_refl. intros [= <-].
  set (df := o0 :: df'). split.
  - rewrite length_map.
    etransitivity; [apply filter_length_le|].
    unfold detect_zscore_anomalies.
    destruct (Float.eqb _ _); now rewrite length_map.
  - intros a Ha. apply in_map_iff in Ha. destruct Ha as (r & <- & Hr).
    apply filter_In in Hr. destruct Hr as [Hr Hflag].
    cbn [metric_name Anomalies.table_name detection_method expected_value
         date value anomaly_score].
    assert (Hfields : z_detection_method r = "z-score"
                      /\ z_expected_value r = mean (map o_value df)).
    { unfold detect_zscore_anomalies in Hr.
      destruct (Float.eqb _ _); apply in_map_iff in Hr;
        destruct Hr as (o & <- & _); now split. }
    destruct Hfields as [-> ->].
    destruct (zscore_row cfg df None r Hr) as (o & Ho & Hv & Hd & Hcase).
    repeat split.
    + exists o. now rewrite Hv, Hd.
    + destruct Hcase
        as [(_ & _ & Hf)|[(_ & _ & Hf)|(sigma & _ & _ & Hs & Hf)]];
        rewrite Hf in Hflag; try discriminate.
      eexists. split; [exact Hs|]. now apply Rltb_true in Hflag.
Qed.

(** Every row of a z-score frame is a flagged observation of the frame
    fetched: it carries the table and column names, the mean of the
    whole series as expected value, and a score above the configured
    threshold; and there are no more rows than observations. *)
Theorem detect_metric_anomalies_rows
    (cfg : Config.AnomalyConfig) (forest : R -> list R -> list (bool * R))
    (table_name metric_column : string) (df : list Obs)
    (rows : list AnomalyRow) :
  detect_metric_anomalies cfg forest table_name metric_column df "z-score"
  = Ok rows ->
  (length rows <= length df)%nat
  /\ forall a, In a rows ->
       metric_name a = metric_column /\ Anomalies.table_name a = table_name
       /\ detection_method a = "z-score"
       /\ expected_value a = Some (mean (map o_value df))
       /\ (exists o, In o df /\ date a = o_date o /\ value a = o_value o)
       /\ exists z, anomaly_score a = Float.Fin z
                    /\ Config.z_score_threshold cfg < z.
Proof.
  exact (zscore_frame_rows cfg forest table_name metric_column df rows).
Qed.

Lemma detect_metric_anomalies_rows_witness :
  exists a z,
    detect_metric_anomalies Config.ANOMALY_CONFIG (fun _ _ => [])
      "finance" "revenue" spike_series "z-score" = Ok [a]
    /\ date a = Some "2024-11-30" /\ value a = 11
    /\ metric_name a = "revenue" /\ Anomalies.table_name a = "finance"
    /\ detection_method a = "z-score"
    /\ expected_value a = Some (mean (map o_value spike_series))
    /\ anomaly_score a = Float.Fin z /\ 3 < z.
Proof.
  pose proof (spike_series_frame (fun _ _ => [])) as Hframe.
  destruct (detect_metric_anomalies_rows Config.ANOMALY_CONFIG
              (fun _ _ => []) "finance" "revenue" spike_series _ Hframe)
    as [_ Hrows].
  destruct (Hrows _ (or_introl eq_refl))
    as (Hm & Ht & Hd & He & _ & z & Hz & Hgt).
  eexists _, z. split; [exact Hframe|].
  split; [reflexivity|]. split; [reflexivity|].
  split; [exact Hm|]. split; [exact Ht|]. split; [exact Hd|].
  split; [exact He|]. split; [exact Hz | exact Hgt].
Defined.

(** The narratives of a z-score frame all compare the value with the
    mean of the series; the narratives of an isolation-forest frame are
    all the "unusual value" text. *)
Theorem narratives_by_method
    (cfg : Config.AnomalyConfig) (forest : R -> list R -> list (bool * R))
    (to_datetime_strftime : string -> result string)
    (null_date_error : string)
    (table_name metric_column display_name : string) (df : list Obs) :
  let generate :=
    generate_anomaly_insights to_datetime_strftime null_date_error in
  (forall rows insights n,
     detect_metric_anomalies cfg forest table_name metric_column df
       "z-score" = Ok rows ->
     generate rows display_name = Ok insights ->
     In n insights ->
     exists date pct direction value,
       n = Deviation display_name date pct direction value
             (mean (map o_value df)))
  /\ (forall rows insights n,
     detect_metric_anomalies cfg forest table_name metric_column df
       "isolation_forest" = Ok rows ->
     generate rows display_name = Ok insights ->
     In n insights ->
     exists date value, n = Unusual display_name date value).
Proof.
  intros generate. subst generate.
  split; intros rows insights n Hrows Hgen Hn;
    rewrite generate_anomaly_insights_head in Hgen;
    destruct (append_insights_elements _ _ _ _ _ _ _ Hgen Hn)
      as [[]|(a & d & Ha & _ & ->)].
  - assert (Ha' : In a rows).
    { rewrite <- (firstn_skipn 3 rows). apply in_or_app. now left. }
    destruct (zscore_frame_rows _ _ _ _ _ _ Hrows) as [_ Hall].
    destruct (Hall a Ha') as (_ & _ & _ & He & _).
    unfold narrative_of. rewrite He. now eexists _, _, _, _.
  - assert (Ha' : In a rows).
    { rewrite <- (firstn_skipn 3 rows). apply in_or_app. now left. }
    unfold detect_metric_anomalies in Hrows. destruct df as [|o0 df'].
    { injection Hrows as <-. destruct Ha'. }
    change (String.eqb "isolation_forest" "z-score") with false in Hrows.
    rewrite String.eqb_refl in Hrows. injection Hrows as <-.
    apply in_map_iff in Ha'. destruct Ha' as ([o [flag score]] & <- & _).
    unfold narrative_of. cbn [expected_value]. now eexists _, _.
Qed.

Lemma narratives_by_method_witness :
  exists rows insights date pct direction value,
    detect_metric_anomalies Config.ANOMALY_CONFIG (fun _ _ => [])
      "finance" "revenue" spike_series "z-score" = Ok rows
    /\ generate_anomaly_insights example_strftime "no timestamp to format"
         rows "Revenue" = Ok insights
    /\ insights
       = [Deviation "Revenue" date pct direction value
            (mean (map o_value spike_series))].
Proof.
  pose proof (spike_series_frame (fun _ _ => [])) as Hframe.
  destruct (proj1 (narratives_by_method Config.ANOMALY_CONFIG
                     (fun _ _ => []) example_strftime
                     "no timestamp to format" "finance" "revenue"
                     "Revenue" spike_series)
                  _ _ _ Hframe eq_refl (or_introl eq_refl))
    as (date & pct & direction & value & Hn).
  eexists _, _, date, pct, direction, value.
  split; [exact Hframe|]. split; [reflexivity|].
  now rewrite <- Hn.
Defined.

End MetricFrames.

(** ** Detecting over all metrics *)

Section DetectAllFacts.

Import Anomalies.

Variable cfg : Config.AnomalyConfig.
Variable forest : R -> list R -> list (bool * R).
Variable execute_query : string -> string -> result (list Obs).
Variable insert_error :
  list AnomalyRecord -> AnomalyRecord -> option string.

Local Abbreviation found_of := (found cfg forest execute_query).
Local Abbreviation step :=
  (detect_one cfg forest execute_query insert_error).
Local Abbreviation save :=
  (_save_anomalies_to_db insert_error).

Lemma detect_one_eq (metric : string * string * string)
    (results : gmap string (list AnomalyRow)) (table : list AnomalyRecord) :
  step metric (results, table)
  = (match found_of metric with
     | [] => results
     | _ :: _ => <[snd metric := found_of metric]> results
     end,
     save (found_of metric) (snd metric) table).
Proof.
  destruct metric as [[table_name metric_col] metric_name].
  unfold detect_one, found. cbn [snd].
  destruct (detect_metric_anomalies_query _ _ _ _ _ _) as [[|a l]|e];
    reflexivity.
Qed.

Lemma detect_fold (metrics : list (string * string * string))
    (results : gmap string (list AnomalyRow)) (table : list AnomalyRecord) :
  fold_left (fun st metric => step metric st) metrics (results, table)
  = (fold_left
       (fun results metric =>
          match found_of metric with
          | [] => results
          | _ :: _ => <[snd metric := found_of metric]> results
          end) metrics results,
     fold_left (fun table metric => save (found_of metric) (snd metric) table)
               metrics table).
Proof.
  revert results table.
  induction metrics as [|m ms IH]; intros results table; [reflexivity|].
  cbn [fold_left]. rewrite detect_one_eq. apply IH.
Qed.

(** The table only grows, and by the records found when no insert
    raises. *)
Lemma save_appends (anomalies : list AnomalyRow) (metric_name : string)
    (table : list AnomalyRecord) :
  (exists added, save anomalies metric_name table = table ++ added)
  /\ ((forall t r, insert_error t r = None) ->
      save anomalies metric_name table
      = table ++ map (record_of metric_name) anomalies).
Proof.
  unfold _save_anomalies_to_db. revert table.
  induction anomalies as [|a l IH]; intros table; cbn [fold_left map].
  - split; [exists [] |intros _]; now rewrite app_nil_r.
  - destruct (IH (table ++ [record_of metric_name a])) as [[added Ha] Hok].
    destruct (IH table) as [[added' Ha'] _].
    split.
    + destruct (insert_error table (record_of metric_name a)).
      * now exists added'.
      * exists (record_of metric_name a :: added).
        now rewrite Ha, <- app_assoc.
    + intros Hnone. rewrite Hnone, (Hok Hnone). now rewrite <- app_assoc.
Qed.

Lemma results_lookup (metrics : list (string * string * string))
    (results : gmap string (list AnomalyRow)) (name : string) :
  (forall m, In m metrics -> snd m <> name) ->
  fold_left
    (fun results metric =>
       match found_of metric with
       | [] => results
       | _ :: _ => <[snd metric := found_of metric]> results
       end) metrics results !! name
  = results !! name.
Proof.
  revert results. induction metrics as [|m ms IH]; intros results Hne;
    [reflexivity|].
  cbn [fold_left]. rewrite IH by (intros m' Hm'; apply Hne; now right).
  destruct (found_of m); [reflexivity|].
  apply lookup_insert_ne. apply Hne. now left.
Qed.

End DetectAllFacts.

Section DetectAllTheorems.

Import Anomalies.

Lemma metrics_config_names : List.NoDup (map snd metrics_config).
Proof.
  unfold metrics_config. cbn [map snd].
  repeat (constructor; [cbn; intuition discriminate|]). constructor.
Qed.

Lemma results_of_metric cfg forest execute_query
    (metrics : list (string * string * string))
    (results : gmap string (list AnomalyRow))
    (metric : string * string * string) :
  List.NoDup (map snd metrics) -> In metric metrics ->
  fold_left
    (fun results m =>
       match found cfg forest execute_query m with
       | [] => results
       | _ :: _ => <[snd m := found cfg forest execute_query m]> results
       end) metrics results !! snd metric
  = match found cfg forest execute_query metric with
    | [] => results !! snd metric
    | _ :: _ => Some (found cfg forest execute_query metric)
    end.
Proof.
  revert results. induction metrics as [|m ms IH]; intros results Hnd Hin;
    [destruct Hin|].
  cbn [map] in Hnd. apply List.NoDup_cons_iff in Hnd.
  destruct Hnd as [Hfresh Hnd]. cbn [fold_left].
  destruct Hin as [->|Hin].
  - rewrite results_lookup.
    + destruct (found cfg forest execute_query metric); [reflexivity|].
      apply lookup_insert_eq.
    + intros m' Hm' Heq. apply Hfresh. rewrite <- Heq.
      now apply in_map.
  - rewrite (IH _ Hnd Hin).
    destruct (found cfg forest execute_query metric); [|reflexivity].
    destruct (found cfg forest execute_query m); [reflexivity|].
    apply lookup_insert_ne. intros Heq. apply Hfresh. rewrite Heq.
    now apply in_map.
Qed.

(** The dict [detect_all_anomalies] returns has, for each configured
    metric, the frame of its anomalies under its display name when the
    detection returned anomalies, and no entry when it returned none or
    raised; a metric that raises does not keep the others from being
    analysed.  It has no other entries. *)
Theorem detect_all_anomalies_results
    (cfg : Config.AnomalyConfig) (forest : R -> list R -> list (bool * R))
    (execute_query : string -> string -> result (list Obs))
    (insert_error : list AnomalyRecord -> AnomalyRecord -> option string)
    (table : list AnomalyRecord) :
  let results :=
    fst (detect_all_anomalies cfg forest execute_query insert_error table) in
  (forall metric, In metric metrics_config ->
     results !! snd metric
     = match found cfg forest execute_query metric with
       | [] => None
       | _ :: _ => Some (found cfg forest execute_query metric)
       end)
  /\ (forall name, ~ In name (map snd metrics_config) ->
      results !! name = None).
Proof.
  intros results. subst results. unfold detect_all_anomalies.
  rewrite detect_fold. cbn [fst]. split.
  - intros metric Hin.
    rewrite (results_of_metric cfg forest execute_query metrics_config ∅
               metric metrics_config_names Hin).
    destruct (found cfg forest execute_query metric); [|reflexivity].
    apply lookup_empty.
  - intros name Hname. rewrite results_lookup; [apply lookup_empty|].
    intros m Hm Heq. apply Hname. rewrite <- Heq. now apply in_map.
Qed.

Lemma detect_all_anomalies_results_witness :
  fst (detect_all_anomalies Config.ANOMALY_CONFIG (fun _ _ => [])
         (fun _ _ => Raise "no such table") (fun _ _ => None) [])
    !! "Revenue" = None.
Proof.
  apply (proj1 (detect_all_anomalies_results Config.ANOMALY_CONFIG
                  (fun _ _ => []) (fun _ _ => Raise "no such table")
                  (fun _ _ => None) [])
               ("finance", "revenue", "Revenue")).
  now left.
Defined.

Lemma table_of_metrics cfg forest execute_query insert_error
    (metrics : list (string * string * string))
    (table : list AnomalyRecord) :
  (forall t r, insert_error t r = None) ->
  fold_left
    (fun table metric =>
       _save_anomalies_to_db insert_error
         (found cfg forest execute_query metric) (snd metric) table)
    metrics table
  = table ++ records_found cfg forest execute_query metrics.
Proof.
  intros Hok. revert table. unfold records_found.
  induction metrics as [|m ms IH]; intros table; cbn [fold_left map concat].
  - now rewrite app_nil_r.
  - rewrite (proj2 (save_appends insert_error _ _ _) Hok), IH.
    now rewrite <- app_assoc.
Qed.

(** The table [anomalies] is appended to and never deduplicated: when
    no insert raises, a run adds the records of every anomaly found, in
    the order of the metrics, and a second run over the same fact
    tables adds the same records once more. *)
Theorem detect_all_anomalies_accumulates
    (cfg : Config.AnomalyConfig) (forest : R -> list R -> list (bool * R))
    (execute_query : string -> string -> result (list Obs))
    (insert_error : list AnomalyRecord -> AnomalyRecord -> option string)
    (table : list AnomalyRecord) :
  (forall t r, insert_error t r = None) ->
  let run := detect_all_anomalies cfg forest execute_query insert_error in
  let added := records_found cfg forest execute_query metrics_config in
  snd (run table) = table ++ added
  /\ snd (run (snd (run table))) = table ++ added ++ added
  /\ fst (run (snd (run table))) = fst (run table).
Proof.
  intros Hok run added. subst run. unfold detect_all_anomalies.
  rewrite !detect_fold. cbn [fst snd].
  rewrite !(table_of_metrics cfg forest execute_query insert_error _ _ Hok).
  fold added. split; [reflexivity|]. split; [|reflexivity].
  now rewrite <- app_assoc.
Qed.

Lemma detect_all_anomalies_accumulates_witness :
  let run := detect_all_anomalies Config.ANOMALY_CONFIG (fun _ _ => [])
               spike_query (fun _ _ => None) in
  exists record,
    r_date record = "2024-11-30" /\ r_metric_name record = "Revenue"
    /\ r_metric_value record = 11%R
    /\ snd (run []) = [record]
    /\ snd (run (snd (run []))) = [record; record]
    /\ fst (run (snd (run []))) = fst (run []).
Proof.
  intros run.
  destruct (detect_all_anomalies_accumulates Config.ANOMALY_CONFIG
              (fun _ _ => []) spike_query (fun _ _ => None) []
              (fun _ _ => eq_refl))
    as (Hone & Htwo & Hdict).
  rewrite spike_query_records in Hone, Htwo.
  eexists. split; [|split; [|split; [|split; [exact Hone|split;
    [exact Htwo | exact Hdict]]]]]; reflexivity.
Defined.

End DetectAllTheorems.

(** ** Rounding *)

Section RoundingFacts.

Import Forecasting.
Local Open Scope R_scope.

Lemma round2_zero : round2 0 = 0.
Proof.
  replace 0 with (IZR 0 / 100) at 1 by lra.
  rewrite round2_exact. lra.
Qed.

End RoundingFacts.

(** ** Properties of the accuracy metrics *)

Section AccuracyProperties.

Import Forecasting.
Local Open Scope R_scope.

(** The three metrics on a join with a row or more, over the errors. *)
Lemma accuracy_values actual_df forecast_df :
  merge actual_df forecast_df <> [] ->
  let merged := merge actual_df forecast_df in
  let errors := map (fun p => fst p - snd p) merged in
  _calculate_accuracy actual_df forecast_df
  = {| rmse := round2 (sqrt (np_mean (map (fun e => e ^ 2) errors)));
       mae := round2 (np_mean (map Rabs errors));
       mape := round2 (np_mean
                         (map (fun p => Rabs ((fst p - snd p)
                                              / guarded (fst p))) merged)
                       * 100) |}.
Proof.
  intros Hne merged errors. unfold _calculate_accuracy. fold merged.
  destruct merged as [|p l] eqn:Hm; [contradiction|].
  cbn [length Nat.eqb]. subst errors. rewrite !map_map.
  rewrite (map_ext (fun '(actual, predicted) => (actual - predicted) ^ 2)
                   (fun x => (fst x - snd x) ^ 2))
    by (intros []; reflexivity).
  rewrite (map_ext (fun '(actual, predicted) => Rabs (actual - predicted))
                   (fun x => Rabs (fst x - snd x)))
    by (intros []; reflexivity).
  rewrite (map_ext (fun '(actual, predicted) =>
                      Rabs ((actual - predicted) / guarded actual))
                   (fun p => Rabs ((fst p - snd p) / guarded (fst p))))
    by (intros []; reflexivity).
  reflexivity.
Qed.

Lemma np_mean_zeros (l : list R) :
  Forall (fun x => x = 0) l -> np_mean l = 0.
Proof.
  intros Hl. unfold np_mean.
  replace (fold_right Rplus 0 l) with 0; [unfold Rdiv; ring|].
  induction Hl as [|x l Hx _ IH]; cbn; [reflexivity|]. lra.
Qed.

(** A forecast that equals the actual value on every date they share
    has RMSE, MAE and MAPE 0. *)
Theorem accuracy_of_exact_forecast actual_df forecast_df :
  (forall a f, In a actual_df -> In f forecast_df ->
     f_ds f = a_ds a -> yhat f = y a) ->
  _calculate_accuracy actual_df forecast_df
  = {| rmse := 0; mae := 0; mape := 0 |}.
Proof.
  intros Hexact.
  destruct (merge actual_df forecast_df) as [|p l] eqn:Hm.
  { unfold _calculate_accuracy. now rewrite Hm. }
  assert (Hne : merge actual_df forecast_df <> []) by (rewrite Hm; easy).
  rewrite (accuracy_values actual_df forecast_df Hne).
  assert (Hz : forall q, In q (merge actual_df forecast_df) ->
                         fst q - snd q = 0).
  { intros [a b] Hq. apply merge_inner_join in Hq.
    destruct Hq as (ra & rf & Ha & Hf & Hds & <- & <-). cbn.
    rewrite (Hexact ra rf Ha Hf Hds). lra. }
  rewrite !np_mean_zeros.
  - rewrite Rmult_0_l, sqrt_0, round2_zero. reflexivity.
  - apply List.Forall_forall. intros x Hx. apply in_map_iff in Hx.
    destruct Hx as (q & <- & Hq). rewrite (Hz q Hq).
    unfold Rdiv. rewrite Rmult_0_l. apply Rabs_R0.
  - apply List.Forall_forall. intros x Hx. apply in_map_iff in Hx.
    destruct Hx as (e & <- & He). apply in_map_iff in He.
    destruct He as (q & <- & Hq). rewrite (Hz q Hq). apply Rabs_R0.
  - apply List.Forall_forall. intros x Hx. apply in_map_iff in Hx.
    destruct Hx as (e & <- & He). apply in_map_iff in He.
    destruct He as (q & <- & Hq). rewrite (Hz q Hq). cbn. ring.
Qed.

Lemma accuracy_of_exact_forecast_witness :
  _calculate_accuracy example_actual
    [ {| f_ds := "2024-01-31"; yhat := 10 |};
      {| f_ds := "2024-05-31"; yhat := 50 |} ]
  = {| rmse := 0; mae := 0; mape := 0 |}.
Proof.
  apply accuracy_of_exact_forecast.
  intros a f Ha [<-|[<-|[]]] Hds; cbn in Hds;
    destruct Ha as [<-|[<-|[<-|[]]]]; cbn in *;
    first [reflexivity | discriminate Hds].
Defined.

Lemma merge_ignores_unmatched actual_df forecast_df future :
  (forall a f, In a actual_df -> In f future -> f_ds f <> a_ds a) ->
  merge actual_df (forecast_df ++ future) = merge actual_df forecast_df.
Proof.
  intros Hnew. unfold merge.
  induction actual_df as [|a l IH]; [reflexivity|].
  cbn [flat_map]. rewrite IH by (intros a' f Ha'; apply Hnew; now right).
  f_equal. rewrite List.filter_app.
  replace (List.filter (fun f => String.eqb (f_ds f) (a_ds a)) future)
    with (@nil ForecastRow); [now rewrite app_nil_r|].
  symmetry. clear IH.
  assert (Hf : forall f, In f future -> f_ds f <> a_ds a)
    by (intros f Hf; apply Hnew; [now left | exact Hf]).
  induction future as [|f fs IHf]; [reflexivity|].
  cbn [List.filter].
  destruct (String.eqb_spec (f_ds f) (a_ds a)) as [Heq|_].
  - exfalso. apply (Hf f); [now left | exact Heq].
  - apply IHf; intros; [apply Hnew | apply Hf]; try assumption; now right.
Qed.

(** The rows of the forecast for dates without an actual value (the
    horizon ahead) do not change the accuracy. *)
Theorem accuracy_ignores_future actual_df forecast_df future :
  (forall a f, In a actual_df -> In f future -> f_ds f <> a_ds a) ->
  _calculate_accuracy actual_df (forecast_df ++ future)
  = _calculate_accuracy actual_df forecast_df.
Proof.
  intros Hnew. unfold _calculate_accuracy.
  now rewrite (merge_ignores_unmatched actual_df forecast_df future Hnew).
Qed.

Lemma accuracy_ignores_future_witness :
  _calculate_accuracy example_actual
    ([ {| f_ds := "2024-01-31"; yhat := 10 |} ]
     ++ [ {| f_ds := "2024-04-30"; yhat := 41 |} ])
  = _calculate_accuracy example_actual
      [ {| f_ds := "2024-01-31"; yhat := 10 |} ].
Proof.
  apply accuracy_ignores_future.
  intros a f Ha [<-|[]]; destruct Ha as [<-|[<-|[<-|[]]]]; discriminate.
Defined.

End AccuracyProperties.

(** ** Removing duplicate rows *)

Section DuplicateFacts.

Import Etl.

Lemma drop_duplicates_from_spec (seen rows : list (list cell)) :
  List.NoDup (drop_duplicates_from seen rows)
  /\ (forall r, In r (drop_duplicates_from seen rows)
                <-> In r rows /\ ~ In r seen)
  /\ sublist (drop_duplicates_from seen rows) rows.
Proof.
  revert seen. induction rows as [|row rows IH]; intros seen.
  - cbn. split; [constructor|]. split; [tauto | constructor].
  - cbn [drop_duplicates_from].
    destruct (decide (row ∈ seen)) as [Hin|Hnin].
    + destruct (IH seen) as (Hnd & Hmem & Hsub).
      apply list_elem_of_In in Hin.
      split; [exact Hnd|]. split; [|now apply sublist_cons].
      intros r. rewrite Hmem. cbn [In]. split.
      * intros [Hr Hs]. split; [now right | exact Hs].
      * intros [[<-|Hr] Hs]; [contradiction | now split].
    + destruct (IH (row :: seen)) as (Hnd & Hmem & Hsub).
      rewrite list_elem_of_In in Hnin.
      split; [|split; [|now apply sublist_skip]].
      * constructor; [|exact Hnd]. rewrite Hmem. cbn [In].
        intros [_ Hs]. apply Hs. now left.
      * intros r. cbn [In]. rewrite Hmem. cbn [In]. split.
        -- intros [<-|[Hr Hs]]; [split; [now left | exact Hnin]|].
           split; [now right|]. intros Hs'. apply Hs. now right.
        -- intros [[<-|Hr] Hs]; [now left|].
           destruct (decide (r = row)) as [->|Hne]; [now left|].
           right. split; [exact Hr|].
           intros [Heq|H']; [congruence | contradiction].
Qed.

Lemma drop_duplicates_from_fixed (seen rows : list (list cell)) :
  List.NoDup rows -> (forall r, In r rows -> ~ In r seen) ->
  drop_duplicates_from seen rows = rows.
Proof.
  revert seen. induction rows as [|row rows IH]; intros seen Hnd Hfresh;
    [reflexivity|].
  apply List.NoDup_cons_iff in Hnd. destruct Hnd as [Hrow Hnd].
  cbn [drop_duplicates_from].
  destruct (decide (row ∈ seen)) as [Hin|_].
  - apply list_elem_of_In in Hin. exfalso.
    apply (Hfresh row); [now left | exact Hin].
  - f_equal. apply IH; [exact Hnd|].
    intros r Hr [<-|Hs]; [contradiction|].
    apply (Hfresh r); [now right | exact Hs].
Qed.

(** [drop_duplicates] leaves no row twice, keeps every row that occurs
    and the order of the rows (the first of equal rows stays), changes
    nothing on a frame without duplicates, and so is idempotent. *)
Theorem drop_duplicates_spec (rows : list (list cell)) :
  List.NoDup (drop_duplicates rows)
  /\ (forall r, In r (drop_duplicates rows) <-> In r rows)
  /\ sublist (drop_duplicates rows) rows
  /\ (length (drop_duplicates rows) <= length rows)%nat
  /\ (List.NoDup rows -> drop_duplicates rows = rows)
  /\ drop_duplicates (drop_duplicates rows) = drop_duplicates rows.
Proof.
  unfold drop_duplicates.
  destruct (drop_duplicates_from_spec [] rows) as (Hnd & Hmem & Hsub).
  split; [exact Hnd|]. split.
  { intros r. rewrite Hmem. cbn. tauto. }
  split; [exact Hsub|]. split; [now apply sublist_length|].
  split; intros; apply drop_duplicates_from_fixed; auto.
Qed.

Lemma drop_duplicates_spec_witness :
  drop_duplicates [[CInt 1]; [CInt 2]] = [[CInt 1]; [CInt 2]].
Proof.
  destruct (drop_duplicates_spec [[CInt 1]; [CInt 2]])
    as (_ & _ & _ & _ & Hfixed & _).
  apply Hfixed.
  repeat constructor; cbn; intuition discriminate.
Defined.

End DuplicateFacts.

(** ** The median *)

Section MedianFacts.

Import Etl.
Local Open Scope R_scope.

Lemma insert_sorted_In (x y : R) (l : list R) :
  In y (insert_sorted x l) <-> y = x \/ In y l.
Proof.
  induction l as [|z l IH]; cbn; [intuition|].
  destruct (Rltb z x); cbn; rewrite ?IH; intuition.
Qed.

Lemma sort_In (y : R) (l : list R) : In y (sort l) <-> In y l.
Proof.
  unfold sort. induction l as [|x l IH]; cbn; [tauto|].
  rewrite insert_sorted_In, IH. intuition.
Qed.

Lemma insert_sorted_length (x : R) (l : list R) :
  length (insert_sorted x l) = S (length l).
Proof.
  induction l as [|z l IH]; cbn; [reflexivity|].
  destruct (Rltb z x); cbn; now rewrite ?IH.
Qed.

Lemma sort_length (l : list R) : length (sort l) = length l.
Proof.
  unfold sort. induction l as [|x l IH]; cbn; [reflexivity|].
  now rewrite insert_sorted_length, IH.
Qed.

Lemma median_facts (cells : list cell) :
  (median cells = None <-> non_null cells = [])
  /\ (forall lo hi m,
        (forall x, In x (non_null cells) -> lo <= x <= hi) ->
        median cells = Some m -> lo <= m <= hi)
  /\ (forall m, Nat.odd (length (non_null cells)) = true ->
        median cells = Some m -> In m (non_null cells)).
Proof.
  unfold median. set (s := sort (non_null cells)).
  assert (Hlen : length s = length (non_null cells)) by apply sort_length.
  assert (Hin : forall k a, s !! k = Some a -> In a (non_null cells)).
  { intros k a Hk. apply sort_In. apply list_elem_of_In.
    eapply list_elem_of_lookup_2, Hk. }
  destruct (Nat.eqb_spec (length s) 0) as [Hz|Hnz].
  { assert (Hnil : non_null cells = []).
    { destruct (non_null cells); [reflexivity | cbn in *; lia]. }
    split; [tauto|]. split; [discriminate|]. rewrite Hnil. discriminate. }
  assert (Hne : non_null cells <> []).
  { intros E. rewrite E in Hlen. cbn in Hlen. lia. }
  destruct (Nat.odd (length s)) eqn:Hodd.
  - assert (Hmid : (length s / 2 < length s)%nat)
      by (apply Nat.div_lt; lia).
    destruct (lookup_lt_is_Some_2 s _ Hmid) as [a Ha]. rewrite Ha.
    split; [split; [discriminate | contradiction]|].
    split.
    + intros lo hi m Hb [= <-]. apply Hb. now apply (Hin _ _ Ha).
    + intros m _ [= <-]. now apply (Hin _ _ Ha).
  - assert (Hge : (2 <= length s)%nat).
    { destruct (length s) as [|[|n]]; [lia | discriminate | lia]. }
    assert (Hmid : (length s / 2 < length s)%nat)
      by (apply Nat.div_lt; lia).
    assert (Hmid' : (length s / 2 - 1 < length s)%nat) by lia.
    destruct (lookup_lt_is_Some_2 s _ Hmid) as [b Hb].
    destruct (lookup_lt_is_Some_2 s _ Hmid') as [a Ha].
    rewrite Ha, Hb.
    split; [split; [discriminate | contradiction]|].
    split.
    + intros lo hi m Hbd [= <-].
      pose proof (Hbd a (Hin _ _ Ha)). pose proof (Hbd b (Hin _ _ Hb)).
      lra.
    + intros m Ho. rewrite <- Hlen, Hodd in Ho. discriminate.
Qed.

(** The median of a column is NaN exactly when the column has no value,
    and otherwise lies between any bounds of its values (it is one of
    the values when their number is odd). *)
Theorem median_spec (cells : list cell) :
  (median cells = None <-> non_null cells = [])
  /\ (forall lo hi m,
        (forall x, In x (non_null cells) -> lo <= x <= hi) ->
        median cells = Some m -> lo <= m <= hi)
  /\ (forall m, Nat.odd (length (non_null cells)) = true ->
        median cells = Some m -> In m (non_null cells)).
Proof. exact (median_facts cells). Qed.

Lemma median_spec_witness :
  median [CFloat None; CFloat None] = None.
Proof.
  apply (proj1 (median_spec [CFloat None; CFloat None])). reflexivity.
Defined.

End MedianFacts.

(** ** Filling the columns *)

Section FillFacts.

Import Etl.

Lemma column_cons (j : nat) (row : list cell) (rows : list (list cell)) :
  column j (row :: rows)
  = match row !! j with
    | Some c => c :: column j rows
    | None => column j rows
    end.
Proof. unfold column. cbn. destruct (row !! j); reflexivity. Qed.

(** [fillna] on column [j] fills the nulls of that column and leaves the
    other columns alone. *)
Lemma column_fillna (j k : nat) (v : cell) (rows : list (list cell)) :
  column k (fillna j v rows)
  = if decide (k = j) then map (fill_with v) (column j rows)
    else column k rows.
Proof.
  unfold fillna. induction rows as [|row rows IH].
  - destruct (decide (k = j)); reflexivity.
  - cbn [map]. rewrite !column_cons, IH.
    destruct (row !! j) as [c|] eqn:Hj.
    + unfold fill_with. destruct (isnull c) eqn:Hnull.
      * destruct (decide (k = j)) as [->|Hne].
        -- rewrite list_lookup_insert_eq
             by (now apply lookup_lt_Some in Hj).
           cbn [map]. now rewrite Hnull.
        -- rewrite list_lookup_insert_ne by congruence. reflexivity.
      * destruct (decide (k = j)) as [->|Hne]; [|reflexivity].
        rewrite Hj. cbn [map]. now rewrite Hnull.
    + destruct (decide (k = j)) as [->|Hne]; [|reflexivity].
      now rewrite Hj.
Qed.

Lemma fill_with_no_null (v : cell) (cells : list cell) :
  existsb isnull cells = false -> map (fill_with v) cells = cells.
Proof.
  induction cells as [|c cells IH]; [reflexivity|]. cbn.
  intros H. apply orb_false_iff in H. destruct H as [Hc Hr].
  unfold fill_with at 1. now rewrite Hc, IH.
Qed.

Lemma map_fst_enumerate {A} (l : list A) (s : nat) :
  map fst (zip (seq s (length l)) l) = seq s (length l).
Proof.
  revert s. induction l as [|x l IH]; intros s; [reflexivity|].
  cbn. now rewrite IH.
Qed.

Lemma find_enumerate {A} (l : list A) (s k : nat) :
  find (fun ix : nat * A => Nat.eqb (fst ix) k) (zip (seq s (length l)) l)
  = if Nat.leb s k then (fun c => (k, c)) <$> l !! (k - s) else None.
Proof.
  revert s. induction l as [|x l IH]; intros s.
  - cbn. destruct (Nat.leb s k); reflexivity.
  - cbn [length seq zip_with find fst]. rewrite IH.
    destruct (Nat.eqb_spec s k) as [->|Hne].
    + rewrite Nat.leb_refl, Nat.sub_diag. reflexivity.
    + destruct (Nat.leb_spec s k) as [Hle|Hgt].
      * destruct (Nat.leb_spec (S s) k); [|lia].
        replace (k - s) with (S (k - S s)) by lia. reflexivity.
      * destruct (Nat.leb_spec (S s) k); [lia | reflexivity].
Qed.

Lemma find_none_all {A} (f : A -> bool) (l : list A) :
  (forall x, In x l -> f x = false) -> find f l = None.
Proof.
  induction l as [|x l IH]; intros H; [reflexivity|]. cbn.
  rewrite (H x (or_introl eq_refl)). apply IH.
  intros y Hy. apply H. now right.
Qed.

(** A loop that treats each column once, by its position, changes a
    column only in the turn of that column. *)
Lemma fold_columns {C}
    (step : nat * C -> list (list cell) -> list (list cell))
    (change : C -> list cell -> list cell) :
  (forall j c k rows, k <> j ->
     column k (step (j, c) rows) = column k rows) ->
  (forall j c rows,
     column j (step (j, c) rows) = change c (column j rows)) ->
  forall ixs rows k,
    List.NoDup (map fst ixs) ->
    column k (fold_left (fun rows ix => step ix rows) ixs rows)
    = match find (fun ix => Nat.eqb (fst ix) k) ixs with
      | Some ix => change (snd ix) (column k rows)
      | None => column k rows
      end.
Proof.
  intros Hother Hown ixs.
  induction ixs as [|[j c] ixs IH]; intros rows k Hnd; [reflexivity|].
  cbn [map fst] in Hnd. apply List.NoDup_cons_iff in Hnd.
  destruct Hnd as [Hfresh Hnd]. cbn [fold_left find fst].
  rewrite (IH _ _ Hnd).
  destruct (Nat.eqb_spec j k) as [->|Hne].
  - replace (find (fun ix => Nat.eqb (fst ix) k) ixs) with (@None (nat * C)).
    + cbn [snd]. apply Hown.
    + symmetry. apply find_none_all. intros ix Hix.
      apply Nat.eqb_neq. intros Heq. apply Hfresh. rewrite <- Heq.
      now apply in_map.
  - rewrite (Hother j c k rows) by congruence. reflexivity.
Qed.

End FillFacts.

Section ColumnFacts.

Import Etl.

Lemma column_fill_numeric (cols : list (string * dtype))
    (rows : list (list cell)) (k : nat) :
  column k (fill_numeric cols rows)
  = match cols !! k with
    | Some col => imputed_numeric (snd col) (column k rows)
    | None => column k rows
    end.
Proof.
  set (step := fun (ix : nat * (string * dtype)) (rows : list (list cell)) =>
         let '(j, (_, dt)) := ix in
         match dt with
         | float64 | int64 =>
             if any_null j rows
             then fillna j (CFloat (median (column j rows))) rows
             else rows
         | _ => rows
         end).
  change (fill_numeric cols rows)
    with (fold_left (fun rows ix => step ix rows)
                    (zip (seq 0 (length cols)) cols) rows).
  rewrite (fold_columns step (fun col => imputed_numeric (snd col))).
  - rewrite find_enumerate. cbn [Nat.leb]. rewrite Nat.sub_0_r.
    destruct (cols !! k); reflexivity.
  - intros j [n dt] k' rows' Hne. unfold step.
    destruct dt; try reflexivity;
      (destruct (any_null j rows'); [|reflexivity]);
      rewrite column_fillna; now rewrite decide_False.
  - intros j [n dt] rows'. unfold step, imputed_numeric, any_null.
    cbn [snd].
    destruct dt; try reflexivity;
      (destruct (existsb isnull (column j rows')); [|reflexivity]);
      rewrite column_fillna; now rewrite decide_True.
  - rewrite map_fst_enumerate. apply List.seq_NoDup.
Qed.

Lemma column_fill_categorical (date_column : string)
    (cols : list (string * dtype)) (rows : list (list cell)) (k : nat) :
  column k (fill_categorical date_column cols rows)
  = match cols !! k with
    | Some col => imputed_categorical date_column col (column k rows)
    | None => column k rows
    end.
Proof.
  set (step := fun (ix : nat * (string * dtype)) (rows : list (list cell)) =>
         let '(j, (col, dt)) := ix in
         match dt with
         | object =>
             if negb (String.eqb col date_column) && any_null j rows
             then fillna j (CObj (Some "Unknown")) rows
             else rows
         | _ => rows
         end).
  change (fill_categorical date_column cols rows)
    with (fold_left (fun rows ix => step ix rows)
                    (zip (seq 0 (length cols)) cols) rows).
  rewrite (fold_columns step (imputed_categorical date_column)).
  - rewrite find_enumerate. cbn [Nat.leb]. rewrite Nat.sub_0_r.
    destruct (cols !! k); reflexivity.
  - intros j [n dt] k' rows' Hne. unfold step.
    destruct dt; try reflexivity.
    destruct (negb _ && _); [|reflexivity].
    rewrite column_fillna; now rewrite decide_False.
  - intros j [n dt] rows'. unfold step, imputed_categorical, any_null.
    cbn [fst snd].
    destruct dt; try reflexivity.
    destruct (negb _ && _); [|reflexivity].
    rewrite column_fillna; now rewrite decide_True.
  - rewrite map_fst_enumerate. apply List.seq_NoDup.
Qed.

(** The rows and the columns of the frame [clean_dataframe] returns. *)
Lemma clean_dataframe_result
    (to_datetime : list cell -> result (list (option Z)))
    (df out : DataFrame) (date_column : string) :
  clean_dataframe to_datetime df date_column = Ok out ->
  exists converted,
    match column_index date_column (columns df) with
    | Some j => convert_dates to_datetime j df
    | None => Ok df
    end = Ok converted
    /\ columns out = columns converted
    /\ rows out
       = fill_categorical date_column (columns converted)
           (fill_numeric (columns converted)
              (drop_duplicates (rows converted))).
Proof.
  unfold clean_dataframe.
  destruct (match column_index date_column (columns df) with
            | Some j => convert_dates to_datetime j df
            | None => Ok df
            end) as [converted|e]; [|discriminate].
  intros [= <-]. now exists converted.
Qed.

End ColumnFacts.

(** ** What cleaning does to a frame *)

Section CleanFacts.

Import Etl.

Lemma clean_column
    (to_datetime : list cell -> result (list (option Z)))
    (df out : DataFrame) (date_column : string) :
  clean_dataframe to_datetime df date_column = Ok out ->
  exists converted,
    match column_index date_column (columns df) with
    | Some j => convert_dates to_datetime j df
    | None => Ok df
    end = Ok converted
    /\ columns out = columns converted
    /\ forall k name dt,
         columns out !! k = Some (name, dt) ->
         let cells := column k (drop_duplicates (rows converted)) in
         column k (rows out)
         = match dt with
           | float64 | int64 =>
               map (fill_with (CFloat (median cells))) cells
           | object =>
               if String.eqb name date_column then cells
               else map (fill_with (CObj (Some "Unknown"))) cells
           | datetime64 => cells
           end.
Proof.
  intros Hclean.
  destruct (clean_dataframe_result _ _ _ _ Hclean)
    as (converted & Hconv & Hcols & Hrows).
  exists converted. split; [exact Hconv|]. split; [exact Hcols|].
  intros k name dt Hk cells. rewrite Hcols in Hk.
  rewrite Hrows, column_fill_categorical, Hk, column_fill_numeric, Hk.
  fold cells. unfold imputed_categorical, imputed_numeric. cbn [fst snd].
  destruct dt; try reflexivity.
  - destruct (existsb isnull cells) eqn:Hnull; [reflexivity|].
    now rewrite fill_with_no_null.
  - destruct (existsb isnull cells) eqn:Hnull; [reflexivity|].
    now rewrite fill_with_no_null.
  - destruct (String.eqb name date_column); cbn [negb andb];
      [reflexivity|].
    destruct (existsb isnull cells) eqn:Hnull; [reflexivity|].
    now rewrite fill_with_no_null.
Qed.

(** Column by column: [clean_dataframe] returns, of the rows left after
    the date conversion and the removal of duplicates, a numeric column
    with its nulls replaced by its median, a text column other than the
    date column with its nulls replaced by 'Unknown', and any other
    column as it is; no cell that holds a value is changed. *)
Theorem clean_dataframe_columns
    (to_datetime : list cell -> result (list (option Z)))
    (df out : DataFrame) (date_column : string) :
  clean_dataframe to_datetime df date_column = Ok out ->
  exists converted,
    match column_index date_column (columns df) with
    | Some j => convert_dates to_datetime j df
    | None => Ok df
    end = Ok converted
    /\ columns out = columns converted
    /\ forall k name dt,
         columns out !! k = Some (name, dt) ->
         let cells := column k (drop_duplicates (rows converted)) in
         column k (rows out)
         = match dt with
           | float64 | int64 =>
               map (fill_with (CFloat (median cells))) cells
           | object =>
               if String.eqb name date_column then cells
               else map (fill_with (CObj (Some "Unknown"))) cells
           | datetime64 => cells
           end.
Proof. exact (clean_column to_datetime df out date_column). Qed.

Lemma filled_not_null (v : cell) (cells : list cell) :
  isnull v = false ->
  Forall (fun c => isnull c = false) (map (fill_with v) cells).
Proof.
  intros Hv. apply List.Forall_forall. intros c Hc.
  apply in_map_iff in Hc. destruct Hc as (c0 & <- & _).
  unfold fill_with. destruct (isnull c0) eqn:H0; assumption.
Qed.

(** After cleaning, a text column other than the date column has no
    null, and a numeric column that holds any value has no null. *)
Theorem clean_dataframe_no_nulls
    (to_datetime : list cell -> result (list (option Z)))
    (df out : DataFrame) (date_column : string) (k : nat) (name : string)
    (dt : dtype) :
  clean_dataframe to_datetime df date_column = Ok out ->
  columns out !! k = Some (name, dt) ->
  (dt = object -> name <> date_column ->
     Forall (fun c => isnull c = false) (column k (rows out)))
  /\ (dt = float64 \/ dt = int64 ->
      (exists x, In (CFloat (Some x)) (column k (rows out))) ->
      Forall (fun c => isnull c = false) (column k (rows out))).
Proof.
  intros Hclean Hk.
  destruct (clean_column _ _ _ _ Hclean) as (converted & _ & _ & Hcol).
  specialize (Hcol k name dt Hk). cbv zeta in Hcol.
  set (cells := column k (drop_duplicates (rows converted))) in *.
  split.
  - intros -> Hname. rewrite Hcol.
    destruct (String.eqb_spec name date_column); [contradiction|].
    now apply filled_not_null.
  - intros Hdt [x Hx].
    assert (Hcol' : column k (rows out)
                    = map (fill_with (CFloat (median cells))) cells)
      by (destruct Hdt as [-> | ->]; exact Hcol).
    rewrite Hcol' in Hx |- *.
    apply filled_not_null.
    destruct (median cells) as [m|] eqn:Hm; [reflexivity|].
    exfalso. apply (proj1 (median_facts cells)) in Hm.
    apply in_map_iff in Hx. destruct Hx as (c & Hc & Hin).
    unfold fill_with in Hc. destruct (isnull c) eqn:Hnull;
      [discriminate|]. subst c.
    assert (Hnn : In x (non_null cells)).
    { unfold non_null. apply list_elem_of_In.
      apply list_elem_of_omap. exists (CFloat (Some x)).
      split; [now apply list_elem_of_In | reflexivity]. }
    rewrite Hm in Hnn. destruct Hnn.
Qed.

End CleanFacts.

Section CleanSize.

Import Etl.

Lemma fold_length {A} (f : list (list cell) -> A -> list (list cell))
    (l : list A) (rows : list (list cell)) :
  (forall rows a, length (f rows a) = length rows) ->
  length (fold_left f l rows) = length rows.
Proof.
  intros Hf. revert rows. induction l as [|a l IH]; intros rows;
    [reflexivity|].
  cbn. now rewrite IH, Hf.
Qed.

Lemma fillna_length j v rows : length (fillna j v rows) = length rows.
Proof. unfold fillna. apply length_map. Qed.

Lemma fill_numeric_length cols rows :
  length (fill_numeric cols rows) = length rows.
Proof.
  unfold fill_numeric. apply fold_length.
  intros rows' [j [n dt]]. destruct dt; try reflexivity;
    (destruct (any_null j rows'); [apply fillna_length | reflexivity]).
Qed.

Lemma fill_categorical_length date_column cols rows :
  length (fill_categorical date_column cols rows) = length rows.
Proof.
  unfold fill_categorical. apply fold_length.
  intros rows' [j [n dt]]. destruct dt; try reflexivity.
  destruct (negb _ && _); [apply fillna_length | reflexivity].
Qed.

Lemma alter_names (j : nat) (cols : list (string * dtype)) :
  map fst (alter (fun '(name, _) => (name, datetime64)) j cols)
  = map fst cols.
Proof.
  revert j. induction cols as [|[n dt] cols IH]; intros [|j];
    try reflexivity.
  cbn. f_equal. apply IH.
Qed.

(** [clean_dataframe] never adds a row and keeps the names of the
    columns; without a date column it does not raise, and when it
    raises the exception is the one of [pd.to_datetime]. *)
Theorem clean_dataframe_size
    (to_datetime : list cell -> result (list (option Z)))
    (df : DataFrame) (date_column : string) :
  (forall out, clean_dataframe to_datetime df date_column = Ok out ->
     (length (rows out) <= length (rows df))%nat
     /\ map fst (columns out) = map fst (columns df))
  /\ (column_index date_column (columns df) = None ->
      exists out, clean_dataframe to_datetime df date_column = Ok out
                  /\ columns out = columns df)
  /\ (forall e, clean_dataframe to_datetime df date_column = Raise e ->
      exists j, column_index date_column (columns df) = Some j
                /\ to_datetime (column j (rows df)) = Raise e).
Proof.
  split; [|split].
  - intros out Hclean.
    destruct (clean_dataframe_result _ _ _ _ Hclean)
      as (converted & Hconv & Hcols & Hrows).
    rewrite Hrows, Hcols, fill_categorical_length, fill_numeric_length.
    assert (Hc : (length (rows converted) <= length (rows df))%nat
                 /\ map fst (columns converted) = map fst (columns df)).
    { destruct (column_index date_column (columns df)) as [j|].
      - unfold convert_dates in Hconv.
        destruct (to_datetime _) as [stamps|e]; [|discriminate].
        injection Hconv as <-. cbn [rows columns].
        split; [rewrite length_zip_with; lia | apply alter_names].
      - injection Hconv as <-. split; [lia | reflexivity]. }
    destruct Hc as [Hlen Hnames]. split; [|exact Hnames].
    etransitivity; [|exact Hlen].
    apply sublist_length.
    apply (drop_duplicates_from_spec [] (rows converted)).
  - intros Hnone. unfold clean_dataframe. rewrite Hnone.
    eexists. split; reflexivity.
  - intros e Hraise. unfold clean_dataframe in Hraise.
    destruct (column_index date_column (columns df)) as [j|];
      [|discriminate Hraise].
    unfold convert_dates in Hraise.
    destruct (to_datetime (column j (rows df))) as [stamps|e'] eqn:Htd;
      [discriminate Hraise|].
    injection Hraise as <-. now exists j.
Qed.

End CleanSize.

Section CleanWitnesses.

Import Etl.

Lemma sample_frame_cleans :
  exists out,
    clean_dataframe sample_to_datetime sample_frame "date" = Ok out
    /\ columns out = [("date", datetime64); ("region", object);
                      ("revenue", float64)].
Proof.
  unfold clean_dataframe, sample_to_datetime, convert_dates.
  cbn [column_index sample_frame columns].
  change (String.eqb "date" "date") with true. cbv iota.
  eexists. split; reflexivity.
Qed.

Lemma clean_dataframe_columns_witness :
  exists out converted,
    clean_dataframe sample_to_datetime sample_frame "date" = Ok out
    /\ columns out = columns converted
    /\ column 1 (rows out)
       = map (fill_with (CObj (Some "Unknown")))
             (column 1 (drop_duplicates (rows converted))).
Proof.
  destruct sample_frame_cleans as (out & Hclean & Hcols).
  destruct (clean_dataframe_columns sample_to_datetime sample_frame out
              "date" Hclean) as (converted & _ & Hc & Hcol).
  exists out, converted. split; [exact Hclean|]. split; [exact Hc|].
  apply (Hcol 1%nat "region" object). now rewrite Hcols.
Defined.

Lemma clean_dataframe_no_nulls_witness :
  exists out,
    clean_dataframe sample_to_datetime sample_frame "date" = Ok out
    /\ Forall (fun c => isnull c = false) (column 1 (rows out)).
Proof.
  destruct sample_frame_cleans as (out & Hclean & Hcols).
  exists out. split; [exact Hclean|].
  apply (proj1 (clean_dataframe_no_nulls sample_to_datetime sample_frame
                  out "date" 1 "region" object Hclean
                  ltac:(now rewrite Hcols)));
    [reflexivity | discriminate].
Defined.

Lemma clean_dataframe_size_witness :
  exists out,
    clean_dataframe sample_to_datetime
      {| columns := [("budget", float64)]; rows := [[CFloat None]] |}
      "date" = Ok out
    /\ columns out = [("budget", float64)].
Proof.
  apply (proj1 (proj2 (clean_dataframe_size sample_to_datetime
                         {| columns := [("budget", float64)];
                            rows := [[CFloat None]] |} "date"))).
  reflexivity.
Defined.

End CleanWitnesses.

(** ** The refresh task *)

Section TaskFacts.

Import Endpoints.

Variable run_full_pipeline : bool -> option string.
Variable forecast_all_key_metrics : option string.
Variable detect_all_anomalies : option string.
Variable generate_all_insights : option string.
Variable now : string.

Local Abbreviation task :=
  (refresh_data_task run_full_pipeline forecast_all_key_metrics
     detect_all_anomalies generate_all_insights now).
Local Abbreviation final :=
  (final_status run_full_pipeline forecast_all_key_metrics
     detect_all_anomalies generate_all_insights now).
Local Abbreviation error_of :=
  (first_error run_full_pipeline forecast_all_key_metrics
     detect_all_anomalies generate_all_insights).

Ltac task_cases request :=
  destruct request as [regen fc an ins];
  unfold final_status, refresh_data_task, first_error, stage, on_exception,
    on_success;
  cbn [regenerate_data run_forecasting run_anomaly_detection run_insights];
  destruct (run_full_pipeline regen);
  destruct fc; destruct forecast_all_key_metrics;
  destruct an; destruct detect_all_anomalies;
  destruct ins; destruct generate_all_insights.

Lemma final_status_outcome (request : RefreshRequest) (rs : RefreshStatus) :
  match error_of request with
  | None =>
      final request rs
      = {| last_refresh := Some now; status := "completed";
           message := "Data refresh completed successfully" |}
  | Some e =>
      final request rs
      = {| last_refresh := last_refresh rs; status := "failed";
           message := ("Error during refresh: " ++ e)%string |}
  end.
Proof. task_cases request; reflexivity. Qed.

Lemma task_statuses (request : RefreshRequest) (rs s : RefreshStatus) :
  In s (task request rs) ->
  In (status s) ["running"; "completed"; "failed"].
Proof.
  task_cases request; intros Hs; cbn [In] in Hs;
    repeat (destruct Hs as [<-|Hs]; [cbn; tauto|]); destruct Hs.
Qed.

End TaskFacts.

Section TaskTheorems.

Import Endpoints.

(** When the task is over [refresh_status] is "completed", with the
    time of the end as last_refresh and the success message, if no
    stage that the request enables raised; otherwise it is "failed",
    with the text of the first exception in the message and
    last_refresh as it was before the task. *)
Theorem refresh_data_task_outcome
    (run_full_pipeline : bool -> option string)
    (forecast_all_key_metrics detect_all_anomalies
       generate_all_insights : option string)
    (now : string) (request : RefreshRequest) (rs : RefreshStatus) :
  let final :=
    final_status run_full_pipeline forecast_all_key_metrics
      detect_all_anomalies generate_all_insights now request rs in
  match first_error run_full_pipeline forecast_all_key_metrics
          detect_all_anomalies generate_all_insights request with
  | None =>
      final = {| last_refresh := Some now; status := "completed";
                 message := "Data refresh completed successfully" |}
  | Some e =>
      final = {| last_refresh := last_refresh rs; status := "failed";
                 message := ("Error during refresh: " ++ e)%string |}
  end.
Proof.
  exact (final_status_outcome run_full_pipeline forecast_all_key_metrics
           detect_all_anomalies generate_all_insights now request rs).
Qed.

(** The task sets the status to "running" with its first assignment and
    never sets it back to "idle"; it always ends in "completed" or
    "failed", so that a refresh triggered after the task is accepted. *)
Theorem refresh_data_task_releases
    (run_full_pipeline : bool -> option string)
    (forecast_all_key_metrics detect_all_anomalies
       generate_all_insights : option string)
    (now : string) (request request' : RefreshRequest)
    (rs : RefreshStatus) (queue : list RefreshRequest) :
  let trace :=
    refresh_data_task run_full_pipeline forecast_all_key_metrics
      detect_all_anomalies generate_all_insights now request rs in
  let final :=
    final_status run_full_pipeline forecast_all_key_metrics
      detect_all_anomalies generate_all_insights now request rs in
  (exists rest, trace = set_status "running" rs :: rest)
  /\ (forall s, In s trace -> status s <> "idle")
  /\ (status final = "completed" \/ status final = "failed")
  /\ refresh_data request'
       {| refresh_status := final; background_tasks := queue |}
     = (Dict [("status", "accepted");
              ("message", "Data refresh started in background");
              ("check_status_at", "/status")],
        {| refresh_status := final;
           background_tasks := queue ++ [request'] |}).
Proof.
  intros trace final.
  assert (Hfinal : status final = "completed" \/ status final = "failed").
  { pose proof (final_status_outcome run_full_pipeline
                  forecast_all_key_metrics detect_all_anomalies
                  generate_all_insights now request rs) as H.
    fold final in H.
    destruct (first_error _ _ _ _ _); rewrite H; cbn; tauto. }
  split; [eexists; reflexivity|].
  split.
  { intros s Hs Hidle.
    pose proof (task_statuses _ _ _ _ _ _ _ _ Hs) as H.
    rewrite Hidle in H. cbn in H. intuition discriminate. }
  split; [exact Hfinal|].
  unfold refresh_data, add_task. cbn [refresh_status background_tasks].
  destruct Hfinal as [-> | ->]; reflexivity.
Qed.

(** [refresh_data] does not set the status itself (the task does, when
    it starts): two triggers in a row, before a task has started, are
    both accepted and both tasks are queued. *)
Theorem refresh_data_twice
    (request1 request2 : RefreshRequest) (app : App) :
  status (refresh_status app) <> "running" ->
  let app1 := snd (refresh_data request1 app) in
  let app2 := snd (refresh_data request2 app1) in
  status_code_of (fst (refresh_data request1 app)) = 200%Z
  /\ status_code_of (fst (refresh_data request2 app1)) = 200%Z
  /\ background_tasks app2 = background_tasks app ++ [request1; request2]
  /\ refresh_status app2 = refresh_status app.
Proof.
  intros Hne app1 app2.
  assert (H1 : refresh_data request1 app
               = (Dict [("status", "accepted");
                        ("message", "Data refresh started in background");
                        ("check_status_at", "/status")],
                  add_task request1 app)).
  { unfold refresh_data.
    destruct (String.eqb_spec (status (refresh_status app)) "running");
      [contradiction | reflexivity]. }
  assert (H2 : refresh_data request2 (add_task request1 app)
               = (Dict [("status", "accepted");
                        ("message", "Data refresh started in background");
                        ("check_status_at", "/status")],
                  add_task request2 (add_task request1 app))).
  { unfold refresh_data. cbn [add_task refresh_status].
    destruct (String.eqb_spec (status (refresh_status app)) "running");
      [contradiction | reflexivity]. }
  subst app2 app1. rewrite H1. cbn [fst snd]. rewrite H2. cbn [fst snd].
  split; [reflexivity|]. split; [reflexivity|].
  cbn [add_task background_tasks refresh_status].
  split; [now rewrite <- app_assoc | reflexivity].
Qed.

Lemma refresh_data_twice_witness :
  let request := {| regenerate_data := false; run_forecasting := true;
                    run_anomaly_detection := true; run_insights := true |} in
  let app := {| refresh_status := refresh_status0;
                background_tasks := [] |} in
  background_tasks
    (snd (refresh_data request (snd (refresh_data request app))))
  = [request; request].
Proof.
  intros request app.
  apply (refresh_data_twice request request app). discriminate.
Defined.

End TaskTheorems.
